(** * Dash MCP server: a shallow embedding of [server.py]

    The development follows the layout of [src/dash_mcp_server/server.py]:
    Python values and the token estimate, the budgeting loop shared by
    [list_installed_docsets] and [search_documentation], the whitespace
    clean-up of [fetch_documentation_content], the lifecycle ladder
    ([check_dash_running], [ensure_dash_running], [get_dash_api_port],
    [working_api_base_url]) and the four tools.

    Conventions.
    - A Python [str] is a [string]; [len] is [String.length].  Code points
      above 255 are outside this model.
    - A Python [int] is a [Z].
    - Effects are explicit: a computation receives the history of external
      actions performed so far and returns its outcome together with the
      actions it performed itself.  What the outside answers (processes, the
      status file, HTTP peers) is an arbitrary function of that history. *)

From Stdlib Require Import ZArith List String Ascii Lia Bool DecimalString.
Import ListNotations.

Local Open Scope string_scope.
Local Open Scope Z_scope.

Set Warnings "-register-all".

(** ** Python values *)

(** The values the server handles: what [json.load] / [response.json()]
    produce ([None], [bool], [int], [str], [list], [dict]), tuples, and
    Pydantic models.  A model is given by the field/value pairs of its
    [model_dump()], in declaration order. *)
Inductive pyobj : Type :=
| PNone
| PBool (b : bool)
| PInt (z : Z)
| PStr (s : string)
| PList (items : list pyobj)
| PTuple (items : list pyobj)
| PDict (kvs : list (pyobj * pyobj))
| PModel (dump : list (string * pyobj)).

(** [str(obj)] for the scalars that reach the last branch of
    [estimate_tokens]. *)
Definition scalar_str (o : pyobj) : string :=
  match o with
  | PNone => "None"
  | PBool true => "True"
  | PBool false => "False"
  | PInt z => NilZero.string_of_int (Z.to_int z)
  | _ => EmptyString
  end.

(** [sum(...)] over Python ints. *)
Definition zsum (l : list Z) : Z := fold_right Z.add 0 l.

(** [max(1, len(s) // 4)]: the estimate of one string. *)
Definition str_tokens (s : string) : Z :=
  Z.max 1 (Z.of_nat (String.length s) / 4).

(** [estimate_tokens], branch by branch. *)
Fixpoint estimate_tokens (obj : pyobj) : Z :=
  match obj with
  | PStr s => Z.max 1 (Z.of_nat (String.length s) / 4)
  | PList items | PTuple items => zsum (map estimate_tokens items)
  | PDict kvs =>
      zsum (map (fun kv => match kv with
                           | (k, v) => estimate_tokens k + estimate_tokens v
                           end) kvs)
  | PModel dump =>
      zsum (map (fun kv => match kv with
                           | (k, v) => str_tokens k + estimate_tokens v
                           end) dump)
  | PNone | PBool _ | PInt _ =>
      Z.max 1 (Z.of_nat (String.length (scalar_str obj)) / 4)
  end.

(** [obj.model_dump()] of a model, as the [dict] it is. *)
Definition model_dump (dump : list (string * pyobj)) : pyobj :=
  PDict (map (fun kv => (PStr (fst kv), snd kv)) dump).

(** ** Exceptions and outcomes *)

(** The part of an [httpx.Response] that the server reads.  [json_body] is
    what [response.json()] returns, [None] when it raises. *)
Record response : Type := mkResponse {
  status_code : Z;
  reason_phrase : string;
  text : string;
  json_body : option pyobj
}.

(** The exception classes the handlers tell apart; everything else is
    [OtherError], carrying its [str(e)]. *)
Inductive exn : Type :=
| HTTPStatusError (r : response) (msg : string)
| CalledProcessError
| FileNotFoundError
| JSONDecodeError (msg : string)
| KeyError (key : string)
| OtherError (msg : string).

(** [str(e)] / [f"{e}"].  The texts of the library exceptions are
    schematic. *)
Definition exn_str (e : exn) : string :=
  match e with
  | HTTPStatusError _ msg => msg
  | CalledProcessError => "Command returned non-zero exit status"
  | FileNotFoundError => "No such file or directory"
  | JSONDecodeError msg => msg
  | KeyError key => "'" ++ key ++ "'"
  | OtherError msg => msg
  end.

Inductive outcome (A : Type) : Type :=
| Val (a : A)
| Exc (e : exn).
Arguments Val {A} a.
Arguments Exc {A} e.

(** ** Pydantic models of the server *)

Record DocsetResult : Type := mkDocsetResult {
  dr_name : string;
  dr_identifier : string;
  dr_platform : string;
  dr_full_text_search : string;
  dr_notice : option string
}.

Record SearchResult : Type := mkSearchResult {
  sr_name : string;
  sr_type : string;
  sr_platform : option string;
  sr_load_url : string;
  sr_docset : option string;
  sr_description : option string;
  sr_language : option string;
  sr_tags : option string
}.

Record DocsetResults : Type := mkDocsetResults {
  docsets : list DocsetResult;
  docsets_error : option string
}.

Record SearchResults : Type := mkSearchResults {
  results : list SearchResult;
  results_error : option string
}.

Record DocumentationContent : Type := mkDocumentationContent {
  dc_load_url : string;
  dc_title : string;
  dc_content : string;
  dc_error : option string
}.

Definition py_opt_str (o : option string) : pyobj :=
  match o with
  | Some s => PStr s
  | None => PNone
  end.

Definition DocsetResult_py (d : DocsetResult) : pyobj :=
  PModel [ ("name", PStr (dr_name d));
           ("identifier", PStr (dr_identifier d));
           ("platform", PStr (dr_platform d));
           ("full_text_search", PStr (dr_full_text_search d));
           ("notice", py_opt_str (dr_notice d)) ].

Definition SearchResult_py (r : SearchResult) : pyobj :=
  PModel [ ("name", PStr (sr_name r));
           ("type", PStr (sr_type r));
           ("platform", py_opt_str (sr_platform r));
           ("load_url", PStr (sr_load_url r));
           ("docset", py_opt_str (sr_docset r));
           ("description", py_opt_str (sr_description r));
           ("language", py_opt_str (sr_language r));
           ("tags", py_opt_str (sr_tags r)) ].

(** ** Reading parsed JSON *)

(** [d.get(key)] / [key in d] on a parsed JSON object. *)
Fixpoint dict_get (key : string) (kvs : list (pyobj * pyobj)) : option pyobj :=
  match kvs with
  | [] => None
  | (PStr k, v) :: rest => if String.eqb k key then Some v else dict_get key rest
  | _ :: rest => dict_get key rest
  end.

(** [obj[key]]: [KeyError] on a dict without the key, [TypeError] on
    anything that is not a dict. *)
Definition subscript (obj : pyobj) (key : string) : outcome pyobj :=
  match obj with
  | PDict kvs =>
      match dict_get key kvs with
      | Some v => Val v
      | None => Exc (KeyError key)
      end
  | _ => Exc (OtherError "TypeError")
  end.

(** [obj.get(key)]: [None] for a missing key, [AttributeError] on anything
    that is not a dict. *)
Definition dot_get (obj : pyobj) (key : string) : outcome pyobj :=
  match obj with
  | PDict kvs =>
      match dict_get key kvs with
      | Some v => Val v
      | None => Val PNone
      end
  | _ => Exc (OtherError "AttributeError")
  end.

(** Pydantic validation of a [str] field and of an [Optional[str]] field. *)
Definition as_str (v : pyobj) : outcome string :=
  match v with
  | PStr s => Val s
  | _ => Exc (OtherError "ValidationError")
  end.

Definition as_opt_str (v : pyobj) : outcome (option string) :=
  match v with
  | PNone => Val None
  | PStr s => Val (Some s)
  | _ => Exc (OtherError "ValidationError")
  end.

Definition obind {A B} (o : outcome A) (k : A -> outcome B) : outcome B :=
  match o with
  | Val a => k a
  | Exc e => Exc e
  end.

(** [DocsetResult(name=docset["name"], ..., notice=docset.get("notice"))]:
    the arguments are evaluated left to right, then the model validates. *)
Definition build_docset (docset : pyobj) : outcome DocsetResult :=
  obind (subscript docset "name") (fun name =>
  obind (subscript docset "identifier") (fun identifier =>
  obind (subscript docset "platform") (fun platform =>
  obind (subscript docset "full_text_search") (fun fts =>
  obind (dot_get docset "notice") (fun notice =>
  obind (as_str name) (fun name' =>
  obind (as_str identifier) (fun identifier' =>
  obind (as_str platform) (fun platform' =>
  obind (as_str fts) (fun fts' =>
  obind (as_opt_str notice) (fun notice' =>
  Val (mkDocsetResult name' identifier' platform' fts' notice'))))))))))).

(** [SearchResult(name=item["name"], type=item["type"], ...)]. *)
Definition build_search_result (item : pyobj) : outcome SearchResult :=
  obind (subscript item "name") (fun name =>
  obind (subscript item "type") (fun type =>
  obind (dot_get item "platform") (fun platform =>
  obind (subscript item "load_url") (fun load_url =>
  obind (dot_get item "docset") (fun docset =>
  obind (dot_get item "description") (fun description =>
  obind (dot_get item "language") (fun language =>
  obind (dot_get item "tags") (fun tags =>
  obind (as_str name) (fun name' =>
  obind (as_str type) (fun type' =>
  obind (as_opt_str platform) (fun platform' =>
  obind (as_str load_url) (fun load_url' =>
  obind (as_opt_str docset) (fun docset' =>
  obind (as_opt_str description) (fun description' =>
  obind (as_opt_str language) (fun language' =>
  obind (as_opt_str tags) (fun tags' =>
  Val (mkSearchResult name' type' platform' load_url' docset'
         description' language' tags'))))))))))))))))).

(** ** The budgeting loop *)

Definition token_limit : Z := 25000.
Definition base_overhead : Z := 100.

Section Budget.
Context {Raw Item : Type}.
Variable build : Raw -> outcome Item.
Variable weigh : Item -> Z.

(** The [for] loop of both listing tools: [current_tokens] and the list
    built so far are the loop state; [break] returns the list as it is.
    The second component tells whether the loop left through [break]. *)
Fixpoint budget_loop (items : list Raw) (current_tokens : Z)
         (limited : list Item) : outcome (list Item * bool) :=
  match items with
  | [] => Val (limited, false)
  | raw :: rest =>
      match build raw with
      | Exc e => Exc e
      | Val info =>
          let tokens := weigh info in
          if current_tokens + tokens >? token_limit
          then Val (limited, true)
          else budget_loop rest (current_tokens + tokens) (limited ++ [info])
      end
  end.

(** Total weight of a list of built items. *)
Definition weight_of (l : list Item) : Z := zsum (map weigh l).

(** [built raws outs]: [outs] are the items built from [raws], one for
    one, in the same order. *)
Definition built (raws : list Raw) (outs : list Item) : Prop :=
  Forall2 (fun raw info => build raw = Val info) raws outs.
End Budget.

(** ** Whitespace clean-up of the converted Markdown *)

Definition LF : ascii := "010"%char.
Definition TAB : ascii := "009"%char.
Definition SPACE : ascii := " "%char.

(** The class [[ \t]] of the second pattern. *)
Definition is_blank (c : ascii) : bool :=
  Ascii.eqb c SPACE || Ascii.eqb c TAB.

(** [str.isspace] on one character, as [str.strip()] uses it: code points
    9-13, 28-32, 133 and 160. *)
Definition is_space (c : ascii) : bool :=
  let n := N_of_ascii c in
  ((9 <=? n) && (n <=? 13) || (28 <=? n) && (n <=? 32)
   || (n =? 133) || (n =? 160))%N.

(** [n] newlines. *)
Fixpoint newlines (n : nat) : string :=
  match n with
  | O => EmptyString
  | S k => String LF (newlines k)
  end.

(** What [re.sub(r'\n{3,}', '\n\n', _)] leaves of a maximal run of
    [pending] newlines: the greedy match takes a run of three or more
    whole, shorter runs do not match. *)
Definition emit_run (pending : nat) : string :=
  if (3 <=? pending)%nat then newlines 2 else newlines pending.

(** [re.sub(r'\n{3,}', '\n\n', s)], scanning left to right with the
    length of the newline run read so far. *)
Fixpoint collapse_from (pending : nat) (s : string) : string :=
  match s with
  | EmptyString => emit_run pending
  | String c rest =>
      if Ascii.eqb c LF then collapse_from (S pending) rest
      else emit_run pending ++ String c (collapse_from 0 rest)
  end.

Definition collapse_newlines (s : string) : string := collapse_from 0 s.

(** Whether only [[ \t]] characters separate this point from the end of
    the line: where [[ \t]*$] matches under [re.MULTILINE]. *)
Fixpoint blank_to_eol (s : string) : bool :=
  match s with
  | EmptyString => true
  | String c rest =>
      if Ascii.eqb c LF then true
      else if is_blank c then blank_to_eol rest
      else false
  end.

(** [re.sub(r'[ \t]+$', '', s, flags=re.MULTILINE)]: a character is
    deleted exactly when it lies in a match, that is when it is a space or
    tab and only spaces and tabs follow it up to the end of its line. *)
Fixpoint strip_line_ends (s : string) : string :=
  match s with
  | EmptyString => EmptyString
  | String c rest =>
      if is_blank c && blank_to_eol rest then strip_line_ends rest
      else String c (strip_line_ends rest)
  end.

(** [str.lstrip()], [str.rstrip()], [str.strip()]. *)
Fixpoint lstrip (s : string) : string :=
  match s with
  | EmptyString => EmptyString
  | String c rest => if is_space c then lstrip rest else s
  end.

Fixpoint rstrip (s : string) : string :=
  match s with
  | EmptyString => EmptyString
  | String c rest =>
      match rstrip rest with
      | EmptyString => if is_space c then EmptyString else String c EmptyString
      | kept => String c kept
      end
  end.

Definition strip (s : string) : string := rstrip (lstrip s).

(** The three clean-up statements of [fetch_documentation_content], in
    the order of the source. *)
Definition clean_whitespace (markdown_content : string) : string :=
  strip (strip_line_ends (collapse_newlines markdown_content)).

(** [not s.strip()]: the blank-argument test of the tools. *)
Definition is_blank_arg (s : string) : bool :=
  match strip s with
  | EmptyString => true
  | _ => false
  end.

(** [needle in haystack]. *)
Fixpoint contains (needle haystack : string) : bool :=
  prefix needle haystack ||
  match haystack with
  | EmptyString => false
  | String _ rest => contains needle rest
  end.

(** ** The outside world *)

(** The two application variants, by bundle identifier. *)
Inductive bundle : Type :=
| Dashdoc   (* com.kapeli.dashdoc *)
| Setapp.   (* com.kapeli.dash-setapp *)

(** The addresses the server requests.  The first four stand for
    [f"http://127.0.0.1:{port}/..."] with the port value read from the
    status file; [External] is a [load_url] fetched as it is. *)
Inductive url : Type :=
| Health (port : pyobj)
| DocsetsList (port : pyobj)
| Search (port : pyobj)
| EnableFts (port : pyobj)
| External (load_url : string).

Inductive level : Type := Debug | Info | Warning | Error.

(** One external action of the server. *)
Inductive event : Type :=
| EvPgrep                         (* subprocess.run(["pgrep", "-f", "Dash"]) *)
| EvOpen (b : bundle)             (* subprocess.run(["open", "-g", "-j", "-b", b]) *)
| EvDefaultsWrite (b : bundle)    (* defaults write b DHAPIServerEnabled YES *)
| EvSleep (seconds : nat)         (* time.sleep *)
| EvReadStatus                    (* open(status_file) and json.load *)
| EvGet (u : url) (params : list (string * pyobj))   (* client.get *)
| EvLog (l : level).              (* ctx.debug / info / warning / error *)

Definition trace : Type := list event.

(** How a [subprocess.run] ends: an exit status, or an exception of its
    own (time-out, missing executable). *)
Inductive proc : Type :=
| Exited (returncode : Z)
| RunFailed (msg : string).

(** What reading the status file yields: no file, text that is not JSON,
    a parsed value, or another failure of [open] / [json.load]. *)
Inductive status_file : Type :=
| NoFile
| NotJson (msg : string)
| Parsed (status_data : pyobj)
| ReadFailed (msg : string).

(** How a [client.get] ends: a response, or a transport exception. *)
Inductive http_result : Type :=
| Reply (r : response)
| Failed (msg : string).

(** The environment: each answer may depend on everything done so far. *)
Record World : Type := mkWorld {
  pgrep_dash : trace -> proc;
  open_app : trace -> bundle -> proc;
  defaults_write : trace -> bundle -> proc;
  read_status : trace -> status_file;
  http_get : trace -> url -> list (string * pyobj) -> http_result
}.

(** ** Computations *)

(** A computation maps the history to an outcome and the events it added. *)
Definition M (A : Type) : Type := trace -> outcome A * trace.

Definition ret {A} (a : A) : M A := fun _ => (Val a, []).

Definition raise {A} (e : exn) : M A := fun _ => (Exc e, []).

Definition bind {A B} (m : M A) (k : A -> M B) : M B :=
  fun h =>
    match m h with
    | (Val a, d) => let (r, d') := k a (h ++ d)%list in (r, (d ++ d')%list)
    | (Exc e, d) => (Exc e, d)
    end.

(** [try: m except ...: handler e]. *)
Definition try_except {A} (m : M A) (handler : exn -> M A) : M A :=
  fun h =>
    match m h with
    | (Val a, d) => (Val a, d)
    | (Exc e, d) => let (r, d') := handler e (h ++ d)%list in (r, (d ++ d')%list)
    end.

(** Perform one external action and read the world's answer. *)
Definition perform {A} (ev : event) (answer : trace -> A) : M A :=
  fun h => (Val (answer h), [ev]).

Definition lift {A} (o : outcome A) : M A := fun _ => (o, []).

Declare Scope comp_scope.
Delimit Scope comp_scope with comp.
Notation "x <- m ;; k" := (bind m (fun x => k))
  (at level 61, m at next level, right associativity) : comp_scope.
Notation "m ;; k" := (bind m (fun _ => k))
  (at level 61, right associativity) : comp_scope.
Local Open Scope comp_scope.

Definition log (l : level) : M unit := perform (EvLog l) (fun _ => tt).

Definition sleep (seconds : nat) : M unit :=
  perform (EvSleep seconds) (fun _ => tt).

(** [raise_for_status()]: raises unless the status is in the success
    class (200-299).  The message of the exception is schematic; nothing
    below depends on its wording. *)
Definition is_success (r : response) : bool :=
  (200 <=? status_code r) && (status_code r <=? 299).

Definition raise_for_status (r : response) : M unit :=
  if is_success r then ret tt
  else raise (HTTPStatusError r ("HTTP status error " ++ reason_phrase r)).

Section Server.
Variable W : World.

(** [subprocess.run(...)], with [check=True] when [check] is set. *)
Definition run (ev : event) (answer : trace -> proc) (check : bool) : M Z :=
  p <- perform ev answer ;;
  match p with
  | RunFailed msg => raise (OtherError msg)
  | Exited rc =>
      if check && negb (rc =? 0) then raise CalledProcessError else ret rc
  end.

(** [client.get(u, params=params)] inside [with httpx.Client(...)]. *)
Definition client_get (u : url) (params : list (string * pyobj)) : M response :=
  a <- perform (EvGet u params) (fun h => http_get W h u params) ;;
  match a with
  | Reply r => ret r
  | Failed msg => raise (OtherError msg)
  end.

(** [response.json()]. *)
Definition response_json (r : response) : M pyobj :=
  match json_body r with
  | Some v => ret v
  | None => raise (JSONDecodeError "Expecting value")
  end.

(** *** Health Prober *)

Definition check_api_health (port : pyobj) : M bool :=
  try_except
    (response <- client_get (Health port) [] ;;
     raise_for_status response ;;
     log Debug ;;
     ret true)
    (fun e => log Debug ;; ret false).

(** *** Endpoint Discoverer *)

(** The [with open(...)] block: [Some port] when the block ends
    normally, [None] for its early [return None]. *)
Definition read_port : M (option pyobj) :=
  st <- perform EvReadStatus (read_status W) ;;
  match st with
  | NoFile => raise FileNotFoundError
  | NotJson msg => raise (JSONDecodeError msg)
  | ReadFailed msg => raise (OtherError msg)
  | Parsed status_data =>
      port <- lift (dot_get status_data "port") ;;
      match port with
      | PNone => ret None
      | _ => ret (Some port)
      end
  end.

Definition get_dash_api_port : M (option pyobj) :=
  try_except
    (found <- read_port ;;
     match found with
     | None => ret None
     | Some port =>
         alive <- check_api_health port ;;
         if alive then ret (Some port) else ret None
     end)
    (fun e =>
       match e with
       | FileNotFoundError | JSONDecodeError _ | KeyError _ => ret None
       | _ => raise e
       end).

(** *** Application Lifecycle Manager *)

Definition check_dash_running : M bool :=
  try_except
    (rc <- run EvPgrep (pgrep_dash W) false ;;
     ret (rc =? 0))
    (fun _ => ret false).

Definition ensure_dash_running : M bool :=
  running <- check_dash_running ;;
  if negb running then
    log Info ;;
    try_except
      (rc <- run (EvOpen Dashdoc) (fun h => open_app W h Dashdoc) false ;;
       (if negb (rc =? 0)
        then run (EvOpen Setapp) (fun h => open_app W h Setapp) true ;; ret tt
        else ret tt) ;;
       sleep 4 ;;
       running' <- check_dash_running ;;
       if negb running'
       then log Error ;; ret false
       else log Info ;; ret true)
      (fun e => log Error ;; ret false)
  else ret true.

Definition working_api_base_url : M (option pyobj) :=
  dash_running <- ensure_dash_running ;;
  if negb dash_running then ret None
  else
    port <- get_dash_api_port ;;
    match port with
    | Some p => ret (Some p)
    | None =>
        log Info ;;
        try_except
          (run (EvDefaultsWrite Dashdoc)
               (fun h => defaults_write W h Dashdoc) true ;;
           run (EvDefaultsWrite Setapp)
               (fun h => defaults_write W h Setapp) true ;;
           sleep 2 ;;
           port' <- get_dash_api_port ;;
           match port' with
           | None => log Error ;; ret None
           | Some p => log Info ;; ret (Some p)
           end)
          (fun e => log Error ;; ret None)
    end.

(** *** Reading a JSON reply *)

(** [for x in obj] (after [len(obj)]): the elements of a list or tuple,
    the keys of a dict, the characters of a string; [TypeError] on the
    rest. *)
Definition py_iter (obj : pyobj) : outcome (list pyobj) :=
  match obj with
  | PList items | PTuple items => Val items
  | PDict kvs => Val (map fst kvs)
  | PStr s => Val (map (fun c => PStr (String c EmptyString))
                       (list_ascii_of_string s))
  | _ => Exc (OtherError "TypeError")
  end.

(** [obj.get(key, [])]. *)
Definition dot_get_list (obj : pyobj) (key : string) : outcome pyobj :=
  match obj with
  | PDict kvs =>
      match dict_get key kvs with
      | Some v => Val v
      | None => Val (PList [])
      end
  | _ => Exc (OtherError "AttributeError")
  end.

(** [key in obj]. *)
Definition py_in (key : string) (obj : pyobj) : outcome bool :=
  match obj with
  | PDict kvs =>
      Val (match dict_get key kvs with Some _ => true | None => false end)
  | PList items | PTuple items =>
      Val (existsb (fun x => match x with
                             | PStr s => String.eqb s key
                             | _ => false
                             end) items)
  | PStr s => Val (contains key s)
  | _ => Exc (OtherError "TypeError")
  end.

(** *** The tools *)

Definition msg_connect : string :=
  "Failed to connect to Dash API Server. Please ensure Dash is running and the API server is enabled (in Dash Settings > Integration).".

(** The sentence that closes every generic upstream error of
    [search_documentation]. *)
Definition msg_ensure : string :=
  ". Please ensure Dash is running and the API server is enabled (in Dash Settings > Integration).".

Definition msg_no_docsets_installed : string :=
  "No docsets found. Instruct the user to install some docsets in Settings > Downloads.".

Definition msg_query_empty : string := "Query cannot be empty".

Definition msg_ids_empty : string :=
  "docset_identifiers cannot be empty. Get the docset identifiers using list_installed_docsets".

Definition msg_max_results : string :=
  "max_results must be between 1 and 1000".

Definition msg_invalid_docset : string :=
  "Invalid docset identifier. Run list_installed_docsets to see available docsets, then use the exact identifier from that list.".

Definition msg_no_valid_docsets : string :=
  "No valid docsets found for search. Either provide valid docset identifiers from list_installed_docsets, or set search_snippets=true to search snippets only.".

Definition msg_trial_expired : string :=
  "Your Dash trial has expired. Purchase Dash at https://kapeli.com/dash to continue using the API. During trial expiration, API access is blocked.".

Definition msg_load_url_empty : string := "load_url cannot be empty".

Definition list_installed_docsets : M DocsetResults :=
  try_except
    (base_url <- working_api_base_url ;;
     match base_url with
     | None => ret (mkDocsetResults [] (Some msg_connect))
     | Some port =>
         log Debug ;;
         response <- client_get (DocsetsList port) [] ;;
         raise_for_status response ;;
         result <- response_json response ;;
         found <- lift (dot_get_list result "docsets") ;;
         items <- lift (py_iter found) ;;
         log Info ;;
         looped <- lift (budget_loop build_docset
                           (fun d => estimate_tokens (DocsetResult_py d))
                           items base_overhead []) ;;
         (if snd looped then log Warning else ret tt) ;;
         (if (List.length (fst looped) <? List.length items)%nat
          then log Info else ret tt) ;;
         ret (mkDocsetResults (fst looped) None)
     end)
    (fun e =>
       match e with
       | HTTPStatusError r _ =>
           if status_code r =? 404
           then log Warning ;;
                ret (mkDocsetResults [] (Some msg_no_docsets_installed))
           else ret (mkDocsetResults [] (Some ("HTTP error: " ++ exn_str e)))
       | _ =>
           log Error ;;
           ret (mkDocsetResults []
                  (Some ("Failed to get installed docsets: " ++ exn_str e)))
       end).

(** The [except httpx.HTTPStatusError] handler of
    [search_documentation]. *)
Definition search_status_error (r : response) (e : exn) : M SearchResults :=
  if status_code r =? 400 then
    let error_text := text r in
    if contains "Docset with identifier" error_text
       && contains "not found" error_text
    then log Error ;; ret (mkSearchResults [] (Some msg_invalid_docset))
    else if contains "No docsets found" error_text
    then log Error ;; ret (mkSearchResults [] (Some msg_no_valid_docsets))
    else log Error ;;
         ret (mkSearchResults []
                (Some ("Bad request: " ++ error_text ++ msg_ensure)))
  else if status_code r =? 403 then
    let error_text := text r in
    if contains "API access blocked due to Dash trial expiration" error_text
    then log Error ;; ret (mkSearchResults [] (Some msg_trial_expired))
    else log Error ;;
         ret (mkSearchResults []
                (Some ("Forbidden: " ++ error_text ++ msg_ensure)))
  else
    log Error ;;
    ret (mkSearchResults [] (Some ("HTTP error: " ++ exn_str e ++ msg_ensure))).

Definition search_documentation (query docset_identifiers : string)
           (search_snippets : bool) (max_results : Z) : M SearchResults :=
  if is_blank_arg query then
    log Error ;; ret (mkSearchResults [] (Some msg_query_empty))
  else if is_blank_arg docset_identifiers then
    log Error ;; ret (mkSearchResults [] (Some msg_ids_empty))
  else if (max_results <? 1) || (max_results >? 1000) then
    log Error ;; ret (mkSearchResults [] (Some msg_max_results))
  else
    try_except
      (base_url <- working_api_base_url ;;
       match base_url with
       | None => ret (mkSearchResults [] (Some msg_connect))
       | Some port =>
           let params := [ ("query", PStr query);
                           ("docset_identifiers", PStr docset_identifiers);
                           ("search_snippets", PBool search_snippets);
                           ("max_results", PInt max_results) ] in
           log Debug ;;
           response <- client_get (Search port) params ;;
           raise_for_status response ;;
           result <- response_json response ;;
           has_message <- lift (py_in "message" result) ;;
           warning_message <-
             (if has_message : bool
              then m <- lift (subscript result "message") ;;
                   log Warning ;; ret m
              else ret PNone) ;;
           found <- lift (dot_get_list result "results") ;;
           items <- lift (py_iter found) ;;
           log Info ;;
           looped <- lift (budget_loop build_search_result
                             (fun r => estimate_tokens (SearchResult_py r))
                             items base_overhead []) ;;
           (if snd looped then log Warning else ret tt) ;;
           (if (List.length (fst looped) <? List.length items)%nat
            then log Info else ret tt) ;;
           error <- lift (as_opt_str warning_message) ;;
           ret (mkSearchResults (fst looped) error)
       end)
      (fun e =>
         match e with
         | HTTPStatusError r _ => search_status_error r e
         | _ =>
             log Error ;;
             ret (mkSearchResults []
                    (Some ("Search failed: " ++ exn_str e ++ msg_ensure)))
         end).

Definition enable_docset_fts (identifier : string) : M bool :=
  if is_blank_arg identifier then
    log Error ;; ret false
  else
    try_except
      (base_url <- working_api_base_url ;;
       match base_url with
       | None => ret false
       | Some port =>
           log Debug ;;
           response <- client_get (EnableFts port)
                         [("identifier", PStr identifier)] ;;
           raise_for_status response ;;
           result <- response_json response ;;
           ret true
       end)
      (fun e =>
         match e with
         | HTTPStatusError r _ =>
             if status_code r =? 400 then log Error ;; ret false
             else if status_code r =? 404 then log Error ;; ret false
             else log Error ;; ret false
         | _ => log Error ;; ret false
         end).
End Server.

(** ** Content Sanitizer *)

(** A parsed document, as far as the server looks at it: text and
    elements with their children. *)
Inductive node : Type :=
| TextNode (s : string)
| Element (tag : string) (children : list node).

(** [soup.find(tag)] below one node: the first element of that name in
    document order. *)
Fixpoint find_in (tag : string) (n : node) : option node :=
  match n with
  | TextNode _ => None
  | Element t children =>
      if String.eqb t tag then Some n
      else (fix first (l : list node) : option node :=
              match l with
              | [] => None
              | c :: rest =>
                  match find_in tag c with
                  | Some hit => Some hit
                  | None => first rest
                  end
              end) children
  end.

Fixpoint soup_find (tag : string) (soup : list node) : option node :=
  match soup with
  | [] => None
  | n :: rest =>
      match find_in tag n with
      | Some hit => Some hit
      | None => soup_find tag rest
      end
  end.

(** [elem.get_text(strip=True)]: every text below the element, stripped,
    the empty ones skipped, joined without separator. *)
Fixpoint get_text_strip (n : node) : string :=
  match n with
  | TextNode s => strip s
  | Element _ children =>
      fold_right String.append EmptyString (map get_text_strip children)
  end.

Definition unwanted (tag : string) : bool :=
  String.eqb tag "script" || String.eqb tag "style"
  || String.eqb tag "nav" || String.eqb tag "header".

(** [for element in soup.find_all([...]): element.decompose()] on one
    node: what is left of it. *)
Fixpoint decompose_in (n : node) : list node :=
  match n with
  | TextNode s => [n]
  | Element tag children =>
      if unwanted tag then []
      else [Element tag (flat_map decompose_in children)]
  end.

Definition decompose_unwanted (soup : list node) : list node :=
  flat_map decompose_in soup.

Section Fetch.
Variable W : World.

(** The two libraries, as functions that may raise:
    [BeautifulSoup(html, 'html.parser')] and
    [md(str(soup), heading_style="ATX", bullets="-")]. *)
Variable BeautifulSoup : string -> outcome (list node).
Variable md : list node -> outcome string.

Definition error_content (load_url error_msg : string) : DocumentationContent :=
  mkDocumentationContent load_url "Error" EmptyString (Some error_msg).

Definition fetch_documentation_content (load_url : string)
  : M DocumentationContent :=
  if is_blank_arg load_url then
    log Error ;; ret (error_content load_url msg_load_url_empty)
  else
    try_except
      (log Debug ;;
       response <- client_get W (External load_url) [] ;;
       raise_for_status response ;;
       let html_content := text response in
       log Debug ;;
       soup <- lift (BeautifulSoup html_content) ;;
       let title := match soup_find "title" soup with
                    | Some title_elem => get_text_strip title_elem
                    | None => "Documentation"
                    end in
       let soup' := decompose_unwanted soup in
       markdown_content <- lift (md soup') ;;
       let markdown_content := clean_whitespace markdown_content in
       log Info ;;
       ret (mkDocumentationContent load_url title markdown_content None))
      (fun e =>
         match e with
         | HTTPStatusError r _ =>
             let error_msg :=
               "HTTP error "
               ++ NilZero.string_of_int (Z.to_int (status_code r))
               ++ ": " ++ reason_phrase r in
             log Error ;; ret (error_content load_url error_msg)
         | _ =>
             let error_msg := "Failed to fetch content: " ++ exn_str e in
             log Error ;; ret (error_content load_url error_msg)
         end).
End Fetch.

(** * Vocabulary of the properties *)

(** ** Token estimate *)

(** The rule as the specification words it: characters over four, rounded
    up, at least one. *)
Definition spec_ceil_tokens (s : string) : Z :=
  Z.max 1 ((Z.of_nat (String.length s) + 3) / 4).

(** The value estimate of an optional field: [None] counts as the four
    characters of its [str]. *)
Definition opt_tokens (o : option string) : Z :=
  match o with
  | Some s => str_tokens s
  | None => 1
  end.

(** ** Budgeting loop *)

Section BudgetSpec.
Context {Raw Item : Type}.
Variable build : Raw -> outcome Item.
Variable weigh : Item -> Z.

(** What one run of the loop from state [(current, limited)] means for
    the items [taken] it appends. *)
Definition loop_post (items : list Raw) (current : Z)
           (taken : list Item) (broke : bool) : Prop :=
  (List.length taken <= List.length items)%nat
  /\ built build (firstn (List.length taken) items) taken
  /\ (forall k, (k < List.length taken)%nat ->
                current + weight_of weigh (firstn (S k) taken) <= token_limit)
  /\ ((List.length taken < List.length items)%nat ->
      exists raw info,
        nth_error items (List.length taken) = Some raw
        /\ build raw = Val info
        /\ current + weight_of weigh taken + weigh info > token_limit)
  /\ (broke = true <-> (List.length taken < List.length items)%nat).
End BudgetSpec.

(** ** Accounting for external actions *)

(** The kind of an action, its data dropped. *)
Inductive ekind : Type :=
| KPgrep
| KOpen (b : bundle)
| KWrite (b : bundle)
| KSleep
| KRead
| KHealth
| KApi
| KFetch
| KLog.

Definition kind (ev : event) : ekind :=
  match ev with
  | EvPgrep => KPgrep
  | EvOpen b => KOpen b
  | EvDefaultsWrite b => KWrite b
  | EvSleep _ => KSleep
  | EvReadStatus => KRead
  | EvGet (Health _) _ => KHealth
  | EvGet (External _) _ => KFetch
  | EvGet _ _ => KApi
  | EvLog _ => KLog
  end.

Section Pricing.
(** A price per kind of action; [total] is the price of a trace. *)
Variable w : ekind -> nat.

Definition total (t : trace) : nat :=
  fold_right (fun ev n => (w (kind ev) + n)%nat) O t.

(** [costs m n]: from any history, [m] performs actions worth at most
    [n]. *)
Definition costs {A} (m : M A) (n : nat) : Prop :=
  forall h, (total (snd (m h)) <= n)%nat.

Definition price_discover : nat := (w KRead + w KHealth + 2 * w KLog)%nat.

Definition price_launch : nat :=
  (2 * w KPgrep + w (KOpen Dashdoc) + w (KOpen Setapp) + w KSleep
   + 3 * w KLog)%nat.

Definition price_ladder : nat :=
  (price_launch + 2 * price_discover
   + w (KWrite Dashdoc) + w (KWrite Setapp) + w KSleep + 3 * w KLog)%nat.

Definition price_tool : nat := (price_ladder + w KApi + 6 * w KLog)%nat.
End Pricing.

Definition bundle_eqb (a b : bundle) : bool :=
  match a, b with
  | Dashdoc, Dashdoc | Setapp, Setapp => true
  | _, _ => false
  end.

Definition ekind_eqb (a b : ekind) : bool :=
  match a, b with
  | KPgrep, KPgrep | KSleep, KSleep | KRead, KRead | KHealth, KHealth
  | KApi, KApi | KFetch, KFetch | KLog, KLog => true
  | KOpen x, KOpen y | KWrite x, KWrite y => bundle_eqb x y
  | _, _ => false
  end.

(** How many actions of kind [k] a trace holds. *)
Definition occurrences (k : ekind) (t : trace) : nat :=
  List.length (filter (fun ev => ekind_eqb (kind ev) k) t).

(** What "at most once" comes to for the actions of one tool call: each
    launch command and each settings write at most once, at most two
    process checks, two reads of the status file, two health probes and
    two settle waits (the check and its one re-check), one request to the
    API, and 29 actions in all, logging included. *)
Definition ladder_discipline (t : trace) : Prop :=
  (occurrences (KOpen Dashdoc) t <= 1)%nat
  /\ (occurrences (KOpen Setapp) t <= 1)%nat
  /\ (occurrences (KWrite Dashdoc) t <= 1)%nat
  /\ (occurrences (KWrite Setapp) t <= 1)%nat
  /\ (occurrences KPgrep t <= 2)%nat
  /\ (occurrences KRead t <= 2)%nat
  /\ (occurrences KHealth t <= 2)%nat
  /\ (occurrences KSleep t <= 2)%nat
  /\ (occurrences KApi t <= 1)%nat
  /\ (List.length t <= 29)%nat.

(** The actions of the remediation attempt proper. *)
Definition enable_actions : trace :=
  [EvDefaultsWrite Dashdoc; EvDefaultsWrite Setapp; EvSleep 2].

(** ** Worlds and answers used as examples *)

(** A world in which the application runs but never serves its API:
    every command succeeds, there is no status file, nothing answers. *)
Definition world_api_disabled : World :=
  mkWorld (fun _ => Exited 0) (fun _ _ => Exited 0) (fun _ _ => Exited 0)
          (fun _ => NoFile) (fun _ _ _ => Failed "Connection refused").

(** A world left behind by an earlier session: the status file still
    names port 5000, but nothing listens there. *)
Definition world_stale_port : World :=
  mkWorld (fun _ => Exited 0) (fun _ _ => Exited 0) (fun _ _ => Exited 0)
          (fun _ => Parsed (PDict [(PStr "port", PInt 5000)]))
          (fun _ _ _ => Failed "Connection refused").

(** A world whose status file holds valid JSON that is not an object:
    the array [[1]].  Nothing in it names a port. *)
Definition world_status_array : World :=
  mkWorld (fun _ => Exited 0) (fun _ _ => Exited 0) (fun _ _ => Exited 0)
          (fun _ => Parsed (PList [PInt 1]))
          (fun _ _ _ => Failed "Connection refused").

(** A world in which the application runs and its API answers on port
    5000: the health probe succeeds, every other request gets [answer]. *)
Definition world_serving (answer : http_result) : World :=
  mkWorld (fun _ => Exited 0) (fun _ _ => Exited 0) (fun _ _ => Exited 0)
          (fun _ => Parsed (PDict [(PStr "port", PInt 5000)]))
          (fun _ u _ =>
             match u with
             | Health _ => Reply (mkResponse 200 "OK" "OK" None)
             | _ => answer
             end).

Definition bad_request (body : string) : http_result :=
  Reply (mkResponse 400 "Bad Request" body None).

Definition plain_ok : http_result := Reply (mkResponse 200 "OK" "OK" None).

(** ** Outcomes of requests *)

(** Whether a health request was answered with a success status. *)
Definition probe_ok (a : http_result) : bool :=
  match a with
  | Reply r => is_success r
  | Failed _ => false
  end.

(** The parameters [search_documentation] sends. *)
Definition search_params (query ids : string) (snippets : bool)
           (max_results : Z) : list (string * pyobj) :=
  [ ("query", PStr query); ("docset_identifiers", PStr ids);
    ("search_snippets", PBool snippets); ("max_results", PInt max_results) ].

(** The exception [raise_for_status] raises for [r]. *)
Definition status_error (r : response) : exn :=
  HTTPStatusError r ("HTTP status error " ++ reason_phrase r).

Section Answers.
Variable W : World.
Variable BeautifulSoup : string -> outcome (list node).
Variable md : list node -> outcome string.

(** The request [enable_docset_fts] sends once it has a base address,
    and what the world answers. *)
Definition fts_answer (identifier : string) (h : trace) (port : pyobj)
  : http_result :=
  http_get W ((h ++ snd (working_api_base_url W h)) ++ [EvLog Debug])%list
           (EnableFts port) [("identifier", PStr identifier)].

(** The document an exception is turned into by the two handlers. *)
Definition fetch_handled (load_url : string) (e : exn) : DocumentationContent :=
  match e with
  | HTTPStatusError r _ =>
      error_content load_url
        ("HTTP error " ++ NilZero.string_of_int (Z.to_int (status_code r))
         ++ ": " ++ reason_phrase r)
  | _ => error_content load_url ("Failed to fetch content: " ++ exn_str e)
  end.

(** The title as the tool extracts it. *)
Definition title_of (soup : list node) : string :=
  match soup_find "title" soup with
  | Some title_elem => get_text_strip title_elem
  | None => "Documentation"
  end.

(** The result of the tool as a function of what the world and the
    libraries answer. *)
Definition fetch_result (load_url : string) (h : trace)
  : DocumentationContent :=
  if is_blank_arg load_url then error_content load_url msg_load_url_empty
  else
    match http_get W (h ++ [EvLog Debug])%list (External load_url) [] with
    | Failed msg => fetch_handled load_url (OtherError msg)
    | Reply r =>
        if is_success r then
          match BeautifulSoup (text r) with
          | Exc e => fetch_handled load_url e
          | Val soup =>
              match md (decompose_unwanted soup) with
              | Exc e => fetch_handled load_url e
              | Val markdown =>
                  mkDocumentationContent load_url (title_of soup)
                    (clean_whitespace markdown) None
              end
          end
        else fetch_handled load_url (status_error r)
    end.
End Answers.

(** ** Blank lines *)

Definition nl : string := String LF EmptyString.

(** Two or more blank lines in a row: three or more newlines in a row. *)
Definition has_blank_run (s : string) : bool := contains (newlines 3) s.

(** No space or tab stands at the end of a line: nothing is left for the
    second substitution to delete. *)
Fixpoint line_ends_clean (s : string) : bool :=
  match s with
  | EmptyString => true
  | String c rest =>
      negb (is_blank c && blank_to_eol rest) && line_ends_clean rest
  end.

(** The text is empty or begins with a character that is no whitespace. *)
Definition starts_clean (s : string) : bool :=
  match s with
  | EmptyString => true
  | String c _ => negb (is_space c)
  end.

(** A code sample whose middle line holds one space. *)
Definition pre_text : string :=
  "a" ++ nl ++ nl ++ " " ++ nl ++ nl ++ "b".

(** A page showing that sample, its parse and its conversion: text
    inside [<pre>] is converted as it is, between code fences. *)
Definition pre_page : string := "<pre>" ++ pre_text ++ "</pre>".

Definition pre_soup : list node := [Element "pre" [TextNode pre_text]].

Definition pre_markdown : string :=
  nl ++ "```" ++ nl ++ pre_text ++ nl ++ "```" ++ nl.

(** * Further vocabulary *)

(** ** Token estimate and result models as parsed JSON *)

(** The weight estimates the two tools hand to the loop. *)
Definition docset_weight (d : DocsetResult) : Z :=
  estimate_tokens (DocsetResult_py d).

Definition search_weight (r : SearchResult) : Z :=
  estimate_tokens (SearchResult_py r).

(** A result model as the JSON object upstream sends for it: its dump. *)
Definition docset_json (d : DocsetResult) : pyobj :=
  match DocsetResult_py d with
  | PModel dump => model_dump dump
  | other => other
  end.

Definition search_result_json (r : SearchResult) : pyobj :=
  match SearchResult_py r with
  | PModel dump => model_dump dump
  | other => other
  end.

(** ** The tools as functions of the answers *)

(** What the [except] clauses of [list_installed_docsets] return. *)
Definition list_handled (e : exn) : DocsetResults :=
  match e with
  | HTTPStatusError r _ =>
      if status_code r =? 404
      then mkDocsetResults [] (Some msg_no_docsets_installed)
      else mkDocsetResults [] (Some ("HTTP error: " ++ exn_str e))
  | _ =>
      mkDocsetResults []
        (Some ("Failed to get installed docsets: " ++ exn_str e))
  end.

(** [response.json()] as an outcome. *)
Definition json_of (r : response) : outcome pyobj :=
  match json_body r with
  | Some v => Val v
  | None => Exc (JSONDecodeError "Expecting value")
  end.

(** The reply to the request a tool sends after the ladder and its debug
    line. *)
Definition api_answer (W : World) (h : trace) (u : url)
           (params : list (string * pyobj)) : http_result :=
  http_get W ((h ++ snd (working_api_base_url W h)) ++ [EvLog Debug])%list
           u params.

(** What a reply is worth to the [try] block: its parsed body, or the
    exception raised on the way. *)
Definition reply_json (a : http_result) : outcome pyobj :=
  match a with
  | Failed msg => Exc (OtherError msg)
  | Reply r => if is_success r then json_of r else Exc (status_error r)
  end.

(** The list a parsed reply yields under [key], run through the loop. *)
Definition looped_docsets (result : pyobj)
  : outcome (list DocsetResult * bool) :=
  obind (dot_get_list result "docsets") (fun found =>
  obind (py_iter found) (fun items =>
  budget_loop build_docset (fun d => estimate_tokens (DocsetResult_py d))
              items base_overhead [])).

(** The outcome of the [try] block of [list_installed_docsets]. *)
Definition list_body (W : World) (h : trace) : outcome DocsetResults :=
  match fst (working_api_base_url W h) with
  | Exc e => Exc e
  | Val None => Val (mkDocsetResults [] (Some msg_connect))
  | Val (Some port) =>
      obind (reply_json (api_answer W h (DocsetsList port) [])) (fun result =>
      obind (looped_docsets result) (fun looped =>
      Val (mkDocsetResults (fst looped) None)))
  end.

(** The result of [list_installed_docsets]. *)
Definition list_result (W : World) (h : trace) : DocsetResults :=
  match list_body W h with
  | Val r => r
  | Exc e => list_handled e
  end.

(** The advisory message of a parsed search reply: [None] when there is
    none. *)
Definition advisory (result : pyobj) : outcome pyobj :=
  obind (py_in "message" result) (fun has_message =>
  if has_message : bool then subscript result "message" else Val PNone).

Definition looped_results (result : pyobj)
  : outcome (list SearchResult * bool) :=
  obind (dot_get_list result "results") (fun found =>
  obind (py_iter found) (fun items =>
  budget_loop build_search_result
              (fun r => estimate_tokens (SearchResult_py r))
              items base_overhead [])).

(** Whether the arguments of [search_documentation] pass its checks. *)
Definition search_args_ok (query ids : string) (max_results : Z) : bool :=
  negb (is_blank_arg query) && negb (is_blank_arg ids)
  && negb ((max_results <? 1) || (max_results >? 1000)).

(** The outcome of the [try] block of [search_documentation]. *)
Definition search_body (W : World) (query ids : string) (snippets : bool)
           (max_results : Z) (h : trace) : outcome SearchResults :=
  match fst (working_api_base_url W h) with
  | Exc e => Exc e
  | Val None => Val (mkSearchResults [] (Some msg_connect))
  | Val (Some port) =>
      obind (reply_json
               (api_answer W h (Search port)
                  (search_params query ids snippets max_results)))
            (fun result =>
      obind (advisory result) (fun warning_message =>
      obind (looped_results result) (fun looped =>
      obind (as_opt_str warning_message) (fun error =>
      Val (mkSearchResults (fst looped) error)))))
  end.

(** The message of the [except httpx.HTTPStatusError] clause of
    [search_documentation]. *)
Definition search_status_message (r : response) (e : exn) : string :=
  if status_code r =? 400 then
    if contains "Docset with identifier" (text r)
       && contains "not found" (text r)
    then msg_invalid_docset
    else if contains "No docsets found" (text r)
    then msg_no_valid_docsets
    else "Bad request: " ++ text r ++ msg_ensure
  else if status_code r =? 403 then
    if contains "API access blocked due to Dash trial expiration" (text r)
    then msg_trial_expired
    else "Forbidden: " ++ text r ++ msg_ensure
  else "HTTP error: " ++ exn_str e ++ msg_ensure.

Definition search_handled (e : exn) : SearchResults :=
  match e with
  | HTTPStatusError r _ =>
      mkSearchResults [] (Some (search_status_message r e))
  | _ =>
      mkSearchResults []
        (Some ("Search failed: " ++ exn_str e ++ msg_ensure))
  end.

(** The result of [search_documentation]. *)
Definition search_result (W : World) (query ids : string) (snippets : bool)
           (max_results : Z) (h : trace) : SearchResults :=
  if is_blank_arg query then mkSearchResults [] (Some msg_query_empty)
  else if is_blank_arg ids then mkSearchResults [] (Some msg_ids_empty)
  else if (max_results <? 1) || (max_results >? 1000)
  then mkSearchResults [] (Some msg_max_results)
  else
    match search_body W query ids snippets max_results h with
    | Val r => r
    | Exc e => search_handled e
    end.

(** ** Process checks *)

(** Whether [pgrep] reported a Dash process: exit status 0. *)
Definition pgrep_found (p : proc) : bool :=
  match p with
  | Exited rc => rc =? 0
  | RunFailed _ => false
  end.

(** ** Sample replies *)

Definition python_docset : DocsetResult :=
  mkDocsetResult "Python 3" "python3" "python" "enabled" None.

(** A listing of two records, the second without its name. *)
Definition two_records : pyobj :=
  PDict [(PStr "docsets",
          PList [docset_json python_docset;
                 PDict [(PStr "identifier", PStr "react")]])].

Definition python_map_hit : SearchResult :=
  mkSearchResult "map" "Function" (Some "python")
    "dash-apple-api://load?request_key=abc" (Some "Python 3") None None None.

(** A search reply with one hit and an advisory message. *)
Definition advisory_reply : pyobj :=
  PDict [(PStr "results", PList (map search_result_json [python_map_hit]));
         (PStr "message", PStr "Some docsets were skipped")].

(** ** The ladder as a function of the answers *)

(** After the launch commands [pre]: the settle wait, the second process
    check and its log line. *)
Definition settle (W : World) (h pre : trace) : outcome bool * trace :=
  if pgrep_found (pgrep_dash W (h ++ pre ++ [EvSleep 4])%list)
  then (Val true, (pre ++ [EvSleep 4; EvPgrep; EvLog Info])%list)
  else (Val false, (pre ++ [EvSleep 4; EvPgrep; EvLog Error])%list).

(** The launch attempt of [ensure_dash_running], path by path; the two
    leading events are the first process check and its log line. *)
Definition launch_run (W : World) (h : trace) : outcome bool * trace :=
  match open_app W (h ++ [EvPgrep; EvLog Info])%list Dashdoc with
  | RunFailed _ =>
      (Val false, [EvPgrep; EvLog Info; EvOpen Dashdoc; EvLog Error])
  | Exited rc =>
      if rc =? 0
      then settle W h [EvPgrep; EvLog Info; EvOpen Dashdoc]
      else
        match open_app W (h ++ [EvPgrep; EvLog Info; EvOpen Dashdoc])%list
                       Setapp with
        | Exited 0 =>
            settle W h [EvPgrep; EvLog Info; EvOpen Dashdoc; EvOpen Setapp]
        | _ =>
            (Val false,
             [EvPgrep; EvLog Info; EvOpen Dashdoc; EvOpen Setapp;
              EvLog Error])
        end
  end.

(** [ensure_dash_running], path by path. *)
Definition ensure_run (W : World) (h : trace) : outcome bool * trace :=
  if pgrep_found (pgrep_dash W h) then (Val true, [EvPgrep])
  else launch_run W h.

(** A world in which Dash runs without its API and the settings cannot
    be written: [defaults] exits with status 1. *)
Definition world_read_only_settings : World :=
  mkWorld (fun _ => Exited 0) (fun _ _ => Exited 0) (fun _ _ => Exited 1)
          (fun _ => NoFile) (fun _ _ _ => Failed "Connection refused").

(** A world in which Dash runs and the status file cannot be read. *)
Definition world_unreadable_status : World :=
  mkWorld (fun _ => Exited 0) (fun _ _ => Exited 0) (fun _ _ => Exited 0)
          (fun _ => ReadFailed "Permission denied")
          (fun _ _ _ => Failed "Connection refused").

(** ** Pruned pages *)

(** Whether an element named [tag] occurs in the node, at any depth. *)
Fixpoint mentions_in (tag : string) (n : node) : bool :=
  match n with
  | TextNode _ => false
  | Element t children =>
      String.eqb t tag || existsb (mentions_in tag) children
  end.

Definition mentions (tag : string) (soup : list node) : bool :=
  existsb (mentions_in tag) soup.

(** Whether the page holds none of the unwanted elements. *)
Fixpoint clean_node (n : node) : bool :=
  match n with
  | TextNode _ => true
  | Element t children => negb (unwanted t) && forallb clean_node children
  end.

(** ** Blank arguments *)

(** Every character of the string is whitespace. *)
Fixpoint all_space (s : string) : bool :=
  match s with
  | EmptyString => true
  | String c rest => is_space c && all_space rest
  end.

(** The last character of the string, if any, is no whitespace. *)
Fixpoint ends_clean (s : string) : bool :=
  match s with
  | EmptyString => true
  | String c EmptyString => negb (is_space c)
  | String _ rest => ends_clean rest
  end.

(** ** Kinds of actions *)

(** The price list that charges one for an action of kind [k] and nothing
    for the rest. *)
Definition only (k : ekind) : ekind -> nat :=
  fun k' => if ekind_eqb k' k then 1%nat else O.

(** A trace holds nothing that starts, configures or looks for the
    application: no process check, launch, settings write, settle wait,
    status read or health probe. *)
Definition no_lifecycle (t : trace) : Prop :=
  occurrences KPgrep t = O
  /\ occurrences (KOpen Dashdoc) t = O
  /\ occurrences (KOpen Setapp) t = O
  /\ occurrences (KWrite Dashdoc) t = O
  /\ occurrences (KWrite Setapp) t = O
  /\ occurrences KSleep t = O
  /\ occurrences KRead t = O
  /\ occurrences KHealth t = O.

(** * Properties *)

(** ** The token estimate *)

Lemma estimate_tokens_opt (o : option string) :
  estimate_tokens (py_opt_str o) = opt_tokens o.
Proof. destruct o; reflexivity. Qed.

Lemma estimate_tokens_model (dump : list (string * pyobj)) :
  estimate_tokens (PModel dump) = estimate_tokens (model_dump dump).
Proof.
  unfold model_dump. cbn [estimate_tokens]. f_equal.
  induction dump as [| [k v] dump IH]; cbn [map fst snd]; [reflexivity |].
  now rewrite IH.
Qed.

Lemma estimate_tokens_DocsetResult (d : DocsetResult) :
  estimate_tokens (DocsetResult_py d)
  = 10 + str_tokens (dr_name d) + str_tokens (dr_identifier d)
    + str_tokens (dr_platform d) + str_tokens (dr_full_text_search d)
    + opt_tokens (dr_notice d).
Proof.
  unfold DocsetResult_py.
  cbn [estimate_tokens map zsum fold_right].
  rewrite estimate_tokens_opt.
  fold (str_tokens (dr_name d)) (str_tokens (dr_identifier d))
       (str_tokens (dr_platform d)) (str_tokens (dr_full_text_search d)).
  change (str_tokens "name") with 1.
  change (str_tokens "identifier") with 2.
  change (str_tokens "platform") with 2.
  change (str_tokens "full_text_search") with 4.
  change (str_tokens "notice") with 1.
  lia.
Qed.

Lemma estimate_tokens_SearchResult (r : SearchResult) :
  estimate_tokens (SearchResult_py r)
  = 12 + str_tokens (sr_name r) + str_tokens (sr_type r)
    + opt_tokens (sr_platform r) + str_tokens (sr_load_url r)
    + opt_tokens (sr_docset r) + opt_tokens (sr_description r)
    + opt_tokens (sr_language r) + opt_tokens (sr_tags r).
Proof.
  unfold SearchResult_py.
  cbn [estimate_tokens map zsum fold_right].
  rewrite !estimate_tokens_opt.
  fold (str_tokens (sr_name r)) (str_tokens (sr_type r))
       (str_tokens (sr_load_url r)).
  change (str_tokens "name") with 1.
  change (str_tokens "type") with 1.
  change (str_tokens "platform") with 2.
  change (str_tokens "load_url") with 2.
  change (str_tokens "docset") with 1.
  change (str_tokens "description") with 2.
  change (str_tokens "language") with 2.
  change (str_tokens "tags") with 1.
  lia.
Qed.

(** C6, as stated, fails: a string of five characters is estimated at one
    unit, where rounding up gives two. *)
Lemma five_characters_estimate_one :
  estimate_tokens (PStr "abcde") = 1
  /\ spec_ceil_tokens "abcde" = 2
  /\ estimate_tokens (PStr "abcde") <> spec_ceil_tokens "abcde".
Proof. repeat split; try reflexivity. discriminate. Qed.

(** C6, amended: the estimate of a string is its length over four rounded
    DOWN, at least one (so a string of four or more characters satisfies
    [4 * e <= len < 4 * e + 4]); lists and tuples sum their elements; a
    dict sums the estimates of its keys and of its values; a model is
    estimated as its dump, field names included; [None], booleans and
    integers are estimated from their [str] text.  For the two result
    models this gives a fixed 10 resp. 12 units for the field names plus
    the estimates of the values, an absent optional field counting 1. *)
Theorem estimate_tokens_rounds_down :
  (forall s : string,
      estimate_tokens (PStr s) = Z.max 1 (Z.of_nat (String.length s) / 4)
      /\ 1 <= estimate_tokens (PStr s)
      /\ (4 <= Z.of_nat (String.length s) ->
          4 * estimate_tokens (PStr s) <= Z.of_nat (String.length s)
          < 4 * estimate_tokens (PStr s) + 4))
  /\ (forall items : list pyobj,
         estimate_tokens (PList items) = zsum (map estimate_tokens items)
         /\ estimate_tokens (PTuple items) = zsum (map estimate_tokens items))
  /\ (forall kvs : list (pyobj * pyobj),
         estimate_tokens (PDict kvs)
         = zsum (map (fun kv => estimate_tokens (fst kv)
                                + estimate_tokens (snd kv)) kvs))
  /\ (forall dump : list (string * pyobj),
         estimate_tokens (PModel dump) = estimate_tokens (model_dump dump))
  /\ estimate_tokens PNone = 1
  /\ (forall d : DocsetResult,
         estimate_tokens (DocsetResult_py d)
         = 10 + str_tokens (dr_name d) + str_tokens (dr_identifier d)
           + str_tokens (dr_platform d) + str_tokens (dr_full_text_search d)
           + opt_tokens (dr_notice d))
  /\ (forall r : SearchResult,
         estimate_tokens (SearchResult_py r)
         = 12 + str_tokens (sr_name r) + str_tokens (sr_type r)
           + opt_tokens (sr_platform r) + str_tokens (sr_load_url r)
           + opt_tokens (sr_docset r) + opt_tokens (sr_description r)
           + opt_tokens (sr_language r) + opt_tokens (sr_tags r)).
Proof.
  split; [| split; [| split; [| split; [| split; [| split]]]]].
  - intros s. cbn [estimate_tokens].
    assert (Hm := Z.mod_pos_bound (Z.of_nat (String.length s)) 4 ltac:(lia)).
    assert (He := Z.div_mod (Z.of_nat (String.length s)) 4 ltac:(lia)).
    lia.
  - intros items. split; reflexivity.
  - intros kvs. cbn [estimate_tokens]. f_equal.
    induction kvs as [| [k v] kvs IH]; cbn [map fst snd]; [reflexivity |].
    now rewrite IH.
  - apply estimate_tokens_model.
  - reflexivity.
  - apply estimate_tokens_DocsetResult.
  - apply estimate_tokens_SearchResult.
Qed.

(** ** The budgeting loop *)

Section BudgetFacts.
Context {Raw Item : Type}.
Variable build : Raw -> outcome Item.
Variable weigh : Item -> Z.

Lemma budget_loop_inv (items : list Raw) :
  forall (current : Z) (limited out : list Item) (broke : bool),
    budget_loop build weigh items current limited = Val (out, broke) ->
    exists taken,
      out = (limited ++ taken)%list /\ loop_post build weigh items current taken broke.
Proof.
  induction items as [| raw rest IH]; intros current limited out broke Hrun.
  - cbn in Hrun. injection Hrun as <- <-.
    exists []. split; [now rewrite app_nil_r |].
    unfold loop_post; cbn.
    repeat split; try lia; try constructor; try discriminate.
  - cbn [budget_loop] in Hrun.
    destruct (build raw) as [info | e] eqn:Hbuild; [| discriminate].
    destruct (current + weigh info >? token_limit) eqn:Hcmp.
    + injection Hrun as <- <-.
      exists []. split; [now rewrite app_nil_r |].
      unfold loop_post; cbn [List.length firstn nth_error].
      repeat split; try lia; try constructor.
      intros _. exists raw, info. repeat split; try assumption.
      unfold weight_of, zsum; cbn. lia.
    + apply IH in Hrun. destruct Hrun as (taken & -> & Hlen & Hbuilt & Hfit & Hcut & Hbrk).
      exists (info :: taken). split; [now rewrite <- app_assoc |].
      unfold loop_post; cbn [List.length firstn nth_error].
      split; [lia |]. split; [now constructor |].
      split; [| split].
      * intros k Hk. destruct k as [| k].
        -- cbn. unfold weight_of, zsum; cbn. lia.
        -- specialize (Hfit k ltac:(lia)).
           change (firstn (S (S k)) (info :: taken))
             with (info :: firstn (S k) taken).
           unfold weight_of, zsum in *. cbn [map fold_right] in *. lia.
      * intros Hlt. destruct (Hcut ltac:(lia)) as (raw' & info' & Hnth & Hb & Hover).
        exists raw', info'. repeat split; try assumption.
        unfold weight_of, zsum in *. cbn [map fold_right] in *. lia.
      * rewrite Hbrk. lia.
Qed.

Lemma budget_loop_raises (items : list Raw) :
  forall (current : Z) (limited : list Item) (e : exn),
    budget_loop build weigh items current limited = Exc e ->
    exists raw, In raw items /\ build raw = Exc e.
Proof.
  induction items as [| raw rest IH]; intros current limited e Hrun.
  - discriminate.
  - cbn [budget_loop] in Hrun.
    destruct (build raw) as [info | e'] eqn:Hbuild.
    + destruct (current + weigh info >? token_limit); [discriminate |].
      apply IH in Hrun. destruct Hrun as (raw' & Hin & Hb).
      exists raw'. split; [now right | assumption].
    + injection Hrun as ->. exists raw. split; [now left | assumption].
Qed.

(** The loop returns whenever every item can be built. *)
Lemma budget_loop_returns (items : list Raw) (current : Z)
      (limited : list Item) :
  (forall raw, In raw items -> exists info, build raw = Val info) ->
  exists out broke,
    budget_loop build weigh items current limited = Val (out, broke).
Proof.
  intros Hall.
  destruct (budget_loop build weigh items current limited)
    as [[out broke] | e] eqn:Hrun; [now exists out, broke |].
  apply budget_loop_raises in Hrun. destruct Hrun as (raw & Hin & Hb).
  destruct (Hall raw Hin) as (info & Hinfo). congruence.
Qed.
End BudgetFacts.

(** C1.  Whatever the items, the way they are built and the weight
    estimate: the loop started as both tools start it (running total 100,
    empty list) either raises the exception of an item of the input that
    cannot be built, or returns a list [out] such that
    - [out] is no longer than the input and consists of the first
      [length out] items, built one for one in their order;
    - every item taken fitted: 100 plus the weights up to and including
      it is at most 25000, so in particular 100 plus the weight of [out]
      is at most 25000;
    - if an item is left over, the first one left over is the one whose
      weight, added to 100 plus the weight of [out], exceeds 25000;
    and the loop returns whenever every item can be built. *)
Theorem budget_loop_prefix :
  forall (Raw Item : Type) (build : Raw -> outcome Item) (weigh : Item -> Z)
         (items : list Raw),
    match budget_loop build weigh items base_overhead [] with
    | Val (out, broke) =>
        (List.length out <= List.length items)%nat
        /\ built build (firstn (List.length out) items) out
        /\ base_overhead + weight_of weigh out <= token_limit
        /\ (forall k, (k < List.length out)%nat ->
                      base_overhead + weight_of weigh (firstn (S k) out)
                      <= token_limit)
        /\ ((List.length out < List.length items)%nat ->
            exists raw info,
              nth_error items (List.length out) = Some raw
              /\ build raw = Val info
              /\ base_overhead + weight_of weigh out + weigh info
                 > token_limit)
        /\ (broke = true <-> (List.length out < List.length items)%nat)
    | Exc e => exists raw, In raw items /\ build raw = Exc e
    end
    /\ ((forall raw, In raw items -> exists info, build raw = Val info) ->
        exists out broke,
          budget_loop build weigh items base_overhead [] = Val (out, broke)).
Proof.
  intros Raw Item build weigh items. split.
  - destruct (budget_loop build weigh items base_overhead [])
      as [[out broke] | e] eqn:Hrun.
    + apply budget_loop_inv in Hrun.
      destruct Hrun as (taken & -> & Hlen & Hbuilt & Hfit & Hcut & Hbrk).
      cbn [app]. repeat split; try assumption; try (apply Hbrk).
      destruct taken as [| info taken'] eqn:Htaken.
      * unfold weight_of, zsum, base_overhead, token_limit; cbn. lia.
      * rewrite <- Htaken in *.
        assert (Hlast := Hfit (pred (List.length taken))).
        replace (S (pred (List.length taken))) with (List.length taken) in Hlast
          by (subst taken; cbn; lia).
        rewrite firstn_all in Hlast. apply Hlast. subst taken; cbn; lia.
    + now apply budget_loop_raises in Hrun.
  - apply budget_loop_returns.
Qed.

(** The theorem at work on four items weighing 10000, 14000, 2000 and 5:
    the loop returns, and it keeps the first two, the third being the
    first that does not fit. *)
Lemma budget_loop_prefix_witness :
  (exists out broke,
      budget_loop (fun z : Z => Val z) (fun z => z) [10000; 14000; 2000; 5]
                  base_overhead [] = Val (out, broke))
  /\ budget_loop (fun z : Z => Val z) (fun z => z) [10000; 14000; 2000; 5]
                 base_overhead [] = Val ([10000; 14000], true).
Proof.
  split; [| reflexivity].
  apply (proj2 (budget_loop_prefix Z Z (fun z => Val z) (fun z => z)
                  [10000; 14000; 2000; 5])).
  intros raw _. now exists raw.
Defined.

(** ** Accounting for external actions *)

Section Cost.
Variable w : ekind -> nat.

Lemma total_app (t1 t2 : trace) :
  total w (t1 ++ t2)%list = (total w t1 + total w t2)%nat.
Proof.
  unfold total.
  induction t1 as [| ev t1 IH]; cbn [app fold_right];
    [reflexivity | rewrite IH; lia].
Qed.

Lemma costs_weaken {A} (m : M A) (n n' : nat) :
  costs w m n -> (n <= n')%nat -> costs w m n'.
Proof. intros Hm Hle h. specialize (Hm h). lia. Qed.

Lemma costs_ret {A} (a : A) (n : nat) : costs w (ret a) n.
Proof. intros h. cbn. lia. Qed.

Lemma costs_raise {A} (e : exn) (n : nat) : costs w (@raise A e) n.
Proof. intros h. cbn. lia. Qed.

Lemma costs_lift {A} (o : outcome A) (n : nat) : costs w (lift o) n.
Proof. intros h. cbn. lia. Qed.

Lemma costs_perform {A} (ev : event) (answer : trace -> A) :
  costs w (perform ev answer) (w (kind ev)).
Proof. intros h. cbn. lia. Qed.

Lemma costs_bind {A B} (m : M A) (k : A -> M B) (n1 n : nat) :
  costs w m n1 -> (n1 <= n)%nat ->
  (forall a, costs w (k a) (n - n1)) ->
  costs w (bind m k) n.
Proof.
  intros Hm Hle Hk h. unfold bind.
  specialize (Hm h). destruct (m h) as [[a | e] d]; cbn [snd] in *.
  - specialize (Hk a (h ++ d)%list).
    destruct (k a (h ++ d)%list) as [r d']. cbn [snd] in *.
    rewrite total_app. lia.
  - lia.
Qed.

Lemma costs_try {A} (m : M A) (handler : exn -> M A) (n1 n : nat) :
  costs w m n1 -> (n1 <= n)%nat ->
  (forall e, costs w (handler e) (n - n1)) ->
  costs w (try_except m handler) n.
Proof.
  intros Hm Hle Hk h. unfold try_except.
  specialize (Hm h). destruct (m h) as [[a | e] d]; cbn [snd] in *.
  - lia.
  - specialize (Hk e (h ++ d)%list).
    destruct (handler e (h ++ d)%list) as [r d']. cbn [snd] in *.
    rewrite total_app. lia.
Qed.

Lemma costs_seq {A B} (m : M A) (k : A -> M B) (n1 n2 : nat) :
  costs w m n1 -> (forall a, costs w (k a) n2) -> costs w (bind m k) (n1 + n2).
Proof.
  intros Hm Hk. apply costs_bind with (n1 := n1); [assumption | lia |].
  intros a. eapply costs_weaken; [apply Hk | lia].
Qed.

Lemma costs_ret0 {A} (a : A) : costs w (ret a) 0.
Proof. apply costs_ret. Qed.

Lemma costs_raise0 {A} (e : exn) : costs w (@raise A e) 0.
Proof. apply costs_raise. Qed.

Lemma costs_lift0 {A} (o : outcome A) : costs w (lift o) 0.
Proof. apply costs_lift. Qed.

Lemma costs_log (l : level) : costs w (log l) (w KLog).
Proof. apply (costs_perform (EvLog l)). Qed.

Lemma costs_sleep (s : nat) : costs w (sleep s) (w KSleep).
Proof. apply (costs_perform (EvSleep s)). Qed.

Lemma costs_raise_for_status (r : response) : costs w (raise_for_status r) 0.
Proof.
  unfold raise_for_status. destruct (is_success r);
    [apply costs_ret | apply costs_raise].
Qed.

Lemma costs_run (ev : event) (answer : trace -> proc) (check : bool) :
  costs w (run ev answer check) (w (kind ev)).
Proof.
  unfold run. eapply costs_bind; [apply costs_perform | lia |].
  intros [rc | msg]; [| apply costs_raise].
  destruct (check && negb (rc =? 0)); [apply costs_raise | apply costs_ret].
Qed.

Lemma costs_client_get (W : World) (u : url) (params : list (string * pyobj)) :
  costs w (client_get W u params) (w (kind (EvGet u params))).
Proof.
  unfold client_get. eapply costs_bind; [apply costs_perform | lia |].
  intros [r | msg]; [apply costs_ret | apply costs_raise].
Qed.

Lemma costs_response_json (r : response) : costs w (response_json r) 0.
Proof.
  unfold response_json. destruct (json_body r);
    [apply costs_ret | apply costs_raise].
Qed.
End Cost.

Create HintDb costs.

#[local] Hint Resolve costs_log costs_sleep costs_raise_for_status costs_run
  costs_client_get costs_response_json costs_perform costs_seq costs_ret0
  costs_raise0 costs_lift0 : costs.

(** One step of a cost derivation: a leaf, a sequencing whose first part
    has a known price, or a case split on what the code branches on. *)
Ltac cost_step :=
  lazymatch goal with
  | |- costs _ (ret _) _ => apply costs_ret
  | |- costs _ (raise _) _ => apply costs_raise
  | |- costs _ (lift _) _ => apply costs_lift
  | |- costs _ (bind (if ?b then _ else _) _) _ => destruct b
  | |- costs _ (bind (ret _) _) _ =>
      eapply costs_bind with (n1 := O); [apply costs_ret | lia | intros ?]
  | |- costs _ (bind (lift _) _) _ =>
      eapply costs_bind with (n1 := O); [apply costs_lift | lia | intros ?]
  | |- costs _ (bind _ _) _ =>
      eapply costs_bind; [solve [eauto with costs] | cbn; lia | intros ?]
  | |- costs _ (try_except _ _) _ =>
      eapply costs_try; [solve [eauto with costs] | cbn; lia | intros ?]
  | |- costs _ (if ?b then _ else _) _ => destruct b
  | |- costs _ (match ?x with _ => _ end) _ => destruct x
  | |- costs _ _ _ =>
      eapply costs_weaken; [solve [eauto with costs] | cbn; lia]
  end.

Section LadderCost.
Variable w : ekind -> nat.
Variable W : World.

Lemma costs_check_api_health (port : pyobj) :
  costs w (check_api_health W port) (w KHealth + 2 * w KLog).
Proof. unfold check_api_health. repeat cost_step. Qed.

Hint Resolve costs_check_api_health : costs.

Lemma costs_read_port : costs w (read_port W) (w KRead).
Proof.
  unfold read_port.
  replace (w KRead) with (w KRead + 0)%nat by lia.
  apply costs_seq; [apply (costs_perform w EvReadStatus) |].
  intros st. repeat cost_step.
Qed.

Hint Resolve costs_read_port : costs.

Lemma costs_get_dash_api_port :
  costs w (get_dash_api_port W) (price_discover w).
Proof.
  unfold get_dash_api_port, price_discover.
  eapply costs_try with (n1 := (w KRead + w KHealth + 2 * w KLog)%nat);
    [| lia | intros ?]; repeat cost_step.
Qed.

Lemma costs_check_dash_running : costs w (check_dash_running W) (w KPgrep).
Proof.
  unfold check_dash_running.
  eapply costs_try with (n1 := w KPgrep); [| lia | intros ?];
    repeat cost_step.
Qed.

Hint Resolve costs_get_dash_api_port costs_check_dash_running : costs.

Lemma costs_ensure_dash_running :
  costs w (ensure_dash_running W) (price_launch w).
Proof.
  unfold ensure_dash_running, price_launch.
  cost_step. cost_step; [| cost_step]. cost_step.
  eapply costs_try
    with (n1 := (w (KOpen Dashdoc) + w (KOpen Setapp) + w KSleep
                 + w KPgrep + w KLog)%nat);
    [| cbn; lia | intros ?]; repeat cost_step.
Qed.

Hint Resolve costs_ensure_dash_running : costs.

Lemma costs_working_api_base_url :
  costs w (working_api_base_url W) (price_ladder w).
Proof.
  unfold working_api_base_url, price_ladder.
  cost_step. cost_step; [cost_step |].
  cost_step. cost_step; [cost_step |]. cost_step.
  eapply costs_try
    with (n1 := (w (KWrite Dashdoc) + w (KWrite Setapp) + w KSleep
                 + (price_discover w) + w KLog)%nat);
    [| cbn; lia | intros ?]; repeat cost_step.
Qed.

Hint Resolve costs_working_api_base_url : costs.

Lemma costs_list_installed_docsets :
  costs w (list_installed_docsets W) (price_tool w).
Proof.
  unfold list_installed_docsets, price_tool.
  eapply costs_try with (n1 := (price_ladder w + w KApi + 4 * w KLog)%nat);
    [| cbn; lia | intros ?]; repeat cost_step.
Qed.

Lemma costs_search_status_error (r : response) (e : exn) :
  costs w (search_status_error r e) (w KLog).
Proof. unfold search_status_error. repeat cost_step. Qed.

Hint Resolve costs_search_status_error : costs.

Lemma costs_search_documentation (query ids : string) (snippets : bool)
      (max_results : Z) :
  costs w (search_documentation W query ids snippets max_results) (price_tool w).
Proof.
  unfold search_documentation, price_tool.
  do 3 (cost_step; [solve [repeat cost_step] |]).
  eapply costs_try with (n1 := (price_ladder w + w KApi + 5 * w KLog)%nat);
    [| cbn; lia | intros ?]; repeat cost_step.
Qed.

Lemma costs_enable_docset_fts (identifier : string) :
  costs w (enable_docset_fts W identifier) (price_tool w).
Proof.
  unfold enable_docset_fts, price_tool.
  cost_step; [solve [repeat cost_step] |].
  eapply costs_try with (n1 := (price_ladder w + w KApi + w KLog)%nat);
    [| cbn; lia | intros ?]; repeat cost_step.
Qed.

Lemma costs_fetch_documentation_content
      (BeautifulSoup : string -> outcome (list node))
      (md : list node -> outcome string) (load_url : string) :
  costs w (fetch_documentation_content W BeautifulSoup md load_url)
        (w KFetch + 4 * w KLog).
Proof.
  unfold fetch_documentation_content.
  cost_step; [solve [repeat cost_step] |].
  eapply costs_try with (n1 := (w KFetch + 3 * w KLog)%nat);
    [| cbn; lia | intros ?]; repeat cost_step.
Qed.
End LadderCost.

(** ** The lifecycle ladder runs once *)

Lemma occurrences_total (k : ekind) (t : trace) :
  occurrences k t = total (fun k' => if ekind_eqb k' k then 1%nat else O) t.
Proof.
  unfold occurrences, total.
  induction t as [| ev t IH]; cbn [filter fold_right List.length];
    [reflexivity |].
  destruct (ekind_eqb (kind ev) k); cbn [List.length]; rewrite IH; lia.
Qed.

Lemma length_total (t : trace) : List.length t = total (fun _ => 1%nat) t.
Proof.
  unfold total. induction t as [| ev t IH]; cbn [fold_right List.length];
    [reflexivity | rewrite IH; lia].
Qed.

(** A trace priced within [price_tool], whatever the prices, keeps the
    discipline. *)
Lemma discipline_of_costs (t : trace) :
  (forall w, (total w t <= price_tool w)%nat) -> ladder_discipline t.
Proof.
  intros Hw. unfold ladder_discipline.
  rewrite !occurrences_total, length_total.
  repeat split;
    match goal with
    | |- (total ?w _ <= _)%nat => exact (Hw w)
    end.
Qed.

Lemma discipline_of_fetch_costs (t : trace) :
  (forall w, (total w t <= w KFetch + 4 * w KLog)%nat) -> ladder_discipline t.
Proof.
  intros Hw. unfold ladder_discipline.
  rewrite !occurrences_total, length_total.
  repeat split;
    match goal with
    | |- (total ?w _ <= _)%nat =>
        eapply Nat.le_trans; [exact (Hw w) | cbn; lia]
    end.
Qed.

Section Remediation.
Variable W : World.

(** The path through the second rung: the application runs, discovery
    finds nothing, both settings writes succeed.  Then discovery is
    called exactly once more and its outcome [r4] decides: a port gives
    the base address, anything else gives absent; one log line ends the
    ladder. *)
Lemma working_api_base_url_recheck (h d1 d2 d4 : trace)
      (r4 : outcome (option pyobj)) :
  ensure_dash_running W h = (Val true, d1) ->
  get_dash_api_port W (h ++ d1)%list = (Val None, d2) ->
  defaults_write W (h ++ d1 ++ d2 ++ [EvLog Info])%list Dashdoc = Exited 0 ->
  defaults_write W (h ++ d1 ++ d2 ++ [EvLog Info; EvDefaultsWrite Dashdoc])%list
                 Setapp = Exited 0 ->
  get_dash_api_port W (h ++ d1 ++ d2 ++ EvLog Info :: enable_actions)%list
  = (r4, d4) ->
  working_api_base_url W h
  = (match r4 with
     | Val (Some p) => Val (Some p)
     | _ => Val None
     end,
     (d1 ++ d2 ++ EvLog Info :: enable_actions ++ d4
         ++ [EvLog match r4 with
                   | Val (Some _) => Info
                   | _ => Error
                   end])%list).
Proof.
  intros Hrun Hport Hw1 Hw2 Hre.
  unfold working_api_base_url, bind at 1. rewrite Hrun. cbn [negb].
  unfold bind at 1. rewrite Hport.
  unfold try_except, run, sleep, log.
  unfold bind, perform, ret, raise.
  rewrite <- !app_assoc. cbn [app].
  rewrite Hw1. cbn [andb negb Z.eqb].
  rewrite <- !app_assoc. cbn [app].
  rewrite Hw2. cbn [andb negb Z.eqb].
  rewrite <- !app_assoc. cbn [app].
  unfold enable_actions in *. rewrite Hre.
  destruct r4 as [[p |] | e]; cbn [app];
    rewrite <- ?app_assoc; cbn [app]; rewrite ?app_nil_r; reflexivity.
Qed.
End Remediation.

Section Absent.
Variable W : World.

Lemma list_installed_docsets_absent (h t : trace) :
  working_api_base_url W h = (Val None, t) ->
  list_installed_docsets W h
  = (Val (mkDocsetResults [] (Some msg_connect)), t).
Proof.
  intros Hw. unfold list_installed_docsets, try_except, bind at 1.
  rewrite Hw. cbn. now rewrite app_nil_r.
Qed.

Lemma search_documentation_absent (h t : trace) (query ids : string)
      (snippets : bool) (max_results : Z) :
  is_blank_arg query = false -> is_blank_arg ids = false ->
  1 <= max_results <= 1000 ->
  working_api_base_url W h = (Val None, t) ->
  search_documentation W query ids snippets max_results h
  = (Val (mkSearchResults [] (Some msg_connect)), t).
Proof.
  intros Hq Hi Hm Hw. unfold search_documentation. rewrite Hq, Hi.
  replace ((max_results <? 1) || (max_results >? 1000)) with false
    by (symmetry; apply orb_false_iff; split; lia).
  unfold try_except, bind at 1. rewrite Hw. cbn. now rewrite app_nil_r.
Qed.

Lemma enable_docset_fts_absent (h t : trace) (identifier : string) :
  is_blank_arg identifier = false ->
  working_api_base_url W h = (Val None, t) ->
  enable_docset_fts W identifier h = (Val false, t).
Proof.
  intros Hi Hw. unfold enable_docset_fts. rewrite Hi.
  unfold try_except, bind at 1. rewrite Hw. cbn. now rewrite app_nil_r.
Qed.
End Absent.

(** C2.  Whatever the world answers and whatever the arguments, one call
    of any of the four tools keeps [ladder_discipline]: each of the two
    launch commands (the second is the fallback of the first, inside the
    one launch attempt) and each of the two settings writes is issued at
    most once, discovery runs at most twice, and the whole call performs
    at most 29 external actions, so nothing is retried without bound.
    On the remediation path the re-check is the last thing the ladder
    does: once the settle wait is over, discovery runs once more, and
    unless it yields a port the ladder yields absent.  When the ladder
    yields absent, each tool returns its connectivity error (or [False])
    having done nothing beyond the ladder's own actions. *)
Theorem lifecycle_attempted_once :
  forall (W : World) (h : trace),
    ladder_discipline (snd (list_installed_docsets W h))
    /\ (forall query ids snippets max_results,
           ladder_discipline
             (snd (search_documentation W query ids snippets max_results h)))
    /\ (forall identifier,
           ladder_discipline (snd (enable_docset_fts W identifier h)))
    /\ (forall BeautifulSoup md load_url,
           ladder_discipline
             (snd (fetch_documentation_content W BeautifulSoup md load_url h)))
    /\ (forall d1 d2 d4 r4,
           ensure_dash_running W h = (Val true, d1) ->
           get_dash_api_port W (h ++ d1)%list = (Val None, d2) ->
           defaults_write W (h ++ d1 ++ d2 ++ [EvLog Info])%list Dashdoc
           = Exited 0 ->
           defaults_write W
             (h ++ d1 ++ d2 ++ [EvLog Info; EvDefaultsWrite Dashdoc])%list
             Setapp = Exited 0 ->
           get_dash_api_port W
             (h ++ d1 ++ d2 ++ EvLog Info :: enable_actions)%list = (r4, d4) ->
           working_api_base_url W h
           = (match r4 with
              | Val (Some p) => Val (Some p)
              | _ => Val None
              end,
              (d1 ++ d2 ++ EvLog Info :: enable_actions ++ d4
                  ++ [EvLog match r4 with
                            | Val (Some _) => Info
                            | _ => Error
                            end])%list))
    /\ (forall t,
           working_api_base_url W h = (Val None, t) ->
           list_installed_docsets W h
           = (Val (mkDocsetResults [] (Some msg_connect)), t)
           /\ (forall identifier,
                  is_blank_arg identifier = false ->
                  enable_docset_fts W identifier h = (Val false, t))
           /\ (forall query ids snippets max_results,
                  is_blank_arg query = false -> is_blank_arg ids = false ->
                  1 <= max_results <= 1000 ->
                  search_documentation W query ids snippets max_results h
                  = (Val (mkSearchResults [] (Some msg_connect)), t))).
Proof.
  intros W h. split; [| split; [| split; [| split; [| split]]]].
  - apply discipline_of_costs. intros w. apply costs_list_installed_docsets.
  - intros. apply discipline_of_costs. intros w.
    apply costs_search_documentation.
  - intros. apply discipline_of_costs. intros w. apply costs_enable_docset_fts.
  - intros. apply discipline_of_fetch_costs. intros w.
    apply costs_fetch_documentation_content.
  - intros d1 d2 d4 r4. apply working_api_base_url_recheck.
  - intros t Hw. split; [| split].
    + now apply list_installed_docsets_absent.
    + intros. now apply enable_docset_fts_absent.
    + intros. now apply search_documentation_absent.
Qed.

(** The theorem at work: with the API never coming up, the ladder writes
    each setting once, re-checks once and gives up, and the listing tool
    reports the connectivity error after exactly those actions. *)
Lemma lifecycle_attempted_once_witness :
  list_installed_docsets world_api_disabled []
  = (Val (mkDocsetResults [] (Some msg_connect)),
     [EvPgrep; EvReadStatus; EvLog Info; EvDefaultsWrite Dashdoc;
      EvDefaultsWrite Setapp; EvSleep 2; EvReadStatus; EvLog Error])
  /\ ladder_discipline (snd (list_installed_docsets world_api_disabled [])).
Proof.
  destruct (lifecycle_attempted_once world_api_disabled [])
    as (Hlist & _ & _ & _ & Hre & Habsent).
  split; [| exact Hlist].
  apply Habsent.
  apply (Hre [EvPgrep] [EvReadStatus] [EvReadStatus] (Val None));
    reflexivity.
Defined.

(** ** Validation comes first *)

(** C3.  A blank query, a blank identifier list or a [max_results]
    outside 1..1000 makes [search_documentation] return at once: the
    result carries no hits and the message of the first check that
    failed, and the only action performed is the one error log line, so
    no request is sent and the lifecycle ladder is not entered, whatever
    the world would have answered. *)
Theorem search_documentation_validation :
  forall (W : World) (query ids : string) (snippets : bool)
         (max_results : Z) (h : trace),
    is_blank_arg query = true \/ is_blank_arg ids = true
    \/ max_results < 1 \/ max_results > 1000 ->
    exists msg,
      search_documentation W query ids snippets max_results h
      = (Val (mkSearchResults [] (Some msg)), [EvLog Error])
      /\ msg = (if is_blank_arg query then msg_query_empty
                else if is_blank_arg ids then msg_ids_empty
                else msg_max_results)
      /\ occurrences KApi [EvLog Error] = O
      /\ occurrences KHealth [EvLog Error] = O
      /\ occurrences KPgrep [EvLog Error] = O
      /\ occurrences KRead [EvLog Error] = O.
Proof.
  intros W query ids snippets max_results h Hbad.
  unfold search_documentation.
  destruct (is_blank_arg query) eqn:Hq.
  - eexists. repeat split; reflexivity.
  - destruct (is_blank_arg ids) eqn:Hi.
    + eexists. repeat split; reflexivity.
    + replace ((max_results <? 1) || (max_results >? 1000)) with true.
      * eexists. repeat split; reflexivity.
      * symmetry. apply orb_true_iff.
        destruct Hbad as [Hb | [Hb | [Hb | Hb]]]; try discriminate;
          [left | right]; lia.
Qed.

(** Scenario C of the specification, through the theorem. *)
Lemma search_documentation_validation_witness :
  exists msg,
    search_documentation world_api_disabled EmptyString "python3" true 100 []
    = (Val (mkSearchResults [] (Some msg)), [EvLog Error])
    /\ msg = msg_query_empty.
Proof.
  destruct (search_documentation_validation world_api_disabled EmptyString
              "python3" true 100 [] (or_introl eq_refl))
    as (msg & Hrun & Hmsg & _).
  exists msg. split; [exact Hrun | exact Hmsg].
Defined.

(** ** Discovery trusts no stale port *)

(** Equations of the computation monad. *)
Lemma bind_ret {A B} (a : A) (k : A -> M B) (h : trace) :
  bind (ret a) k h = k a h.
Proof. unfold bind, ret. rewrite app_nil_r. now destruct (k a h). Qed.

Lemma bind_lift_val {A B} (a : A) (k : A -> M B) (h : trace) :
  bind (lift (Val a)) k h = k a h.
Proof. unfold bind, lift. rewrite app_nil_r. now destruct (k a h). Qed.

Lemma bind_lift_exc {A B} (e : exn) (k : A -> M B) (h : trace) :
  bind (lift (Exc e)) k h = (Exc e, []).
Proof. reflexivity. Qed.

Lemma bind_raise {A B} (e : exn) (k : A -> M B) (h : trace) :
  bind (raise e) k h = (Exc e, []).
Proof. reflexivity. Qed.

Lemma bind_perform {A B} (ev : event) (answer : trace -> A) (k : A -> M B)
      (h : trace) :
  bind (perform ev answer) k h
  = (fst (k (answer h) (h ++ [ev])%list),
     ev :: snd (k (answer h) (h ++ [ev])%list)).
Proof. unfold bind, perform. now destruct (k _ _). Qed.

Lemma bind_bind {A B C} (m : M A) (k : A -> M B) (k' : B -> M C) (h : trace) :
  bind (bind m k) k' h = bind m (fun a => bind (k a) k') h.
Proof.
  unfold bind. destruct (m h) as [[a | e] d]; [| reflexivity].
  destruct (k a (h ++ d)%list) as [[b | e] d']; [| reflexivity].
  rewrite <- app_assoc. destruct (k' b _) as [r d''].
  now rewrite app_assoc.
Qed.

Section Discovery.
Variable W : World.

Lemma check_api_health_run (port : pyobj) (h : trace) :
  check_api_health W port h
  = (Val (probe_ok (http_get W h (Health port) [])),
     [EvGet (Health port) []; EvLog Debug]).
Proof.
  unfold check_api_health, try_except, client_get, raise_for_status, log.
  unfold bind, perform, ret, raise, probe_ok.
  destruct (http_get W h (Health port) []) as [r | msg]; cbn;
    [destruct (is_success r) |]; reflexivity.
Qed.

Lemma get_dash_api_port_absent (h : trace) :
  (read_status W h = NoFile
   \/ (exists msg, read_status W h = NotJson msg)
   \/ (exists kvs, read_status W h = Parsed (PDict kvs)
                   /\ (dict_get "port" kvs = None
                       \/ dict_get "port" kvs = Some PNone))) ->
  get_dash_api_port W h = (Val None, [EvReadStatus]).
Proof.
  intros Hst. unfold get_dash_api_port, try_except, read_port.
  unfold bind at 1 2, perform.
  destruct Hst as [-> | [[msg ->] | (kvs & -> & Hport)]]; cbn;
    try reflexivity.
  destruct Hport as [-> | ->]; reflexivity.
Qed.

Lemma get_dash_api_port_present (h : trace) (kvs : list (pyobj * pyobj))
      (port : pyobj) :
  read_status W h = Parsed (PDict kvs) ->
  dict_get "port" kvs = Some port -> port <> PNone ->
  get_dash_api_port W h
  = (Val (if probe_ok (http_get W (h ++ [EvReadStatus])%list (Health port) [])
          then Some port else None),
     [EvReadStatus; EvGet (Health port) []; EvLog Debug]).
Proof.
  intros Hst Hget Hnone.
  unfold get_dash_api_port, try_except, read_port.
  rewrite bind_bind, bind_perform, Hst.
  unfold dot_get. rewrite Hget, bind_bind, bind_lift_val.
  assert (Hport :
    (match port with PNone => ret None | _ => ret (Some port) end)
    = ret (Some port)) by (destruct port; try contradiction; reflexivity).
  rewrite Hport, bind_ret.
  unfold bind. rewrite check_api_health_run.
  destruct (probe_ok _); reflexivity.
Qed.
End Discovery.

Section DiscoveryCases.
Variable W : World.

(** Outside the states named above the function does not return:
    another failure of reading, or a parsed value that is no dict,
    raises out of [get_dash_api_port]. *)
Lemma get_dash_api_port_raises (h : trace) :
  (exists msg, read_status W h = ReadFailed msg)
  \/ (exists v, read_status W h = Parsed v
                /\ forall kvs, v <> PDict kvs) ->
  exists e, get_dash_api_port W h = (Exc e, [EvReadStatus]).
Proof.
  intros Hst. unfold get_dash_api_port, try_except, read_port.
  rewrite bind_bind, bind_perform.
  destruct Hst as [[msg ->] | (v & -> & Hv)].
  - rewrite bind_raise. cbn. eexists; reflexivity.
  - destruct v; try (exfalso; eapply Hv; reflexivity);
      cbn [dot_get]; rewrite bind_bind, bind_lift_exc; cbn;
        eexists; reflexivity.
Qed.

(** A port comes back only out of the status file and only after its
    own probe succeeded. *)
Lemma get_dash_api_port_some (h : trace) (port : pyobj) (d : trace) :
  get_dash_api_port W h = (Val (Some port), d) ->
  (exists kvs, read_status W h = Parsed (PDict kvs)
               /\ dict_get "port" kvs = Some port)
  /\ port <> PNone
  /\ probe_ok (http_get W (h ++ [EvReadStatus])%list (Health port) []) = true.
Proof.
  intros Hrun.
  destruct (read_status W h) as [| msg | v | msg] eqn:Hst.
  - rewrite get_dash_api_port_absent in Hrun by (now left). discriminate.
  - rewrite get_dash_api_port_absent in Hrun
      by (right; left; now exists msg).
    discriminate.
  - destruct v as [| b | z | s | l | l | kvs | dump];
      try (destruct (get_dash_api_port_raises h) as [e He];
           [right; eexists; split; [eassumption | discriminate] |];
           rewrite He in Hrun; discriminate).
    destruct (dict_get "port" kvs) as [p |] eqn:Hget.
    + assert (Hp : p = PNone \/ p <> PNone)
        by (destruct p; (now left) || (right; discriminate)).
      destruct Hp as [-> | Hp].
      * rewrite get_dash_api_port_absent in Hrun
          by (right; right; exists kvs; split; [assumption | now right]).
        discriminate.
      * rewrite (get_dash_api_port_present W h kvs p Hst Hget Hp) in Hrun.
        destruct (probe_ok (http_get W (h ++ [EvReadStatus])%list
                                     (Health p) [])) eqn:Hprobe;
          [| discriminate].
        injection Hrun as <- <-.
        repeat split; try assumption. now exists kvs.
    + rewrite get_dash_api_port_absent in Hrun
        by (right; right; exists kvs; split; [assumption | now left]).
      discriminate.
  - destruct (get_dash_api_port_raises h) as [e He];
      [left; now exists msg |].
    rewrite He in Hrun. discriminate.
Qed.

(** The two states in which the function raises, with the exception
    that leaves it: [open] or [json.load] failing with something other
    than the two caught exceptions, and [status_data.get] on a value
    that is no dict. *)
Lemma get_dash_api_port_unreadable (h : trace) (msg : string) :
  read_status W h = ReadFailed msg ->
  get_dash_api_port W h = (Exc (OtherError msg), [EvReadStatus]).
Proof.
  intros Hst. unfold get_dash_api_port, try_except, read_port.
  rewrite bind_bind, bind_perform, Hst, bind_raise. reflexivity.
Qed.

Lemma get_dash_api_port_not_object (h : trace) (v : pyobj) :
  read_status W h = Parsed v -> (forall kvs, v <> PDict kvs) ->
  get_dash_api_port W h
  = (Exc (OtherError "AttributeError"), [EvReadStatus]).
Proof.
  intros Hst Hv. unfold get_dash_api_port, try_except, read_port.
  rewrite bind_bind, bind_perform, Hst.
  destruct v; try (exfalso; eapply Hv; reflexivity);
    cbn [dot_get]; rewrite bind_bind, bind_lift_exc; reflexivity.
Qed.

(** And it raises in no other state. *)
Lemma get_dash_api_port_exc_only (h : trace) (e : exn) :
  fst (get_dash_api_port W h) = Exc e ->
  (exists msg, read_status W h = ReadFailed msg)
  \/ (exists v, read_status W h = Parsed v /\ forall kvs, v <> PDict kvs).
Proof.
  intros Hrun.
  destruct (read_status W h) as [| msg | v | msg] eqn:Hst.
  - rewrite get_dash_api_port_absent in Hrun by (now left). discriminate.
  - rewrite get_dash_api_port_absent in Hrun
      by (right; left; now exists msg).
    discriminate.
  - destruct v as [| b | z | s | l | l | kvs | dump];
      try (right; eexists; split; [reflexivity | discriminate]).
    exfalso.
    destruct (dict_get "port" kvs) as [p |] eqn:Hget.
    + assert (Hp : p = PNone \/ p <> PNone)
        by (destruct p; (now left) || (right; discriminate)).
      destruct Hp as [-> | Hp].
      * rewrite get_dash_api_port_absent in Hrun
          by (right; right; exists kvs; split; [assumption | now right]).
        discriminate.
      * rewrite (get_dash_api_port_present W h kvs p Hst Hget Hp) in Hrun.
        discriminate.
    + rewrite get_dash_api_port_absent in Hrun
        by (right; right; exists kvs; split; [assumption | now left]).
      discriminate.
  - left. now exists msg.
Qed.
End DiscoveryCases.

(** C4, as stated, fails: the status file holds the JSON array [[1]],
    a record that lacks a port field, and discovery does not answer
    absent: [status_data.get] raises [AttributeError], which the
    handler of the function does not catch. *)
Lemma status_array_escapes_discovery :
  read_status world_status_array [] = Parsed (PList [PInt 1])
  /\ dot_get (PList [PInt 1]) "port" = Exc (OtherError "AttributeError")
  /\ get_dash_api_port world_status_array []
     = (Exc (OtherError "AttributeError"), [EvReadStatus])
  /\ fst (get_dash_api_port world_status_array []) <> Val None.
Proof. repeat split; try reflexivity. discriminate. Qed.

(** C4, amended.  Discovery returns absent when the status file is
    missing, is not JSON, or is an object without a port (no key, or
    [null]); when the object names a port, discovery probes that port
    once and returns it exactly when the probe succeeded, absent when it
    failed; and a port is never returned without its own successful
    probe.  In the two remaining states discovery does not return: a
    file that cannot be read raises the failure of the read, a parsed
    value that is no object raises [AttributeError]; and it raises in no
    other state. *)
Theorem get_dash_api_port_probed :
  forall (W : World) (h : trace),
    (read_status W h = NoFile
     \/ (exists msg, read_status W h = NotJson msg)
     \/ (exists kvs, read_status W h = Parsed (PDict kvs)
                     /\ (dict_get "port" kvs = None
                         \/ dict_get "port" kvs = Some PNone)) ->
     get_dash_api_port W h = (Val None, [EvReadStatus]))
    /\ (forall kvs port,
           read_status W h = Parsed (PDict kvs) ->
           dict_get "port" kvs = Some port -> port <> PNone ->
           get_dash_api_port W h
           = (Val (if probe_ok (http_get W (h ++ [EvReadStatus])%list
                                         (Health port) [])
                   then Some port else None),
              [EvReadStatus; EvGet (Health port) []; EvLog Debug]))
    /\ (forall port d,
           get_dash_api_port W h = (Val (Some port), d) ->
           (exists kvs, read_status W h = Parsed (PDict kvs)
                        /\ dict_get "port" kvs = Some port)
           /\ port <> PNone
           /\ probe_ok (http_get W (h ++ [EvReadStatus])%list (Health port) [])
              = true)
    /\ (forall msg,
           read_status W h = ReadFailed msg ->
           get_dash_api_port W h = (Exc (OtherError msg), [EvReadStatus]))
    /\ (forall v,
           read_status W h = Parsed v -> (forall kvs, v <> PDict kvs) ->
           get_dash_api_port W h
           = (Exc (OtherError "AttributeError"), [EvReadStatus]))
    /\ (forall e,
           fst (get_dash_api_port W h) = Exc e ->
           (exists msg, read_status W h = ReadFailed msg)
           \/ (exists v, read_status W h = Parsed v
                         /\ forall kvs, v <> PDict kvs)).
Proof.
  intros W h. split; [| split; [| split; [| split; [| split]]]].
  - apply get_dash_api_port_absent.
  - apply get_dash_api_port_present.
  - apply get_dash_api_port_some.
  - apply get_dash_api_port_unreadable.
  - apply get_dash_api_port_not_object.
  - apply get_dash_api_port_exc_only.
Qed.

(** Stale-port rejection, through the theorem: port 5000 is on disk, its
    probe fails, discovery answers absent. *)
Lemma get_dash_api_port_probed_witness :
  get_dash_api_port world_stale_port []
  = (Val None, [EvReadStatus; EvGet (Health (PInt 5000)) []; EvLog Debug]).
Proof.
  destruct (get_dash_api_port_probed world_stale_port []) as (_ & Hport & _).
  apply (Hport [(PStr "port", PInt 5000)] (PInt 5000));
    [reflexivity | reflexivity | discriminate].
Defined.

(** ** Upstream errors of the search *)

Lemma append_assoc (a b c : string) : (a ++ b) ++ c = a ++ b ++ c.
Proof. induction a as [| ch a IH]; cbn; [reflexivity | now rewrite IH]. Qed.

Lemma bind_val {A B} (m : M A) (k : A -> M B) (h d : trace) (a : A) :
  m h = (Val a, d) ->
  bind m k h = (fst (k a (h ++ d)%list), (d ++ snd (k a (h ++ d)%list))%list).
Proof. intros Hm. unfold bind. rewrite Hm. now destruct (k a _). Qed.

Lemma bind_exc {A B} (m : M A) (k : A -> M B) (h d : trace) (e : exn) :
  m h = (Exc e, d) -> bind m k h = (Exc e, d).
Proof. intros Hm. unfold bind. now rewrite Hm. Qed.

Lemma client_get_run (W : World) (u : url) (params : list (string * pyobj))
      (h : trace) :
  client_get W u params h
  = (match http_get W h u params with
     | Reply r => Val r
     | Failed msg => Exc (OtherError msg)
     end, [EvGet u params]).
Proof.
  unfold client_get. rewrite bind_perform.
  now destruct (http_get W h u params).
Qed.

Lemma log_run (l : level) (h : trace) : log l h = (Val tt, [EvLog l]).
Proof. reflexivity. Qed.

Section SearchErrors.
Variable W : World.

(** With valid arguments, a working base address and an error status
    from the search endpoint, the result is the one of the
    [HTTPStatusError] handler. *)
Lemma search_documentation_status_error (query ids : string)
      (snippets : bool) (max_results : Z) (h d : trace) (port : pyobj)
      (r : response) :
  is_blank_arg query = false -> is_blank_arg ids = false ->
  1 <= max_results <= 1000 ->
  working_api_base_url W h = (Val (Some port), d) ->
  http_get W ((h ++ d) ++ [EvLog Debug])%list (Search port)
           (search_params query ids snippets max_results) = Reply r ->
  is_success r = false ->
  fst (search_documentation W query ids snippets max_results h)
  = fst (search_status_error r (status_error r)
           ((h ++ d) ++ [EvLog Debug; EvGet (Search port)
                (search_params query ids snippets max_results)])%list).
Proof.
  intros Hq Hi Hm Hw Hget Hfail. unfold search_documentation.
  rewrite Hq, Hi.
  replace ((max_results <? 1) || (max_results >? 1000)) with false
    by (symmetry; apply orb_false_iff; split; lia).
  unfold try_except.
  rewrite (bind_val _ _ h d (Some port) Hw).
  fold (search_params query ids snippets max_results).
  rewrite (bind_val _ _ _ _ tt (log_run Debug _)).
  assert (Hreq :
    client_get W (Search port) (search_params query ids snippets max_results)
               ((h ++ d) ++ [EvLog Debug])%list
    = (Val r, [EvGet (Search port)
                 (search_params query ids snippets max_results)]))
    by (rewrite client_get_run, Hget; reflexivity).
  rewrite (bind_val _ _ _ _ r Hreq).
  assert (Hraise :
    forall hh, raise_for_status r hh = (Exc (status_error r), []))
    by (intros hh; unfold raise_for_status; now rewrite Hfail).
  rewrite (bind_exc _ _ _ [] (status_error r) (Hraise _)).
  cbn [fst snd]. rewrite <- !app_assoc. cbn [app].
  unfold status_error. now destruct (search_status_error _ _ _).
Qed.

(** What the handler answers. *)
Lemma search_status_error_fst (r : response) (e : exn) (h : trace) :
  exists msg,
    fst (search_status_error r e h) = Val (mkSearchResults [] (Some msg))
    /\ (status_code r = 400 ->
        contains "Docset with identifier" (text r) = true ->
        contains "not found" (text r) = true ->
        msg = msg_invalid_docset)
    /\ ((status_code r = 400 ->
         contains "Docset with identifier" (text r)
         && contains "not found" (text r) = false
         /\ contains "No docsets found" (text r) = false) ->
        (status_code r = 403 ->
         contains "API access blocked due to Dash trial expiration" (text r)
         = false) ->
        exists detail, msg = detail ++ msg_ensure).
Proof.
  unfold search_status_error.
  destruct (status_code r =? 400) eqn:H400.
  - apply Z.eqb_eq in H400.
    destruct (contains "Docset with identifier" (text r)
              && contains "not found" (text r)) eqn:Hboth.
    + eexists. split; [reflexivity |]. split; [reflexivity |].
      intros Hgen _. destruct (Hgen H400) as [Hf _]. discriminate.
    + destruct (contains "No docsets found" (text r)) eqn:Hnone.
      * eexists. split; [reflexivity |]. split.
        -- intros _ Ha Hb. rewrite Ha, Hb in Hboth. discriminate.
        -- intros Hgen _. destruct (Hgen H400) as [_ Hf]. discriminate.
      * eexists. split; [reflexivity |]. split.
        -- intros _ Ha Hb. rewrite Ha, Hb in Hboth. discriminate.
        -- intros _ _. exists ("Bad request: " ++ text r).
           now rewrite append_assoc.
  - apply Z.eqb_neq in H400.
    destruct (status_code r =? 403) eqn:H403.
    + apply Z.eqb_eq in H403.
      destruct (contains "API access blocked due to Dash trial expiration"
                         (text r)) eqn:Htrial.
      * eexists. split; [reflexivity |]. split; [intros; contradiction |].
        intros _ Hgen. specialize (Hgen H403). discriminate.
      * eexists. split; [reflexivity |]. split; [intros; contradiction |].
        intros _ _. exists ("Forbidden: " ++ text r).
        now rewrite append_assoc.
    + eexists. split; [reflexivity |]. split; [intros; contradiction |].
      intros _ _. exists ("HTTP error: " ++ exn_str e).
      now rewrite append_assoc.
Qed.
End SearchErrors.

(** C7, as stated, fails: a 400 whose body contains "not found" but not
    "Docset with identifier" is answered with the generic bad-request
    message, not with the unknown-identifier message. *)
Lemma search_not_found_alone_is_generic :
  contains "not found" "not found" = true
  /\ fst (search_documentation (world_serving (bad_request "not found"))
            "foo" "bogus_id" true 100 [])
     = Val (mkSearchResults []
              (Some ("Bad request: not found" ++ msg_ensure)))
  /\ "Bad request: not found" ++ msg_ensure <> msg_invalid_docset.
Proof. split; [| split]; [reflexivity | reflexivity | discriminate]. Qed.

(** C7, amended.  With valid arguments and a working base address, an
    error status from the search endpoint always yields a result with an
    error message and no hits, and
    - a 400 whose body contains both "Docset with identifier" and
      "not found" yields the unknown-identifier message;
    - a body matching none of the phrases known for its status (400:
      that pair, or "No docsets found"; 403: the trial-expiration phrase;
      any other status has none) yields a message that ends with the
      request to ensure Dash is running and its API server enabled. *)
Theorem search_documentation_error_mapping :
  forall (W : World) (query ids : string) (snippets : bool)
         (max_results : Z) (h d : trace) (port : pyobj) (r : response),
    is_blank_arg query = false -> is_blank_arg ids = false ->
    1 <= max_results <= 1000 ->
    working_api_base_url W h = (Val (Some port), d) ->
    http_get W ((h ++ d) ++ [EvLog Debug])%list (Search port)
             (search_params query ids snippets max_results) = Reply r ->
    is_success r = false ->
    exists msg,
      fst (search_documentation W query ids snippets max_results h)
      = Val (mkSearchResults [] (Some msg))
      /\ (status_code r = 400 ->
          contains "Docset with identifier" (text r) = true ->
          contains "not found" (text r) = true ->
          msg = msg_invalid_docset)
      /\ ((status_code r = 400 ->
           contains "Docset with identifier" (text r)
           && contains "not found" (text r) = false
           /\ contains "No docsets found" (text r) = false) ->
          (status_code r = 403 ->
           contains "API access blocked due to Dash trial expiration" (text r)
           = false) ->
          exists detail, msg = detail ++ msg_ensure).
Proof.
  intros W query ids snippets max_results h d port r Hq Hi Hm Hw Hget Hfail.
  rewrite (search_documentation_status_error W query ids snippets max_results
             h d port r Hq Hi Hm Hw Hget Hfail).
  apply search_status_error_fst.
Qed.

(** Scenario D of the specification, through the theorem. *)
Lemma search_documentation_error_mapping_witness :
  exists msg,
    fst (search_documentation
           (world_serving
              (bad_request "Docset with identifier bogus_id not found"))
           "foo" "bogus_id" true 100 [])
    = Val (mkSearchResults [] (Some msg))
    /\ msg = msg_invalid_docset.
Proof.
  destruct (search_documentation_error_mapping
              (world_serving
                 (bad_request "Docset with identifier bogus_id not found"))
              "foo" "bogus_id" true 100 []
              [EvPgrep; EvReadStatus; EvGet (Health (PInt 5000)) [];
               EvLog Debug]
              (PInt 5000)
              (mkResponse 400 "Bad Request"
                 "Docset with identifier bogus_id not found" None)
              eq_refl eq_refl ltac:(lia) eq_refl eq_refl eq_refl)
    as (msg & Hrun & Hknown & _).
  exists msg. split; [exact Hrun |].
  apply Hknown; reflexivity.
Defined.

(** ** What the boolean of [enable_docset_fts] certifies *)

Lemma bind_fst {A B} (m : M A) (k : A -> M B) (h : trace) :
  fst (bind m k h)
  = match fst (m h) with
    | Val a => fst (k a (h ++ snd (m h))%list)
    | Exc e => Exc e
    end.
Proof.
  unfold bind. destruct (m h) as [[a | e] d]; cbn [fst snd]; [| reflexivity].
  now destruct (k a _).
Qed.

Lemma try_except_fst {A} (m : M A) (handler : exn -> M A) (h : trace) :
  fst (try_except m handler h)
  = match fst (m h) with
    | Val a => Val a
    | Exc e => fst (handler e (h ++ snd (m h))%list)
    end.
Proof.
  unfold try_except. destruct (m h) as [[a | e] d]; cbn [fst snd];
    [reflexivity |].
  now destruct (handler e _).
Qed.

Lemma client_get_fst (W : World) (u : url) (params : list (string * pyobj))
      (h : trace) :
  fst (client_get W u params h)
  = match http_get W h u params with
    | Reply r => Val r
    | Failed msg => Exc (OtherError msg)
    end.
Proof. now rewrite client_get_run. Qed.

Lemma client_get_snd (W : World) (u : url) (params : list (string * pyobj))
      (h : trace) :
  snd (client_get W u params h) = [EvGet u params].
Proof. now rewrite client_get_run. Qed.

Section EnableFts.
Variable W : World.

(** Every handler of [enable_docset_fts] answers [False]. *)
Lemma enable_handler_false (e : exn) (h : trace) :
  fst (match e with
       | HTTPStatusError r _ =>
           if status_code r =? 400 then log Error ;; ret false
           else if status_code r =? 404 then log Error ;; ret false
           else log Error ;; ret false
       | _ => log Error ;; ret false
       end h) = Val false.
Proof.
  destruct e as [r msg | | | msg | key | msg]; try reflexivity.
  destruct (status_code r =? 400); [reflexivity |].
  destruct (status_code r =? 404); reflexivity.
Qed.

Ltac handled :=
  first [ apply enable_handler_false
        | reflexivity
        | repeat match goal with
                 | |- context [if ?c then _ else _] => destruct c
                 end; reflexivity ].

Lemma enable_docset_fts_cases (identifier : string) (h : trace) :
  fst (enable_docset_fts W identifier h)
  = Val (negb (is_blank_arg identifier)
         && match fst (working_api_base_url W h) with
            | Val (Some port) =>
                match fts_answer W identifier h port with
                | Reply r =>
                    is_success r
                    && match json_body r with
                       | Some _ => true
                       | None => false
                       end
                | Failed _ => false
                end
            | _ => false
            end).
Proof.
  unfold enable_docset_fts, fts_answer.
  destruct (is_blank_arg identifier); [reflexivity |]. cbn [negb andb].
  rewrite try_except_fst, bind_fst.
  destruct (fst (working_api_base_url W h)) as [[port |] | e] eqn:Hw;
    [| reflexivity | handled].
  rewrite bind_fst. cbn [log perform fst snd].
  rewrite bind_fst, client_get_fst, client_get_snd.
  destruct (http_get W _ (EnableFts port) _) as [r | msg];
    [| handled].
  rewrite bind_fst. unfold raise_for_status at 1.
  destruct (is_success r); cbn [fst ret raise andb];
    [| handled].
  rewrite bind_fst. unfold response_json at 1.
  destruct (json_body r); cbn [fst ret raise];
    [reflexivity | handled].
Qed.
End EnableFts.

(** C9, as stated, fails: the identifier is not blank, the ladder yields a
    base address, the endpoint answers 200, and the tool still returns
    [False], because the body is not JSON. *)
Lemma enable_docset_fts_needs_json :
  is_blank_arg "python3" = false
  /\ fst (working_api_base_url (world_serving plain_ok) [])
     = Val (Some (PInt 5000))
  /\ fts_answer (world_serving plain_ok) "python3" [] (PInt 5000) = plain_ok
  /\ probe_ok plain_ok = true
  /\ fst (enable_docset_fts (world_serving plain_ok) "python3" [])
     = Val false.
Proof. repeat split; reflexivity. Qed.

(** C9, amended.  [enable_docset_fts] never raises, and it returns [True]
    exactly when the identifier is not blank, the ladder yields a base
    address, the enable-fts endpoint answers with a success status, and
    the body of that answer parses as JSON (the parsed value itself is
    dropped).  On every other path it returns [False]. *)
Theorem enable_docset_fts_true_iff :
  forall (W : World) (identifier : string) (h : trace),
    exists b,
      fst (enable_docset_fts W identifier h) = Val b
      /\ (b = true <->
          is_blank_arg identifier = false
          /\ exists port r v,
               fst (working_api_base_url W h) = Val (Some port)
               /\ fts_answer W identifier h port = Reply r
               /\ is_success r = true
               /\ json_body r = Some v).
Proof.
  intros W identifier h. eexists. split; [apply enable_docset_fts_cases |].
  destruct (is_blank_arg identifier); cbn [negb andb].
  - split; [discriminate | intros [Hb _]; discriminate].
  - destruct (fst (working_api_base_url W h)) as [[port |] | e].
    + destruct (fts_answer W identifier h port) as [r | msg] eqn:Hans.
      * destruct (is_success r) eqn:Hok; cbn [andb].
        -- destruct (json_body r) as [v |] eqn:Hjson.
           ++ split; [intros _ | reflexivity]. split; [reflexivity |].
              exists port, r, v. repeat split; assumption.
           ++ split; [discriminate |].
              intros (_ & port' & r' & v' & Hp & Ha & _ & Hj).
              injection Hp as <-. rewrite Hans in Ha. injection Ha as <-.
              congruence.
        -- split; [discriminate |].
           intros (_ & port' & r' & v' & Hp & Ha & Hs & _).
           injection Hp as <-. rewrite Hans in Ha. injection Ha as <-.
           congruence.
      * split; [discriminate |].
        intros (_ & port' & r' & v' & Hp & Ha & _).
        injection Hp as <-. rewrite Hans in Ha. discriminate.
    + split; [discriminate |].
      intros (_ & port' & r' & v' & Hp & _). discriminate.
    + split; [discriminate |].
      intros (_ & port' & r' & v' & Hp & _). discriminate.
Qed.

(** ** [fetch_documentation_content] always answers *)

Section FetchFacts.
Variable W : World.
Variable BeautifulSoup : string -> outcome (list node).
Variable md : list node -> outcome string.

Lemma fetch_handler_fst (load_url : string) (e : exn) (h : trace) :
  fst (match e with
       | HTTPStatusError r _ =>
           let error_msg :=
             "HTTP error "
             ++ NilZero.string_of_int (Z.to_int (status_code r))
             ++ ": " ++ reason_phrase r in
           log Error ;; ret (error_content load_url error_msg)
       | _ =>
           let error_msg := "Failed to fetch content: " ++ exn_str e in
           log Error ;; ret (error_content load_url error_msg)
       end h) = Val (fetch_handled load_url e).
Proof. destruct e; reflexivity. Qed.

Lemma fetch_documentation_content_fst (load_url : string) (h : trace) :
  fst (fetch_documentation_content W BeautifulSoup md load_url h)
  = Val (fetch_result W BeautifulSoup md load_url h).
Proof.
  unfold fetch_documentation_content, fetch_result.
  destruct (is_blank_arg load_url); [reflexivity |].
  rewrite try_except_fst, bind_fst. cbn [log perform fst snd].
  rewrite bind_fst, client_get_fst, client_get_snd.
  destruct (http_get W _ (External load_url) _) as [r | msg];
    [| first [apply fetch_handler_fst | reflexivity]].
  rewrite bind_fst. unfold raise_for_status at 1.
  destruct (is_success r); cbn [fst snd ret raise];
    [| first [apply fetch_handler_fst | reflexivity]].
  rewrite bind_fst. cbn [log perform fst snd].
  rewrite bind_fst. unfold lift at 1. cbn [fst snd].
  destruct (BeautifulSoup (text r)) as [soup | e];
    [| first [apply fetch_handler_fst | reflexivity]].
  rewrite bind_fst. unfold lift at 1. cbn [fst snd].
  destruct (md (decompose_unwanted soup)) as [markdown | e];
    [| first [apply fetch_handler_fst | reflexivity]].
  reflexivity.
Qed.

Lemma fetch_handled_shape (load_url : string) (e : exn) :
  dc_load_url (fetch_handled load_url e) = load_url
  /\ dc_title (fetch_handled load_url e) = "Error"
  /\ dc_content (fetch_handled load_url e) = EmptyString
  /\ exists m, dc_error (fetch_handled load_url e) = Some m
               /\ m <> EmptyString.
Proof.
  destruct e; cbn; repeat split; eexists; (split; [reflexivity |]);
    discriminate.
Qed.
End FetchFacts.

(** C10.  [fetch_documentation_content] never raises: it always returns
    a document, whose [load_url] is the argument unchanged.  The
    document has no error exactly when the argument is not blank, the
    request is answered with a success status, and parsing and
    conversion both return; its content is then the cleaned conversion
    of the pruned page.  On every other path (blank argument, error
    status, any exception) the title is "Error", the content is empty
    and the error message is not empty. *)
Theorem fetch_documentation_content_total :
  forall (W : World) (BeautifulSoup : string -> outcome (list node))
         (md : list node -> outcome string) (load_url : string) (h : trace),
    exists doc,
      fst (fetch_documentation_content W BeautifulSoup md load_url h) = Val doc
      /\ dc_load_url doc = load_url
      /\ (dc_error doc = None <->
          is_blank_arg load_url = false
          /\ exists r soup markdown,
               http_get W (h ++ [EvLog Debug])%list (External load_url) []
               = Reply r
               /\ is_success r = true
               /\ BeautifulSoup (text r) = Val soup
               /\ md (decompose_unwanted soup) = Val markdown
               /\ dc_title doc = title_of soup
               /\ dc_content doc = clean_whitespace markdown)
      /\ (dc_error doc <> None ->
          dc_title doc = "Error"
          /\ dc_content doc = EmptyString
          /\ exists m, dc_error doc = Some m /\ m <> EmptyString).
Proof.
  intros W BeautifulSoup md load_url h.
  exists (fetch_result W BeautifulSoup md load_url h).
  split; [apply fetch_documentation_content_fst |].
  unfold fetch_result.
  assert (Hshape := fetch_handled_shape load_url).
  assert (Herr :
    forall e,
      (is_blank_arg load_url = false /\
       (exists r soup markdown,
           http_get W (h ++ [EvLog Debug])%list (External load_url) []
           = Reply r
           /\ is_success r = true
           /\ BeautifulSoup (text r) = Val soup
           /\ md (decompose_unwanted soup) = Val markdown
           /\ dc_title (fetch_handled load_url e) = title_of soup
           /\ dc_content (fetch_handled load_url e)
              = clean_whitespace markdown) -> False) ->
      dc_load_url (fetch_handled load_url e) = load_url
      /\ (dc_error (fetch_handled load_url e) = None <->
          is_blank_arg load_url = false
          /\ exists r soup markdown,
               http_get W (h ++ [EvLog Debug])%list (External load_url) []
               = Reply r
               /\ is_success r = true
               /\ BeautifulSoup (text r) = Val soup
               /\ md (decompose_unwanted soup) = Val markdown
               /\ dc_title (fetch_handled load_url e) = title_of soup
               /\ dc_content (fetch_handled load_url e)
                  = clean_whitespace markdown)
      /\ (dc_error (fetch_handled load_url e) <> None ->
          dc_title (fetch_handled load_url e) = "Error"
          /\ dc_content (fetch_handled load_url e) = EmptyString
          /\ exists m, dc_error (fetch_handled load_url e) = Some m
                       /\ m <> EmptyString)).
  { intros e Hno. destruct (Hshape e) as (Hu & Ht & Hc & m & Hm & Hne).
    split; [assumption |]. split.
    - split; [rewrite Hm; discriminate | intros Hyes; now destruct Hno].
    - intros _. repeat split; try assumption. now exists m. }
  destruct (is_blank_arg load_url) eqn:Hblank.
  - cbn. split; [reflexivity |]. split.
    + split; [discriminate | intros (Hb & _); discriminate].
    + intros _. repeat split. eexists; split; [reflexivity | discriminate].
  - destruct (http_get W _ (External load_url) _) as [r | msg] eqn:Hget.
    + destruct (is_success r) eqn:Hok.
      * destruct (BeautifulSoup (text r)) as [soup | e] eqn:Hsoup.
        -- destruct (md (decompose_unwanted soup)) as [markdown | e] eqn:Hmd.
           ++ cbn. split; [reflexivity |]. split.
              ** split; [intros _ | reflexivity]. split; [reflexivity |].
                 exists r, soup, markdown. repeat split; assumption.
              ** intros Hn. now contradiction Hn.
           ++ apply Herr.
              intros (_ & r' & soup' & markdown' & Hr & _ & Hs & Hk & _).
              injection Hr as <-. rewrite Hsoup in Hs. injection Hs as <-.
              rewrite Hmd in Hk. discriminate.
        -- apply Herr.
           intros (_ & r' & soup' & markdown' & Hr & _ & Hs & _).
           injection Hr as <-. rewrite Hsoup in Hs. discriminate.
      * apply Herr.
        intros (_ & r' & soup' & markdown' & Hr & Hs & _).
        injection Hr as <-. congruence.
    + apply Herr.
      intros (_ & r' & soup' & markdown' & Hr & _). discriminate.
Qed.

(** ** The tools return what the loop kept *)

Section ToolsReturn.
Variable W : World.

(** On the path where the ladder yields a base address, the listing
    endpoint answers with a success status and a JSON body, and every
    item visited can be built, [list_installed_docsets] returns exactly
    the list the loop kept, without error. *)
Lemma list_installed_docsets_returns (h : trace) (port : pyobj)
      (r : response) (result found : pyobj) (items : list pyobj)
      (out : list DocsetResult) (broke : bool) :
  fst (working_api_base_url W h) = Val (Some port) ->
  http_get W ((h ++ snd (working_api_base_url W h)) ++ [EvLog Debug])%list
           (DocsetsList port) [] = Reply r ->
  is_success r = true -> json_body r = Some result ->
  dot_get_list result "docsets" = Val found -> py_iter found = Val items ->
  budget_loop build_docset (fun d => estimate_tokens (DocsetResult_py d))
              items base_overhead [] = Val (out, broke) ->
  fst (list_installed_docsets W h) = Val (mkDocsetResults out None).
Proof.
  intros Hw Hget Hok Hjson Hfound Hiter Hloop.
  unfold list_installed_docsets.
  rewrite try_except_fst, bind_fst, Hw, bind_fst. cbn [log perform fst snd].
  rewrite bind_fst, client_get_fst, client_get_snd, Hget.
  rewrite bind_fst. unfold raise_for_status at 1. rewrite Hok.
  cbn [fst snd ret].
  rewrite bind_fst. unfold response_json at 1. rewrite Hjson.
  cbn [fst snd ret].
  rewrite bind_fst, Hfound. cbn [fst snd lift].
  rewrite bind_fst, Hiter. cbn [fst snd lift].
  rewrite bind_fst. cbn [log perform fst snd].
  rewrite bind_fst, Hloop. cbn [fst snd lift].
  rewrite bind_fst. destruct broke; cbn [fst snd log perform ret];
    rewrite bind_fst;
    destruct (List.length out <? List.length items)%nat; reflexivity.
Qed.

(** The same for [search_documentation], whose result also carries the
    advisory message of the reply, if there is one. *)
Lemma search_documentation_returns (query ids : string) (snippets : bool)
      (max_results : Z) (h : trace) (port : pyobj) (r : response)
      (result found : pyobj) (has_message : bool) (message : pyobj)
      (error : option string) (items : list pyobj)
      (out : list SearchResult) (broke : bool) :
  is_blank_arg query = false -> is_blank_arg ids = false ->
  1 <= max_results <= 1000 ->
  fst (working_api_base_url W h) = Val (Some port) ->
  http_get W ((h ++ snd (working_api_base_url W h)) ++ [EvLog Debug])%list
           (Search port) (search_params query ids snippets max_results)
  = Reply r ->
  is_success r = true -> json_body r = Some result ->
  py_in "message" result = Val has_message ->
  (if has_message then subscript result "message" else Val PNone)
  = Val message ->
  dot_get_list result "results" = Val found -> py_iter found = Val items ->
  budget_loop build_search_result
              (fun x => estimate_tokens (SearchResult_py x))
              items base_overhead [] = Val (out, broke) ->
  as_opt_str message = Val error ->
  fst (search_documentation W query ids snippets max_results h)
  = Val (mkSearchResults out error).
Proof.
  intros Hq Hi Hm Hw Hget Hok Hjson Hin Hmsg Hfound Hiter Hloop Herr.
  unfold search_documentation. rewrite Hq, Hi.
  replace ((max_results <? 1) || (max_results >? 1000)) with false
    by (symmetry; apply orb_false_iff; split; lia).
  fold (search_params query ids snippets max_results).
  rewrite try_except_fst, bind_fst, Hw, bind_fst. cbn [log perform fst snd].
  rewrite bind_fst, client_get_fst, client_get_snd, Hget.
  rewrite bind_fst. unfold raise_for_status at 1. rewrite Hok.
  cbn [fst snd ret].
  rewrite bind_fst. unfold response_json at 1. rewrite Hjson.
  cbn [fst snd ret].
  rewrite bind_fst, Hin. cbn [fst snd lift].
  rewrite bind_fst.
  assert (Hwarn :
    forall hh,
      fst ((if has_message
            then m <- lift (subscript result "message") ;;
                 log Warning ;; ret m
            else ret PNone) hh) = Val message).
  { intros hh. destruct has_message.
    - rewrite bind_fst, Hmsg. reflexivity.
    - cbn in *. congruence. }
  rewrite Hwarn.
  rewrite bind_fst, Hfound. cbn [fst snd lift].
  rewrite bind_fst, Hiter. cbn [fst snd lift].
  rewrite bind_fst. cbn [log perform fst snd].
  rewrite bind_fst, Hloop. cbn [fst snd lift].
  rewrite bind_fst. destruct broke; cbn [fst snd log perform ret];
    rewrite bind_fst;
    destruct (List.length out <? List.length items)%nat;
    cbn [fst snd log perform ret]; rewrite bind_fst, Herr; reflexivity.
Qed.
End ToolsReturn.

(** ** The whitespace clean-up on lines of blanks *)

(** The first substitution does what its comment says: its result never
    holds three newlines in a row. *)
Lemma no_run_after_newlines (k : nat) (c : ascii) (t : string) :
  (k <= 2)%nat -> Ascii.eqb c LF = false ->
  has_blank_run (newlines k ++ String c t) = has_blank_run t.
Proof.
  intros Hk Hc. unfold has_blank_run.
  assert (Hne : LF <> c)
    by (intros <-; rewrite Ascii.eqb_refl in Hc; discriminate).
  destruct k as [| [| [| k]]]; try lia;
    cbn [newlines append contains prefix];
    try (destruct (ascii_dec LF c) as [E | _]; [contradiction |]);
    try (destruct (ascii_dec LF LF) as [_ | E]; [| contradiction]);
    reflexivity.
Qed.

Lemma collapse_from_no_run (s : string) :
  forall pending, has_blank_run (collapse_from pending s) = false.
Proof.
  induction s as [| c rest IH]; intros pending; cbn [collapse_from].
  - unfold emit_run. destruct (3 <=? pending)%nat eqn:Hp; [reflexivity |].
    apply Nat.leb_gt in Hp.
    destruct pending as [| [| [| k]]]; try lia; reflexivity.
  - destruct (Ascii.eqb c LF) eqn:Hc; [apply IH |].
    unfold emit_run. destruct (3 <=? pending)%nat eqn:Hp.
    + rewrite no_run_after_newlines by (trivial; lia). apply IH.
    + apply Nat.leb_gt in Hp.
      rewrite no_run_after_newlines by (trivial; lia). apply IH.
Qed.

Lemma collapse_newlines_no_run (s : string) :
  has_blank_run (collapse_newlines s) = false.
Proof. apply collapse_from_no_run. Qed.

(** A text without a run of three newlines is left alone by the first
    substitution. *)
Lemma append_nil_r (s : string) : s ++ EmptyString = s.
Proof. induction s as [| c s IH]; cbn; [reflexivity | now rewrite IH]. Qed.

Lemma newlines_shift (k : nat) (s : string) :
  newlines (S k) ++ s = newlines k ++ String LF s.
Proof. induction k as [| k IH]; cbn in *; [reflexivity | now rewrite IH]. Qed.

Lemma three_newlines_run (s : string) :
  has_blank_run (newlines 3 ++ s) = true.
Proof.
  unfold has_blank_run. cbn [newlines append contains prefix].
  destruct (ascii_dec LF LF) as [_ | E]; [| contradiction].
  now destruct s.
Qed.

Lemma collapse_from_identity (s : string) :
  forall pending,
    (pending <= 2)%nat ->
    has_blank_run (newlines pending ++ s) = false ->
    collapse_from pending s = newlines pending ++ s.
Proof.
  induction s as [| c rest IH]; intros pending Hp Hrun; cbn [collapse_from].
  - unfold emit_run. replace (3 <=? pending)%nat with false
      by (symmetry; apply Nat.leb_gt; lia).
    now rewrite append_nil_r.
  - destruct (Ascii.eqb c LF) eqn:Hc.
    + apply Ascii.eqb_eq in Hc. subst c.
      rewrite <- newlines_shift in Hrun |- *.
      destruct (Nat.eq_dec pending 2) as [-> | Hne].
      * rewrite three_newlines_run in Hrun. discriminate.
      * apply IH; [lia | assumption].
    + unfold emit_run. replace (3 <=? pending)%nat with false
        by (symmetry; apply Nat.leb_gt; lia).
      rewrite no_run_after_newlines in Hrun by assumption.
      f_equal. f_equal. apply (IH O); [lia | assumption].
Qed.

Lemma collapse_newlines_identity (s : string) :
  has_blank_run s = false -> collapse_newlines s = s.
Proof.
  intros Hrun. apply (collapse_from_identity s O); [lia | exact Hrun].
Qed.

(** The second substitution leaves clean line ends, and a text with clean
    line ends is left alone by it. *)
Lemma blank_to_eol_strip_line_ends (s : string) :
  blank_to_eol (strip_line_ends s) = blank_to_eol s.
Proof.
  induction s as [| c rest IH]; [reflexivity |].
  cbn [strip_line_ends blank_to_eol].
  destruct (Ascii.eqb c LF) eqn:Hlf.
  - apply Ascii.eqb_eq in Hlf. subst c. cbn. reflexivity.
  - destruct (is_blank c) eqn:Hb; cbn [andb].
    + destruct (blank_to_eol rest) eqn:Hrest.
      * now rewrite IH.
      * cbn [blank_to_eol]. now rewrite Hlf, Hb, IH.
    + cbn [blank_to_eol]. now rewrite Hlf, Hb.
Qed.

Lemma strip_line_ends_clean (s : string) :
  line_ends_clean (strip_line_ends s) = true.
Proof.
  induction s as [| c rest IH]; [reflexivity |].
  cbn [strip_line_ends].
  destruct (is_blank c && blank_to_eol rest) eqn:Hdel; [assumption |].
  cbn [line_ends_clean]. now rewrite blank_to_eol_strip_line_ends, Hdel, IH.
Qed.

Lemma strip_line_ends_identity (s : string) :
  line_ends_clean s = true -> strip_line_ends s = s.
Proof.
  induction s as [| c rest IH]; [reflexivity |].
  cbn [line_ends_clean strip_line_ends]. intros Hclean.
  apply andb_true_iff in Hclean. destruct Hclean as [Hc Hrest].
  apply negb_true_iff in Hc. rewrite Hc. now rewrite IH.
Qed.

Lemma blank_is_space (c : ascii) : is_blank c = true -> is_space c = true.
Proof.
  unfold is_blank. intros Hb. apply orb_true_iff in Hb.
  destruct Hb as [Hb | Hb]; apply Ascii.eqb_eq in Hb; subst c; reflexivity.
Qed.

(** Trimming keeps line ends clean. *)
Lemma lstrip_line_ends_clean (s : string) :
  line_ends_clean s = true -> line_ends_clean (lstrip s) = true.
Proof.
  induction s as [| c rest IH]; [reflexivity |].
  intros Hclean. cbn [lstrip]. destruct (is_space c); [| assumption].
  apply IH. cbn [line_ends_clean] in Hclean.
  now apply andb_true_iff in Hclean.
Qed.

Lemma rstrip_blank_to_eol (s : string) :
  rstrip s <> EmptyString -> blank_to_eol s = false ->
  blank_to_eol (rstrip s) = false.
Proof.
  induction s as [| c rest IH]; [intros Hne; now contradiction Hne |].
  cbn [rstrip blank_to_eol]. intros Hne Heol.
  destruct (Ascii.eqb c LF) eqn:Hlf; [discriminate |].
  destruct (rstrip rest) as [| k kept] eqn:Hkept.
  - destruct (is_space c) eqn:Hs; [now contradiction Hne |].
    cbn [blank_to_eol]. rewrite Hlf.
    destruct (is_blank c) eqn:Hb; [| reflexivity].
    apply blank_is_space in Hb. congruence.
  - cbn [blank_to_eol]. rewrite Hlf.
    destruct (is_blank c); [| reflexivity].
    apply IH; [discriminate | assumption].
Qed.

Lemma rstrip_line_ends_clean (s : string) :
  line_ends_clean s = true -> line_ends_clean (rstrip s) = true.
Proof.
  induction s as [| c rest IH]; [reflexivity |].
  cbn [line_ends_clean rstrip]. intros Hclean.
  apply andb_true_iff in Hclean. destruct Hclean as [Hc Hrest].
  apply negb_true_iff in Hc. specialize (IH Hrest).
  destruct (rstrip rest) as [| k kept] eqn:Hkept.
  - destruct (is_space c) eqn:Hs; [reflexivity |].
    cbn [line_ends_clean]. destruct (is_blank c) eqn:Hb; [| reflexivity].
    apply blank_is_space in Hb. congruence.
  - cbn [line_ends_clean] in IH |- *. rewrite IH.
    destruct (is_blank c) eqn:Hb; [| reflexivity].
    cbn [andb] in Hc |- *.
    assert (Heol : blank_to_eol (rstrip rest) = false)
      by (apply rstrip_blank_to_eol; [rewrite Hkept; discriminate | exact Hc]).
    rewrite Hkept in Heol. now rewrite Heol.
Qed.

(** Trimming twice is trimming once. *)
Lemma rstrip_idempotent (s : string) : rstrip (rstrip s) = rstrip s.
Proof.
  induction s as [| c rest IH]; [reflexivity |].
  cbn [rstrip]. destruct (rstrip rest) as [| k kept] eqn:Hkept.
  - destruct (is_space c) eqn:Hs; [reflexivity |]. cbn [rstrip]. now rewrite Hs.
  - cbn [rstrip] in IH |- *. now rewrite IH.
Qed.

Lemma lstrip_starts_clean (s : string) : starts_clean (lstrip s) = true.
Proof.
  induction s as [| c rest IH]; [reflexivity |].
  cbn [lstrip]. destruct (is_space c) eqn:Hs; [assumption |].
  cbn [starts_clean]. now rewrite Hs.
Qed.

Lemma rstrip_starts_clean (s : string) :
  starts_clean s = true -> starts_clean (rstrip s) = true.
Proof.
  destruct s as [| c rest]; [reflexivity |].
  cbn [starts_clean rstrip]. intros Hc. apply negb_true_iff in Hc.
  destruct (rstrip rest); rewrite ?Hc; cbn [starts_clean]; now rewrite Hc.
Qed.

Lemma lstrip_identity (s : string) : starts_clean s = true -> lstrip s = s.
Proof.
  destruct s as [| c rest]; [reflexivity |].
  cbn [starts_clean lstrip]. intros Hc. apply negb_true_iff in Hc.
  now rewrite Hc.
Qed.

Lemma strip_idempotent (s : string) : strip (strip s) = strip s.
Proof.
  unfold strip.
  rewrite (lstrip_identity (rstrip (lstrip s)))
    by (apply rstrip_starts_clean, lstrip_starts_clean).
  apply rstrip_idempotent.
Qed.

(** The clean-up fails to be idempotent only through the runs of newlines
    it leaves behind: a result without three newlines in a row is a fixed
    point. *)
Lemma clean_whitespace_fixed_unless_run (s : string) :
  has_blank_run (clean_whitespace s) = false ->
  clean_whitespace (clean_whitespace s) = clean_whitespace s.
Proof.
  intros Hrun. unfold clean_whitespace at 1.
  rewrite (collapse_newlines_identity _ Hrun).
  rewrite strip_line_ends_identity.
  - unfold clean_whitespace. apply strip_idempotent.
  - unfold clean_whitespace, strip.
    apply rstrip_line_ends_clean, lstrip_line_ends_clean,
      strip_line_ends_clean.
Qed.

(** C5 at a concrete text: the clean-up of [pre_markdown] still holds
    four newlines in a row, because the line of one space is emptied only
    after the newline runs were collapsed; a second pass collapses them,
    so the first result is not a fixed point. *)
Lemma clean_whitespace_second_pass_differs :
  clean_whitespace pre_markdown
  = "```" ++ nl ++ "a" ++ newlines 4 ++ "b" ++ nl ++ "```"
  /\ clean_whitespace (clean_whitespace pre_markdown)
     = "```" ++ nl ++ "a" ++ newlines 2 ++ "b" ++ nl ++ "```"
  /\ clean_whitespace (clean_whitespace pre_markdown)
     <> clean_whitespace pre_markdown.
Proof. split; [| split]; [reflexivity | reflexivity | discriminate]. Qed.

(** C8 at a concrete page: the page is fetched, parsed and converted
    without error, and the content returned holds three blank lines in a
    row inside the code sample, although the first substitution had left
    none. *)
Lemma fetch_documentation_content_keeps_blank_run :
  fst (fetch_documentation_content
         (world_serving (Reply (mkResponse 200 "OK" pre_page None)))
         (fun _ => Val pre_soup) (fun _ => Val pre_markdown)
         "http://127.0.0.1:5000/page.html" [])
  = Val (mkDocumentationContent "http://127.0.0.1:5000/page.html"
           "Documentation"
           ("```" ++ nl ++ "a" ++ newlines 4 ++ "b" ++ nl ++ "```") None)
  /\ has_blank_run ("```" ++ nl ++ "a" ++ newlines 4 ++ "b" ++ nl ++ "```")
     = true
  /\ has_blank_run (collapse_newlines pre_markdown) = false.
Proof. repeat split; reflexivity. Qed.

(** * Further properties *)

(** ** The token estimate is never negative *)

(** Induction on Python values that reaches into lists and dicts. *)
Lemma pyobj_nested_ind (P : pyobj -> Prop) :
  P PNone -> (forall b, P (PBool b)) -> (forall z, P (PInt z)) ->
  (forall s, P (PStr s)) ->
  (forall items, Forall P items -> P (PList items)) ->
  (forall items, Forall P items -> P (PTuple items)) ->
  (forall kvs, Forall (fun kv => P (fst kv) /\ P (snd kv)) kvs ->
               P (PDict kvs)) ->
  (forall dump, Forall (fun kv => P (snd kv)) dump -> P (PModel dump)) ->
  forall obj, P obj.
Proof.
  intros HNone HBool HInt HStr HList HTuple HDict HModel.
  fix IH 1. intros [| b | z | s | items | items | kvs | dump].
  - exact HNone.
  - apply HBool.
  - apply HInt.
  - apply HStr.
  - apply HList. induction items as [| x items IHl]; constructor;
      [apply IH | exact IHl].
  - apply HTuple. induction items as [| x items IHl]; constructor;
      [apply IH | exact IHl].
  - apply HDict. induction kvs as [| [k v] kvs IHl]; constructor;
      [split; apply IH | exact IHl].
  - apply HModel. induction dump as [| [k v] dump IHl]; constructor;
      [apply IH | exact IHl].
Qed.

Lemma zsum_nonneg (l : list Z) : Forall (fun z => 0 <= z) l -> 0 <= zsum l.
Proof.
  induction 1 as [| z l Hz Hl IH]; unfold zsum in *; cbn [fold_right]; lia.
Qed.

(** X1.  The estimate of any value is at least 0, and at least 1 for
    everything that is not a list, tuple, dict or model; an empty list or
    dict is estimated at 0, so "at least one unit" holds per scalar, not
    per container. *)
Theorem estimate_tokens_nonneg :
  (forall obj, 0 <= estimate_tokens obj)
  /\ (forall obj,
         match obj with
         | PList _ | PTuple _ | PDict _ | PModel _ => True
         | _ => 1 <= estimate_tokens obj
         end)
  /\ estimate_tokens (PList []) = 0
  /\ estimate_tokens (PDict []) = 0.
Proof.
  split; [| split; [| split; reflexivity]].
  - induction obj as [| b | z | s | items Hitems | items Hitems
                      | kvs Hkvs | dump Hdump] using pyobj_nested_ind;
      cbn [estimate_tokens]; try lia.
    + apply zsum_nonneg. rewrite Forall_map. exact Hitems.
    + apply zsum_nonneg. rewrite Forall_map. exact Hitems.
    + apply zsum_nonneg. rewrite Forall_map.
      eapply Forall_impl; [| exact Hkvs]. intros [k v] [Hk Hv]. cbn in *. lia.
    + apply zsum_nonneg. rewrite Forall_map.
      eapply Forall_impl; [| exact Hdump]. intros [k v] Hv. cbn in *.
      unfold str_tokens. lia.
  - intros [| b | z | s | items | items | kvs | dump]; cbn [estimate_tokens];
      trivial; lia.
Qed.

(** ** The listing tools as functions of the answers *)

Lemma lift_fst {A} (o : outcome A) (h : trace) : fst (lift o h) = o.
Proof. reflexivity. Qed.

Lemma lift_snd {A} (o : outcome A) (h : trace) : snd (lift o h) = [].
Proof. reflexivity. Qed.

Lemma bind_lift_fst {A B} (o : outcome A) (k : A -> M B) (h : trace) :
  fst (bind (lift o) k h)
  = match o with
    | Val a => fst (k a h)
    | Exc e => Exc e
    end.
Proof.
  rewrite bind_fst, lift_fst, lift_snd, app_nil_r. reflexivity.
Qed.

Lemma list_handler_fst (e : exn) (h : trace) :
  fst (match e with
       | HTTPStatusError r _ =>
           if status_code r =? 404
           then log Warning ;;
                ret (mkDocsetResults [] (Some msg_no_docsets_installed))
           else ret (mkDocsetResults [] (Some ("HTTP error: " ++ exn_str e)))
       | _ =>
           log Error ;;
           ret (mkDocsetResults []
                  (Some ("Failed to get installed docsets: " ++ exn_str e)))
       end h) = Val (list_handled e).
Proof.
  destruct e as [r msg | | | msg | key | msg]; try reflexivity.
  cbn [list_handled]. destruct (status_code r =? 404); reflexivity.
Qed.

(** After the loop, the two optional log lines and the return. *)
Lemma list_tail_fst (looped : list DocsetResult * bool) (n : nat)
      (h : trace) :
  fst (((if snd looped then log Warning else ret tt) ;;
        (if (List.length (fst looped) <? n)%nat then log Info else ret tt) ;;
        ret (mkDocsetResults (fst looped) None)) h)
  = Val (mkDocsetResults (fst looped) None).
Proof.
  rewrite bind_fst. destruct (snd looped); cbn [fst snd log perform ret];
    rewrite bind_fst; destruct (List.length (fst looped) <? n)%nat;
    reflexivity.
Qed.

Lemma list_installed_docsets_fst (W : World) (h : trace) :
  fst (list_installed_docsets W h) = Val (list_result W h).
Proof.
  unfold list_installed_docsets, list_result, list_body.
  rewrite try_except_fst, bind_fst.
  destruct (fst (working_api_base_url W h)) as [[port |] | e];
    [| reflexivity | apply list_handler_fst].
  rewrite bind_fst. cbn [log perform fst snd].
  rewrite bind_fst, client_get_fst, client_get_snd.
  unfold api_answer, reply_json.
  destruct (http_get W _ (DocsetsList port) _) as [r | msg];
    [| first [apply list_handler_fst | reflexivity]].
  rewrite bind_fst. unfold raise_for_status at 1.
  destruct (is_success r); cbn [fst snd ret raise obind];
    [| unfold status_error; cbn [list_handled];
       destruct (status_code r =? 404); reflexivity].
  rewrite bind_fst. unfold response_json at 1, json_of.
  destruct (json_body r) as [result |]; cbn [fst snd ret raise obind];
    [| reflexivity].
  unfold looped_docsets.
  rewrite bind_lift_fst.
  destruct (dot_get_list result "docsets") as [found | e];
    cbn [obind]; [| first [apply list_handler_fst | reflexivity]].
  rewrite bind_lift_fst.
  destruct (py_iter found) as [items | e];
    cbn [obind]; [| first [apply list_handler_fst | reflexivity]].
  rewrite bind_fst. cbn [log perform fst snd].
  rewrite bind_lift_fst.
  destruct (budget_loop build_docset _ items base_overhead [])
    as [looped | e]; cbn [obind];
    [| first [apply list_handler_fst | reflexivity]].
  now rewrite list_tail_fst.
Qed.

Lemma search_status_error_message (r : response) (e : exn) (h : trace) :
  fst (search_status_error r e h)
  = Val (mkSearchResults [] (Some (search_status_message r e))).
Proof.
  unfold search_status_error, search_status_message.
  destruct (status_code r =? 400).
  - destruct (contains "Docset with identifier" (text r)
              && contains "not found" (text r)); [reflexivity |].
    destruct (contains "No docsets found" (text r)); reflexivity.
  - destruct (status_code r =? 403); [| reflexivity].
    destruct (contains "API access blocked due to Dash trial expiration"
                       (text r)); reflexivity.
Qed.

Lemma search_handler_fst (e : exn) (h : trace) :
  fst (match e with
       | HTTPStatusError r _ => search_status_error r e
       | _ =>
           log Error ;;
           ret (mkSearchResults []
                  (Some ("Search failed: " ++ exn_str e ++ msg_ensure)))
       end h) = Val (search_handled e).
Proof.
  destruct e as [r msg | | | msg | key | msg]; try reflexivity.
  apply search_status_error_message.
Qed.

Lemma search_tail_fst (looped : list SearchResult * bool) (n : nat)
      (warning_message : pyobj) (h : trace) :
  fst (((if snd looped then log Warning else ret tt) ;;
        (if (List.length (fst looped) <? n)%nat then log Info else ret tt) ;;
        error <- lift (as_opt_str warning_message) ;;
        ret (mkSearchResults (fst looped) error)) h)
  = obind (as_opt_str warning_message)
          (fun error => Val (mkSearchResults (fst looped) error)).
Proof.
  rewrite bind_fst. destruct (snd looped); cbn [fst snd log perform ret];
    rewrite bind_fst; destruct (List.length (fst looped) <? n)%nat;
    cbn [fst snd log perform ret]; rewrite bind_lift_fst;
    destruct (as_opt_str warning_message); reflexivity.
Qed.

Lemma advisory_fst (result : pyobj) {B} (k : pyobj -> M B) (h : trace) :
  fst ((has_message <- lift (py_in "message" result) ;;
        warning_message <-
          (if has_message : bool
           then m <- lift (subscript result "message") ;;
                log Warning ;; ret m
           else ret PNone) ;;
        k warning_message) h)
  = match advisory result with
    | Val warning_message =>
        fst (k warning_message
               (h ++ match py_in "message" result with
                     | Val true => [EvLog Warning]
                     | _ => []
                     end)%list)
    | Exc e => Exc e
    end.
Proof.
  unfold advisory. rewrite bind_lift_fst.
  destruct (py_in "message" result) as [[|] | e]; cbn [obind];
    [| | reflexivity].
  - rewrite bind_fst, bind_lift_fst.
    destruct (subscript result "message") as [m | e]; [| reflexivity].
    cbn [fst]. f_equal. f_equal.
    unfold bind, lift, log, perform, ret. cbn. reflexivity.
  - rewrite bind_ret. now rewrite app_nil_r.
Qed.

Lemma search_documentation_fst (W : World) (query ids : string)
      (snippets : bool) (max_results : Z) (h : trace) :
  fst (search_documentation W query ids snippets max_results h)
  = Val (search_result W query ids snippets max_results h).
Proof.
  unfold search_documentation, search_result, search_body.
  destruct (is_blank_arg query); [reflexivity |].
  destruct (is_blank_arg ids); [reflexivity |].
  destruct ((max_results <? 1) || (max_results >? 1000)); [reflexivity |].
  fold (search_params query ids snippets max_results).
  rewrite try_except_fst, bind_fst.
  destruct (fst (working_api_base_url W h)) as [[port |] | e];
    [| reflexivity | apply search_handler_fst].
  rewrite bind_fst. cbn [log perform fst snd].
  rewrite bind_fst, client_get_fst, client_get_snd.
  unfold api_answer, reply_json.
  destruct (http_get W _ (Search port) _) as [r | msg];
    [| first [apply search_handler_fst | reflexivity]].
  rewrite bind_fst. unfold raise_for_status at 1.
  destruct (is_success r); cbn [fst snd ret raise obind];
    [| unfold status_error; cbn [search_handled];
       apply search_status_error_message].
  rewrite bind_fst. unfold response_json at 1, json_of.
  destruct (json_body r) as [result |]; cbn [fst snd ret raise obind];
    [| reflexivity].
  rewrite advisory_fst.
  destruct (advisory result) as [warning_message | e]; cbn [obind];
    [| first [apply search_handler_fst | reflexivity]].
  unfold looped_results.
  rewrite bind_lift_fst.
  destruct (dot_get_list result "results") as [found | e];
    cbn [obind]; [| first [apply search_handler_fst | reflexivity]].
  rewrite bind_lift_fst.
  destruct (py_iter found) as [items | e];
    cbn [obind]; [| first [apply search_handler_fst | reflexivity]].
  rewrite bind_fst. cbn [log perform fst snd].
  rewrite bind_lift_fst.
  destruct (budget_loop build_search_result _ items base_overhead [])
    as [looped | e]; cbn [obind];
    [| first [apply search_handler_fst | reflexivity]].
  rewrite search_tail_fst.
  destruct (as_opt_str warning_message) as [error | e]; cbn [obind];
    [reflexivity | first [apply search_handler_fst | reflexivity]].
Qed.

(** ** More on the budgeting loop *)

Section BudgetMore.
Context {Raw Item : Type}.
Variable build : Raw -> outcome Item.
Variable weigh : Item -> Z.

Lemma budget_loop_keeps_fitting (items : list Raw) :
  forall (infos : list Item) (current : Z) (limited : list Item),
    built build items infos ->
    (forall k, (k < List.length infos)%nat ->
               current + weight_of weigh (firstn (S k) infos) <= token_limit) ->
    budget_loop build weigh items current limited
    = Val ((limited ++ infos)%list, false).
Proof.
  induction items as [| raw rest IH]; intros infos current limited Hb Hfit.
  - inversion Hb; subst. cbn. now rewrite app_nil_r.
  - inversion Hb as [| raw' info rest' infos' Hraw Hrest]; subst.
    cbn [budget_loop]. rewrite Hraw.
    assert (H0 := Hfit O ltac:(cbn; lia)).
    unfold weight_of, zsum in H0. cbn in H0.
    replace (current + weigh info >? token_limit) with false
      by (symmetry; rewrite Z.gtb_ltb; apply Z.ltb_ge; lia).
    rewrite (IH infos' (current + weigh info) (limited ++ [info])%list Hrest).
    + now rewrite <- app_assoc.
    + intros k Hk. specialize (Hfit (S k) ltac:(cbn; lia)).
      change (firstn (S (S k)) (info :: infos'))
        with (info :: firstn (S k) infos') in Hfit.
      unfold weight_of, zsum in *. cbn [map fold_right] in *. lia.
Qed.

Lemma weight_of_firstn_le (infos : list Item) (n : nat) :
  Forall (fun info => 0 <= weigh info) infos ->
  weight_of weigh (firstn n infos) <= weight_of weigh infos.
Proof.
  intros Hpos. revert n.
  induction Hpos as [| info infos Hinfo Hrest IH]; intros [| n];
    unfold weight_of, zsum in *; cbn [firstn map fold_right] in *;
    try lia.
  - assert (Hz := zsum_nonneg (map weigh infos)).
    unfold zsum in Hz. rewrite Forall_map in Hz. specialize (Hz Hrest). lia.
  - specialize (IH n). lia.
Qed.

Lemma budget_loop_ignores_rest (items more : list Raw) :
  forall (current : Z) (limited out : list Item),
    budget_loop build weigh items current limited = Val (out, true) ->
    budget_loop build weigh (items ++ more) current limited = Val (out, true).
Proof.
  induction items as [| raw rest IH]; intros current limited out Hrun.
  - discriminate.
  - cbn [budget_loop app] in *.
    destruct (build raw) as [info | e]; [| discriminate].
    destruct (current + weigh info >? token_limit); [assumption |].
    now apply IH.
Qed.

Lemma weight_of_lower (lo : Z) (infos : list Item) :
  (forall info, lo <= weigh info) ->
  lo * Z.of_nat (List.length infos) <= weight_of weigh infos.
Proof.
  intros Hlo. induction infos as [| info infos IH];
    unfold weight_of, zsum in *; cbn [map fold_right List.length] in *;
    [lia |].
  specialize (Hlo info). nia.
Qed.
End BudgetMore.

(** X2.  When every item can be built, no weight is negative and the
    base overhead plus the total weight is within the limit, the loop
    keeps every item and does not break: nothing is dropped from a
    result that fits. *)
Theorem budget_loop_keeps_all :
  forall (Raw Item : Type) (build : Raw -> outcome Item) (weigh : Item -> Z)
         (items : list Raw) (infos : list Item),
    built build items infos ->
    Forall (fun info => 0 <= weigh info) infos ->
    base_overhead + weight_of weigh infos <= token_limit ->
    budget_loop build weigh items base_overhead [] = Val (infos, false).
Proof.
  intros Raw Item build weigh items infos Hb Hpos Hfit.
  rewrite (budget_loop_keeps_fitting build weigh items infos base_overhead []
             Hb); [reflexivity |].
  intros k _. assert (Hle := weight_of_firstn_le weigh infos (S k) Hpos). lia.
Qed.

Lemma budget_loop_keeps_all_witness :
  budget_loop (fun z : Z => Val z) (fun z => z) [10000; 14000; 900]
              base_overhead [] = Val ([10000; 14000; 900], false).
Proof.
  apply budget_loop_keeps_all.
  - repeat constructor.
  - repeat constructor; lia.
  - unfold base_overhead, token_limit, weight_of, zsum. cbn. lia.
Defined.

(** X3.  Running the loop again on what it returned, the items now being
    built already, returns the same list and does not break: the cut is
    stable. *)
Theorem budget_loop_stable :
  forall (Raw Item : Type) (build : Raw -> outcome Item) (weigh : Item -> Z)
         (items : list Raw) (out : list Item) (broke : bool),
    budget_loop build weigh items base_overhead [] = Val (out, broke) ->
    budget_loop (fun info => Val info) weigh out base_overhead []
    = Val (out, false).
Proof.
  intros Raw Item build weigh items out broke Hrun.
  apply budget_loop_inv in Hrun.
  destruct Hrun as (taken & -> & _ & _ & Hfit & _).
  cbn [app].
  rewrite (budget_loop_keeps_fitting (fun info => Val info) weigh taken taken
             base_overhead []); [reflexivity | | exact Hfit].
  clear. induction taken; constructor; [reflexivity | assumption].
Qed.

Lemma budget_loop_stable_witness :
  budget_loop (fun z : Z => Val z) (fun z => z) [10000; 14000]
              base_overhead [] = Val ([10000; 14000], false).
Proof.
  apply (budget_loop_stable Z Z (fun z => Val z) (fun z => z)
           [10000; 14000; 2000; 5] [10000; 14000] true).
  reflexivity.
Defined.

(** X4.  Once the loop has broken, nothing behind the item that did not
    fit is looked at: whatever follows in the input, malformed records
    included, the result is the same. *)
Theorem budget_loop_stops_reading :
  forall (Raw Item : Type) (build : Raw -> outcome Item) (weigh : Item -> Z)
         (items more : list Raw) (out : list Item),
    budget_loop build weigh items base_overhead [] = Val (out, true) ->
    budget_loop build weigh (items ++ more) base_overhead [] = Val (out, true).
Proof.
  intros Raw Item build weigh items more out.
  apply budget_loop_ignores_rest.
Qed.

Lemma budget_loop_stops_reading_witness :
  budget_loop (fun z : Z => if z <? 0 then Exc (KeyError "name") else Val z)
              (fun z => z) ([30000] ++ [-1]) base_overhead []
  = Val ([], true).
Proof. apply budget_loop_stops_reading. reflexivity. Defined.

(** ** What the listing tools return *)

Lemma budget_loop_within {Raw Item : Type} (build : Raw -> outcome Item)
      (weigh : Item -> Z) (items : list Raw) (out : list Item) (broke : bool) :
  budget_loop build weigh items base_overhead [] = Val (out, broke) ->
  base_overhead + weight_of weigh out <= token_limit.
Proof.
  intros Hrun. apply budget_loop_inv in Hrun.
  destruct Hrun as (taken & -> & _ & _ & Hfit & _). cbn [app].
  destruct taken as [| info taken'] eqn:Htaken.
  - unfold weight_of, zsum, base_overhead, token_limit; cbn. lia.
  - rewrite <- Htaken in *.
    assert (Hlast := Hfit (pred (List.length taken))).
    replace (S (pred (List.length taken))) with (List.length taken) in Hlast
      by (subst taken; cbn; lia).
    rewrite firstn_all in Hlast. apply Hlast. subst taken; cbn; lia.
Qed.

Lemma opt_tokens_pos (o : option string) : 1 <= opt_tokens o.
Proof. destruct o; cbn; [unfold str_tokens |]; lia. Qed.

Lemma docset_weight_min (d : DocsetResult) :
  15 <= estimate_tokens (DocsetResult_py d).
Proof.
  rewrite estimate_tokens_DocsetResult.
  assert (H := opt_tokens_pos (dr_notice d)). unfold str_tokens. lia.
Qed.

Lemma search_weight_min (r : SearchResult) :
  20 <= estimate_tokens (SearchResult_py r).
Proof.
  rewrite estimate_tokens_SearchResult.
  assert (H1 := opt_tokens_pos (sr_platform r)).
  assert (H2 := opt_tokens_pos (sr_docset r)).
  assert (H3 := opt_tokens_pos (sr_description r)).
  assert (H4 := opt_tokens_pos (sr_language r)).
  assert (H5 := opt_tokens_pos (sr_tags r)).
  unfold str_tokens. lia.
Qed.

Lemma list_handled_empty (e : exn) :
  docsets (list_handled e) = []
  /\ exists msg, docsets_error (list_handled e) = Some msg.
Proof.
  destruct e as [r msg | | | msg | key | msg]; cbn;
    try (split; [reflexivity | eexists; reflexivity]).
  destruct (status_code r =? 404); cbn;
    (split; [reflexivity | eexists; reflexivity]).
Qed.

Lemma search_handled_empty (e : exn) :
  results (search_handled e) = []
  /\ exists msg, results_error (search_handled e) = Some msg.
Proof.
  destruct e; cbn; (split; [reflexivity | eexists; reflexivity]).
Qed.

(** X5.  [list_installed_docsets] never raises.  Its result never holds
    both docsets and an error; the docsets it returns weigh, with the
    base overhead, at most 25000 units, and as each weighs at least 15
    there are at most 1660 of them. *)
Theorem list_installed_docsets_bounded :
  forall (W : World) (h : trace),
    exists r,
      fst (list_installed_docsets W h) = Val r
      /\ (docsets r = [] \/ docsets_error r = None)
      /\ base_overhead + weight_of docset_weight (docsets r) <= token_limit
      /\ (List.length (docsets r) <= 1660)%nat.
Proof.
  intros W h. exists (list_result W h).
  split; [apply list_installed_docsets_fst |].
  assert (Hempty :
    forall r, docsets r = [] ->
      (docsets r = [] \/ docsets_error r = None)
      /\ base_overhead + weight_of docset_weight (docsets r) <= token_limit
      /\ (List.length (docsets r) <= 1660)%nat).
  { intros r ->. split; [now left |].
    unfold base_overhead, token_limit, weight_of, zsum. cbn. split; lia. }
  unfold list_result, list_body.
  destruct (fst (working_api_base_url W h)) as [[port |] | e];
    [| now apply Hempty | apply Hempty, list_handled_empty].
  destruct (reply_json _) as [result | e]; cbn [obind];
    [| apply Hempty, list_handled_empty].
  unfold looped_docsets.
  destruct (dot_get_list result "docsets") as [found | e]; cbn [obind];
    [| apply Hempty, list_handled_empty].
  destruct (py_iter found) as [items | e]; cbn [obind];
    [| apply Hempty, list_handled_empty].
  destruct (budget_loop build_docset _ items base_overhead [])
    as [[out broke] | e] eqn:Hloop; cbn [obind fst docsets docsets_error];
    [| apply Hempty, list_handled_empty].
  split; [now right |].
  assert (Hin := budget_loop_within _ _ _ _ _ Hloop).
  split; [exact Hin |].
  assert (Hlo := weight_of_lower (fun d => estimate_tokens (DocsetResult_py d))
                   15 out docset_weight_min).
  unfold base_overhead, token_limit in *. lia.
Qed.

(** X6.  [search_documentation] never raises.  The hits it returns weigh,
    with the base overhead, at most 25000 units, and as each weighs at
    least 20 there are at most 1245 of them, whatever [max_results] is
    and however many hits upstream sends. *)
Theorem search_documentation_bounded :
  forall (W : World) (query ids : string) (snippets : bool)
         (max_results : Z) (h : trace),
    exists r,
      fst (search_documentation W query ids snippets max_results h) = Val r
      /\ base_overhead + weight_of search_weight (results r) <= token_limit
      /\ (List.length (results r) <= 1245)%nat.
Proof.
  intros W query ids snippets max_results h.
  exists (search_result W query ids snippets max_results h).
  split; [apply search_documentation_fst |].
  assert (Hempty :
    forall r, results r = [] ->
      base_overhead + weight_of search_weight (results r) <= token_limit
      /\ (List.length (results r) <= 1245)%nat).
  { intros r ->.
    unfold base_overhead, token_limit, weight_of, zsum. cbn. split; lia. }
  unfold search_result, search_body.
  destruct (is_blank_arg query); [now apply Hempty |].
  destruct (is_blank_arg ids); [now apply Hempty |].
  destruct ((max_results <? 1) || (max_results >? 1000));
    [now apply Hempty |].
  destruct (fst (working_api_base_url W h)) as [[port |] | e];
    [| now apply Hempty | apply Hempty, search_handled_empty].
  destruct (reply_json _) as [result | e]; cbn [obind];
    [| apply Hempty, search_handled_empty].
  destruct (advisory result) as [warning_message | e]; cbn [obind];
    [| apply Hempty, search_handled_empty].
  unfold looped_results.
  destruct (dot_get_list result "results") as [found | e]; cbn [obind];
    [| apply Hempty, search_handled_empty].
  destruct (py_iter found) as [items | e]; cbn [obind];
    [| apply Hempty, search_handled_empty].
  destruct (budget_loop build_search_result _ items base_overhead [])
    as [[out broke] | e] eqn:Hloop; cbn [obind fst];
    [| apply Hempty, search_handled_empty].
  destruct (as_opt_str warning_message) as [error | e]; cbn [obind results];
    [| apply Hempty, search_handled_empty].
  assert (Hin := budget_loop_within _ _ _ _ _ Hloop).
  split; [exact Hin |].
  assert (Hlo := weight_of_lower (fun r => estimate_tokens (SearchResult_py r))
                   20 out search_weight_min).
  unfold base_overhead, token_limit in *. lia.
Qed.

Lemma list_result_reply (W : World) (h : trace) (port : pyobj) :
  fst (working_api_base_url W h) = Val (Some port) ->
  list_result W h
  = match reply_json (api_answer W h (DocsetsList port) []) with
    | Val result =>
        match looped_docsets result with
        | Val looped => mkDocsetResults (fst looped) None
        | Exc e => list_handled e
        end
    | Exc e => list_handled e
    end.
Proof.
  intros Hw. unfold list_result, list_body. rewrite Hw.
  destruct (reply_json _) as [result | e]; cbn [obind]; [| reflexivity].
  destruct (looped_docsets result); reflexivity.
Qed.

(** X7.  When the listing endpoint answers with an error status, the
    result holds no docsets: status 404 is reported as "no docsets
    installed", every other status as "HTTP error: ..." with the text of
    the exception. *)
Theorem list_installed_docsets_error_status :
  forall (W : World) (h : trace) (port : pyobj) (r : response),
    fst (working_api_base_url W h) = Val (Some port) ->
    api_answer W h (DocsetsList port) [] = Reply r ->
    is_success r = false ->
    fst (list_installed_docsets W h)
    = Val (mkDocsetResults []
             (Some (if status_code r =? 404
                    then msg_no_docsets_installed
                    else "HTTP error: " ++ exn_str (status_error r)))).
Proof.
  intros W h port r Hw Hans Hfail.
  rewrite list_installed_docsets_fst, (list_result_reply W h port Hw), Hans.
  unfold reply_json. rewrite Hfail. cbn [list_handled status_error].
  destruct (status_code r =? 404); reflexivity.
Qed.

Lemma list_installed_docsets_error_status_witness :
  fst (list_installed_docsets
         (world_serving (Reply (mkResponse 404 "Not Found" "nothing" None)))
         [])
  = Val (mkDocsetResults [] (Some msg_no_docsets_installed)).
Proof.
  apply (list_installed_docsets_error_status
           (world_serving (Reply (mkResponse 404 "Not Found" "nothing" None)))
           [] (PInt 5000) (mkResponse 404 "Not Found" "nothing" None));
    reflexivity.
Defined.

(** X8.  A reply whose JSON object has no "docsets" key, or has an empty
    list there, is no error: the result is the empty list without an
    error message. *)
Theorem list_installed_docsets_empty :
  forall (W : World) (h : trace) (port : pyobj) (r : response)
         (kvs : list (pyobj * pyobj)),
    fst (working_api_base_url W h) = Val (Some port) ->
    api_answer W h (DocsetsList port) [] = Reply r ->
    is_success r = true ->
    json_body r = Some (PDict kvs) ->
    dict_get "docsets" kvs = None \/ dict_get "docsets" kvs = Some (PList []) ->
    fst (list_installed_docsets W h) = Val (mkDocsetResults [] None).
Proof.
  intros W h port r kvs Hw Hans Hok Hjson Hkey.
  rewrite list_installed_docsets_fst, (list_result_reply W h port Hw), Hans.
  unfold reply_json, json_of. rewrite Hok, Hjson.
  unfold looped_docsets, dot_get_list.
  destruct Hkey as [-> | ->]; reflexivity.
Qed.

Lemma list_installed_docsets_empty_witness :
  fst (list_installed_docsets
         (world_serving (Reply (mkResponse 200 "OK" "{}" (Some (PDict [])))))
         [])
  = Val (mkDocsetResults [] None).
Proof.
  apply (list_installed_docsets_empty
           (world_serving (Reply (mkResponse 200 "OK" "{}" (Some (PDict [])))))
           [] (PInt 5000) (mkResponse 200 "OK" "{}" (Some (PDict []))) []);
    try reflexivity.
  now left.
Defined.

(** X9.  The listing is all or nothing: when a record that the loop
    reaches cannot be built, the records built before it are dropped and
    the result is the error of the generic handler, naming the exception
    (for a record without a required key, the key). *)
Theorem list_installed_docsets_all_or_nothing :
  forall (W : World) (h : trace) (port : pyobj) (r : response)
         (result found : pyobj) (items : list pyobj) (e : exn),
    fst (working_api_base_url W h) = Val (Some port) ->
    api_answer W h (DocsetsList port) [] = Reply r ->
    is_success r = true -> json_body r = Some result ->
    dot_get_list result "docsets" = Val found -> py_iter found = Val items ->
    budget_loop build_docset (fun d => estimate_tokens (DocsetResult_py d))
                items base_overhead [] = Exc e ->
    (forall r' msg, e <> HTTPStatusError r' msg) ->
    fst (list_installed_docsets W h)
    = Val (mkDocsetResults []
             (Some ("Failed to get installed docsets: " ++ exn_str e))).
Proof.
  intros W h port r result found items e Hw Hans Hok Hjson Hfound Hiter
         Hloop Hclass.
  rewrite list_installed_docsets_fst, (list_result_reply W h port Hw), Hans.
  unfold reply_json, json_of. rewrite Hok, Hjson.
  unfold looped_docsets. rewrite Hfound. cbn [obind]. rewrite Hiter.
  cbn [obind]. rewrite Hloop.
  destruct e; try reflexivity. exfalso. eapply Hclass. reflexivity.
Qed.

Lemma list_installed_docsets_all_or_nothing_witness :
  fst (list_installed_docsets
         (world_serving (Reply (mkResponse 200 "OK" "..." (Some two_records))))
         [])
  = Val (mkDocsetResults []
           (Some "Failed to get installed docsets: 'name'")).
Proof.
  apply (list_installed_docsets_all_or_nothing
           (world_serving
              (Reply (mkResponse 200 "OK" "..." (Some two_records))))
           [] (PInt 5000) (mkResponse 200 "OK" "..." (Some two_records))
           two_records
           (PList [docset_json python_docset;
                   PDict [(PStr "identifier", PStr "react")]])
           [docset_json python_docset;
            PDict [(PStr "identifier", PStr "react")]]
           (KeyError "name"));
    try reflexivity.
  discriminate.
Defined.

(** ** Records survive the way through JSON *)

Lemma build_docset_dump (d : DocsetResult) :
  build_docset (docset_json d) = Val d.
Proof. destruct d as [name identifier platform fts [notice |]]; reflexivity. Qed.

Lemma build_search_result_dump (r : SearchResult) :
  build_search_result (search_result_json r) = Val r.
Proof.
  destruct r as [name type [platform |] load_url [docset |] [description |]
                 [language |] [tags |]]; reflexivity.
Qed.

(** X10.  Building a record from the JSON object that is its own dump
    gives the record back, for docsets and for search hits; absent
    optional fields travel as [null]. *)
Theorem build_from_dump :
  (forall d : DocsetResult, build_docset (docset_json d) = Val d)
  /\ (forall r : SearchResult,
         build_search_result (search_result_json r) = Val r).
Proof. split; [apply build_docset_dump | apply build_search_result_dump]. Qed.

Lemma built_docset_json (ds : list DocsetResult) :
  built build_docset (map docset_json ds) ds.
Proof.
  induction ds as [| d ds IH]; constructor; [| exact IH].
  apply build_docset_dump.
Qed.

(** X11.  When the listing endpoint answers with the dumps of the
    records [ds] and these weigh, with the base overhead, at most 25000
    units, [list_installed_docsets] returns exactly [ds], in order and
    without error. *)
Theorem list_installed_docsets_faithful :
  forall (W : World) (h : trace) (port : pyobj) (r : response)
         (ds : list DocsetResult),
    fst (working_api_base_url W h) = Val (Some port) ->
    api_answer W h (DocsetsList port) [] = Reply r ->
    is_success r = true ->
    json_body r = Some (PDict [(PStr "docsets", PList (map docset_json ds))]) ->
    base_overhead + weight_of docset_weight ds <= token_limit ->
    fst (list_installed_docsets W h) = Val (mkDocsetResults ds None).
Proof.
  intros W h port r ds Hw Hans Hok Hjson Hfit.
  rewrite list_installed_docsets_fst, (list_result_reply W h port Hw), Hans.
  unfold reply_json, json_of. rewrite Hok, Hjson.
  unfold looped_docsets. cbn [dot_get_list dict_get String.eqb Ascii.eqb
                               Bool.eqb obind py_iter].
  rewrite (budget_loop_keeps_fitting build_docset _ (map docset_json ds) ds
             base_overhead [] (built_docset_json ds)); [reflexivity |].
  intros k _.
  assert (Hpos : Forall (fun d => 0 <= estimate_tokens (DocsetResult_py d)) ds).
  { apply Forall_forall. intros d _.
    assert (H := docset_weight_min d). lia. }
  assert (Hle := weight_of_firstn_le
                   (fun d => estimate_tokens (DocsetResult_py d)) ds (S k) Hpos).
  unfold docset_weight in Hfit. unfold weight_of in *. lia.
Qed.

Lemma list_installed_docsets_faithful_witness :
  fst (list_installed_docsets
         (world_serving
            (Reply (mkResponse 200 "OK" "..."
                      (Some (PDict [(PStr "docsets",
                                     PList (map docset_json
                                              [python_docset]))])))))
         [])
  = Val (mkDocsetResults [python_docset] None).
Proof.
  apply (list_installed_docsets_faithful
           (world_serving
              (Reply (mkResponse 200 "OK" "..."
                        (Some (PDict [(PStr "docsets",
                                       PList (map docset_json
                                                [python_docset]))])))))
           [] (PInt 5000)
           (mkResponse 200 "OK" "..."
              (Some (PDict [(PStr "docsets",
                             PList (map docset_json [python_docset]))])))
           [python_docset]);
    try reflexivity.
  vm_compute. discriminate.
Defined.

(** ** What the search returns *)

Lemma search_result_reply (W : World) (query ids : string) (snippets : bool)
      (max_results : Z) (h : trace) (port : pyobj) :
  search_args_ok query ids max_results = true ->
  fst (working_api_base_url W h) = Val (Some port) ->
  search_result W query ids snippets max_results h
  = match reply_json (api_answer W h (Search port)
                        (search_params query ids snippets max_results)) with
    | Val result =>
        match obind (advisory result) (fun warning_message =>
              obind (looped_results result) (fun looped =>
              obind (as_opt_str warning_message) (fun error =>
              Val (mkSearchResults (fst looped) error)))) with
        | Val res => res
        | Exc e => search_handled e
        end
    | Exc e => search_handled e
    end.
Proof.
  unfold search_args_ok. intros Hok Hw.
  apply andb_true_iff in Hok. destruct Hok as [Hok Hmax].
  apply andb_true_iff in Hok. destruct Hok as [Hq Hi].
  apply negb_true_iff in Hq, Hi, Hmax.
  unfold search_result, search_body. rewrite Hq, Hi, Hmax, Hw.
  destruct (reply_json _) as [result | e]; reflexivity.
Qed.

Lemma built_search_result_json (rs : list SearchResult) :
  built build_search_result (map search_result_json rs) rs.
Proof.
  induction rs as [| r rs IH]; constructor; [| exact IH].
  apply build_search_result_dump.
Qed.

Lemma looped_results_fit (kvs : list (pyobj * pyobj)) (rs : list SearchResult) :
  dict_get "results" kvs = Some (PList (map search_result_json rs)) ->
  base_overhead + weight_of search_weight rs <= token_limit ->
  looped_results (PDict kvs) = Val (rs, false).
Proof.
  intros Hres Hfit. unfold looped_results, dot_get_list. rewrite Hres.
  cbn [obind py_iter].
  rewrite (budget_loop_keeps_fitting build_search_result _
             (map search_result_json rs) rs base_overhead []
             (built_search_result_json rs)); [reflexivity |].
  intros k _.
  assert (Hpos : Forall (fun r => 0 <= estimate_tokens (SearchResult_py r)) rs).
  { apply Forall_forall. intros r _.
    assert (H := search_weight_min r). lia. }
  assert (Hle := weight_of_firstn_le
                   (fun r => estimate_tokens (SearchResult_py r)) rs (S k) Hpos).
  unfold search_weight in Hfit. unfold weight_of in *. lia.
Qed.

(** X12.  An advisory message does not cost the hits: when the search
    endpoint answers with hits that fit the budget and a "message"
    string, the result holds all the hits and the message in its error
    field; without a "message" key, or with [null] there, the error field
    is empty.  A "message" that is neither a string nor [null] fails the
    validation of the result: the hits are dropped and an error is
    returned. *)
Theorem search_documentation_advisory :
  forall (W : World) (query ids : string) (snippets : bool)
         (max_results : Z) (h : trace) (port : pyobj) (r : response)
         (kvs : list (pyobj * pyobj)) (rs : list SearchResult),
    search_args_ok query ids max_results = true ->
    fst (working_api_base_url W h) = Val (Some port) ->
    api_answer W h (Search port)
               (search_params query ids snippets max_results) = Reply r ->
    is_success r = true -> json_body r = Some (PDict kvs) ->
    dict_get "results" kvs = Some (PList (map search_result_json rs)) ->
    base_overhead + weight_of search_weight rs <= token_limit ->
    (forall m, dict_get "message" kvs = Some (PStr m) ->
               fst (search_documentation W query ids snippets max_results h)
               = Val (mkSearchResults rs (Some m)))
    /\ (dict_get "message" kvs = None \/ dict_get "message" kvs = Some PNone ->
        fst (search_documentation W query ids snippets max_results h)
        = Val (mkSearchResults rs None))
    /\ (forall v, dict_get "message" kvs = Some v ->
                  v <> PNone -> (forall m, v <> PStr m) ->
                  exists msg,
                    fst (search_documentation W query ids snippets
                                              max_results h)
                    = Val (mkSearchResults [] (Some msg))).
Proof.
  intros W query ids snippets max_results h port r kvs rs
         Hargs Hw Hans Hok Hjson Hres Hfit.
  rewrite search_documentation_fst,
    (search_result_reply W query ids snippets max_results h port Hargs Hw),
    Hans.
  unfold reply_json, json_of. rewrite Hok, Hjson.
  rewrite (looped_results_fit kvs rs Hres Hfit).
  unfold advisory, py_in, subscript.
  split; [| split].
  - intros m ->. reflexivity.
  - intros [-> | ->]; reflexivity.
  - intros v -> Hnone Hstr.
    destruct v as [| b | z | m | l | l | d | d];
      try (eexists; reflexivity).
    + now contradiction Hnone.
    + now contradiction (Hstr m).
Qed.

Lemma search_documentation_advisory_witness :
  fst (search_documentation
         (world_serving
            (Reply (mkResponse 200 "OK" "..." (Some advisory_reply))))
         "map" "python3" true 100 [])
  = Val (mkSearchResults [python_map_hit]
           (Some "Some docsets were skipped")).
Proof.
  refine (proj1 (search_documentation_advisory
           (world_serving
              (Reply (mkResponse 200 "OK" "..." (Some advisory_reply))))
           "map" "python3" true 100 [] (PInt 5000)
           (mkResponse 200 "OK" "..." (Some advisory_reply))
           [(PStr "results", PList (map search_result_json [python_map_hit]));
            (PStr "message", PStr "Some docsets were skipped")]
           [python_map_hit]
           eq_refl eq_refl eq_refl eq_refl eq_refl eq_refl _) _ eq_refl).
  vm_compute. discriminate.
Defined.

(** X13.  The other upstream errors of the search.  With valid arguments
    and a working base address, an error status yields no hits and:
    for a 400 whose body holds "No docsets found" (and not the
    unknown-identifier pair) the no-valid-docsets message; for a 403
    whose body holds the trial-expiration phrase the trial-expired
    message; for any status other than 400 and 403 the generic
    "HTTP error: ..." message, whatever the body holds, so the known
    phrases count only with their own status. *)
Theorem search_documentation_other_errors :
  forall (W : World) (query ids : string) (snippets : bool)
         (max_results : Z) (h : trace) (port : pyobj) (r : response),
    search_args_ok query ids max_results = true ->
    fst (working_api_base_url W h) = Val (Some port) ->
    api_answer W h (Search port)
               (search_params query ids snippets max_results) = Reply r ->
    is_success r = false ->
    exists msg,
      fst (search_documentation W query ids snippets max_results h)
      = Val (mkSearchResults [] (Some msg))
      /\ (status_code r = 400 ->
          contains "Docset with identifier" (text r)
          && contains "not found" (text r) = false ->
          contains "No docsets found" (text r) = true ->
          msg = msg_no_valid_docsets)
      /\ (status_code r = 403 ->
          contains "API access blocked due to Dash trial expiration" (text r)
          = true ->
          msg = msg_trial_expired)
      /\ (status_code r <> 400 -> status_code r <> 403 ->
          msg = "HTTP error: " ++ exn_str (status_error r) ++ msg_ensure).
Proof.
  intros W query ids snippets max_results h port r Hargs Hw Hans Hfail.
  exists (search_status_message r (status_error r)).
  split.
  - rewrite search_documentation_fst,
      (search_result_reply W query ids snippets max_results h port Hargs Hw),
      Hans.
    unfold reply_json. rewrite Hfail. reflexivity.
  - unfold search_status_message. split; [| split].
    + intros -> -> ->. reflexivity.
    + intros H403 ->. rewrite H403. reflexivity.
    + intros H400 H403.
      apply Z.eqb_neq in H400, H403. now rewrite H400, H403.
Qed.

Lemma search_documentation_other_errors_witness :
  exists msg,
    fst (search_documentation
           (world_serving
              (Reply (mkResponse 404 "Not Found"
                        "Docset with identifier x not found" None)))
           "map" "x" true 100 [])
    = Val (mkSearchResults [] (Some msg))
    /\ msg
       = "HTTP error: HTTP status error Not Found. Please ensure Dash is running and the API server is enabled (in Dash Settings > Integration).".
Proof.
  destruct (search_documentation_other_errors
              (world_serving
                 (Reply (mkResponse 404 "Not Found"
                           "Docset with identifier x not found" None)))
              "map" "x" true 100 [] (PInt 5000)
              (mkResponse 404 "Not Found"
                 "Docset with identifier x not found" None)
              eq_refl eq_refl eq_refl eq_refl)
    as (msg & Hrun & _ & _ & Hother).
  exists msg. split; [exact Hrun |].
  apply Hother; discriminate.
Defined.

(** ** Where the ladder starts *)

Lemma bind_snd {A B} (m : M A) (k : A -> M B) (h : trace) :
  snd (bind m k h)
  = (snd (m h)
     ++ match fst (m h) with
        | Val a => snd (k a (h ++ snd (m h))%list)
        | Exc _ => []
        end)%list.
Proof.
  unfold bind. destruct (m h) as [[a | e] d]; cbn [fst snd].
  - now destruct (k a _).
  - now rewrite app_nil_r.
Qed.

Lemma try_except_snd {A} (m : M A) (handler : exn -> M A) (h : trace) :
  snd (try_except m handler h)
  = (snd (m h)
     ++ match fst (m h) with
        | Val _ => []
        | Exc e => snd (handler e (h ++ snd (m h))%list)
        end)%list.
Proof.
  unfold try_except. destruct (m h) as [[a | e] d]; cbn [fst snd].
  - now rewrite app_nil_r.
  - now destruct (handler e _).
Qed.

Lemma check_dash_running_run (W : World) (h : trace) :
  check_dash_running W h = (Val (pgrep_found (pgrep_dash W h)), [EvPgrep]).
Proof.
  unfold check_dash_running, try_except, run, bind, perform, ret, raise,
    pgrep_found.
  destruct (pgrep_dash W h) as [rc | msg]; reflexivity.
Qed.

Lemma ensure_dash_running_starts (W : World) (h : trace) :
  exists t, snd (ensure_dash_running W h) = EvPgrep :: t.
Proof.
  unfold ensure_dash_running. rewrite bind_snd, check_dash_running_run.
  cbn [fst snd app]. eexists. reflexivity.
Qed.

Lemma working_api_base_url_starts (W : World) (h : trace) :
  exists t, snd (working_api_base_url W h) = EvPgrep :: t.
Proof.
  unfold working_api_base_url. rewrite bind_snd.
  destruct (ensure_dash_running_starts W h) as [t ->].
  cbn [app]. eexists. reflexivity.
Qed.

(** X14.  The bounds of [max_results] are inclusive: with a query and an
    identifier list that are not blank, the ladder is entered (the first
    action is the process check) exactly when [1 <= max_results <= 1000];
    so 1 and 1000 are accepted, 0 and 1001 are refused. *)
Theorem search_documentation_bounds :
  forall (W : World) (query ids : string) (snippets : bool)
         (max_results : Z) (h : trace),
    is_blank_arg query = false -> is_blank_arg ids = false ->
    (1 <= max_results <= 1000 <->
     exists t,
       snd (search_documentation W query ids snippets max_results h)
       = EvPgrep :: t).
Proof.
  intros W query ids snippets max_results h Hq Hi.
  unfold search_documentation. rewrite Hq, Hi.
  destruct ((max_results <? 1) || (max_results >? 1000)) eqn:Hmax.
  - split.
    + intros Hin. apply orb_true_iff in Hmax. destruct Hmax; lia.
    + intros [t Ht]. discriminate.
  - split; [intros _ | intros _; apply orb_false_iff in Hmax; lia].
    rewrite try_except_snd, bind_snd.
    destruct (working_api_base_url_starts W h) as [t ->].
    cbn [app]. eexists. reflexivity.
Qed.

Lemma search_documentation_bounds_witness :
  (exists t,
      snd (search_documentation world_api_disabled "map" "python3" true 1 [])
      = EvPgrep :: t)
  /\ (exists t,
         snd (search_documentation world_api_disabled "map" "python3" true
                                   1000 [])
         = EvPgrep :: t).
Proof.
  split.
  - apply (search_documentation_bounds world_api_disabled "map" "python3"
             true 1 [] eq_refl eq_refl). lia.
  - apply (search_documentation_bounds world_api_disabled "map" "python3"
             true 1000 [] eq_refl eq_refl). lia.
Defined.

(** ** The launch rung, path by path *)

Lemma run_run (ev : event) (answer : trace -> proc) (check : bool)
      (h : trace) :
  run ev answer check h
  = (match answer h with
     | RunFailed msg => Exc (OtherError msg)
     | Exited rc =>
         if check && negb (rc =? 0) then Exc CalledProcessError else Val rc
     end, [ev]).
Proof.
  unfold run. rewrite bind_perform.
  destruct (answer h) as [rc | msg]; [| reflexivity].
  destruct (check && negb (rc =? 0)); reflexivity.
Qed.

Lemma recheck_run (W : World) (h : trace) :
  (running' <- check_dash_running W ;;
   if negb running'
   then log Error ;; ret false
   else log Info ;; ret true) h
  = (Val (pgrep_found (pgrep_dash W h)),
     [EvPgrep; EvLog (if pgrep_found (pgrep_dash W h) then Info else Error)]).
Proof.
  unfold bind at 1. rewrite check_dash_running_run.
  destruct (pgrep_found (pgrep_dash W h)); reflexivity.
Qed.

Lemma settle_run (W : World) (h pre : trace) :
  (sleep 4 ;;
   running' <- check_dash_running W ;;
   if negb running'
   then log Error ;; ret false
   else log Info ;; ret true) (h ++ pre)%list
  = (fst (settle W h pre),
     skipn (List.length pre) (snd (settle W h pre))).
Proof.
  unfold sleep. rewrite bind_perform, recheck_run.
  rewrite <- !app_assoc. unfold settle.
  destruct (pgrep_found (pgrep_dash W (h ++ pre ++ [EvSleep 4])%list));
    cbn [negb fst snd]; rewrite skipn_app, skipn_all, Nat.sub_diag;
    reflexivity.
Qed.

Lemma launch_try_run (W : World) (h : trace) :
  try_except
    (rc <- run (EvOpen Dashdoc) (fun h => open_app W h Dashdoc) false ;;
     (if negb (rc =? 0)
      then run (EvOpen Setapp) (fun h => open_app W h Setapp) true ;; ret tt
      else ret tt) ;;
     sleep 4 ;;
     running' <- check_dash_running W ;;
     if negb running'
     then log Error ;; ret false
     else log Info ;; ret true)
    (fun e => log Error ;; ret false) (h ++ [EvPgrep; EvLog Info])%list
  = (fst (launch_run W h), skipn 2 (snd (launch_run W h))).
Proof.
  unfold try_except, launch_run.
  unfold bind at 1. rewrite run_run. cbn [andb].
  destruct (open_app W (h ++ [EvPgrep; EvLog Info])%list Dashdoc)
    as [rc | msg]; [| reflexivity].
  rewrite <- !app_assoc. cbn [app].
  destruct (rc =? 0) eqn:Hrc; cbn [negb].
  - rewrite bind_ret.
    rewrite (settle_run W h [EvPgrep; EvLog Info; EvOpen Dashdoc]).
    unfold settle. destruct (pgrep_found _); reflexivity.
  - rewrite bind_bind. unfold bind at 1. rewrite run_run. cbn [andb].
    destruct (open_app W (h ++ [EvPgrep; EvLog Info; EvOpen Dashdoc])%list
                       Setapp) as [rc' | msg]; [| reflexivity].
    destruct (rc' =? 0) eqn:Hrc'; cbn [negb].
    + apply Z.eqb_eq in Hrc'. subst rc'.
      rewrite bind_ret. rewrite <- !app_assoc. cbn [app].
      rewrite (settle_run W h
                 [EvPgrep; EvLog Info; EvOpen Dashdoc; EvOpen Setapp]).
      unfold settle. destruct (pgrep_found _); reflexivity.
    + destruct rc'; try discriminate; reflexivity.
Qed.

Lemma launch_run_prefix (W : World) (h : trace) :
  snd (launch_run W h)
  = EvPgrep :: EvLog Info :: skipn 2 (snd (launch_run W h)).
Proof.
  unfold launch_run, settle.
  repeat match goal with
         | |- context [match ?x with _ => _ end] => destruct x
         end; reflexivity.
Qed.

Lemma ensure_dash_running_run (W : World) (h : trace) :
  ensure_dash_running W h = ensure_run W h.
Proof.
  unfold ensure_dash_running, ensure_run.
  unfold bind at 1. rewrite check_dash_running_run.
  destruct (pgrep_found (pgrep_dash W h)); [reflexivity |].
  cbn [negb]. unfold bind at 1, log at 1, perform at 1.
  rewrite <- !app_assoc. cbn [app].
  rewrite launch_try_run. cbn [app].
  rewrite <- (launch_run_prefix W h).
  now destruct (launch_run W h).
Qed.

Ltac ladder_cases :=
  repeat match goal with
         | |- context [match ?x with _ => _ end] => destruct x eqn:?
         end.

(** X15.  [ensure_dash_running] never raises.  When the process check
    finds Dash, it returns [True] at once and launches nothing; when the
    check finds nothing or fails, the primary launch command is issued
    exactly once; and it returns [True] only after a process check (the
    first, or the one after the settle wait) has found Dash. *)
Theorem ensure_dash_running_checked :
  forall (W : World) (h : trace),
    exists b t,
      ensure_dash_running W h = (Val b, t)
      /\ (pgrep_found (pgrep_dash W h) = true -> b = true /\ t = [EvPgrep])
      /\ (pgrep_found (pgrep_dash W h) = false ->
          occurrences (KOpen Dashdoc) t = 1%nat)
      /\ (b = true ->
          exists pre,
            (t = (pre ++ [EvPgrep])%list
             \/ t = (pre ++ [EvPgrep; EvLog Info])%list)
            /\ pgrep_found (pgrep_dash W (h ++ pre)%list) = true).
Proof.
  intros W h. rewrite ensure_dash_running_run. unfold ensure_run.
  destruct (pgrep_found (pgrep_dash W h)) eqn:Hfirst.
  - exists true, [EvPgrep]. repeat split; try discriminate.
    intros _. exists []. split; [now left | now rewrite app_nil_r].
  - unfold launch_run, settle.
    ladder_cases; eexists; eexists; (split; [reflexivity |]);
      (split; [discriminate |]); (split; [reflexivity |]);
      try (intros Hb; discriminate Hb); intros _.
    + exists [EvPgrep; EvLog Info; EvOpen Dashdoc; EvSleep 4].
      split; [now right |]. now rewrite <- Heqb0.
    + exists [EvPgrep; EvLog Info; EvOpen Dashdoc; EvOpen Setapp; EvSleep 4].
      split; [now right |]. now rewrite <- Heqb0.
Qed.

(** X16.  The Setapp launch is a fallback: it is issued exactly when the
    first process check did not find Dash and the primary launch command
    exited with a non-zero status, and never otherwise (not when the
    primary command could not be run at all).  When the launch fails
    (the primary command cannot be run, or the fallback does not exit
    with 0), [ensure_dash_running] returns [False] at once, without the
    settle wait and without a second process check. *)
Theorem ensure_dash_running_fallback :
  forall (W : World) (h : trace),
    (occurrences (KOpen Setapp) (snd (ensure_dash_running W h)) = 1%nat <->
     pgrep_found (pgrep_dash W h) = false
     /\ exists rc,
          open_app W (h ++ [EvPgrep; EvLog Info])%list Dashdoc = Exited rc
          /\ rc <> 0)
    /\ (occurrences (KOpen Setapp) (snd (ensure_dash_running W h)) <= 1)%nat
    /\ (pgrep_found (pgrep_dash W h) = false ->
        (exists msg,
            open_app W (h ++ [EvPgrep; EvLog Info])%list Dashdoc
            = RunFailed msg)
        \/ (exists rc,
               open_app W (h ++ [EvPgrep; EvLog Info])%list Dashdoc
               = Exited rc
               /\ rc <> 0
               /\ open_app W (h ++ [EvPgrep; EvLog Info; EvOpen Dashdoc])%list
                           Setapp <> Exited 0) ->
        fst (ensure_dash_running W h) = Val false
        /\ occurrences KSleep (snd (ensure_dash_running W h)) = O
        /\ occurrences KPgrep (snd (ensure_dash_running W h)) = 1%nat).
Proof.
  intros W h. rewrite ensure_dash_running_run. unfold ensure_run.
  destruct (pgrep_found (pgrep_dash W h)) eqn:Hfirst.
  - cbn. split; [| split; [lia | discriminate]].
    split; [discriminate | intros [Hf _]; discriminate].
  - unfold launch_run, settle. cbn [app].
    destruct (open_app W (h ++ [EvPgrep; EvLog Info])%list Dashdoc)
      as [rc | msg] eqn:Hopen.
    + destruct (rc =? 0) eqn:Hrc.
      * apply Z.eqb_eq in Hrc. subst rc.
        destruct (pgrep_found
                    (pgrep_dash W (h ++ [EvPgrep; EvLog Info; EvOpen Dashdoc;
                                         EvSleep 4])%list)); cbn;
          (split;
           [split;
            [intros Hone; discriminate Hone
            | intros [_ (rc0 & Hrc0 & Hne)]; injection Hrc0 as <-;
              now contradiction Hne]
           | split;
             [lia
             | intros _ [[msg Hm] | (rc0 & Hrc0 & Hne & _)];
               [discriminate Hm
               | injection Hrc0 as <-; now contradiction Hne]]]).
      * apply Z.eqb_neq in Hrc.
        assert (Hiff :
          (1%nat = 1%nat <->
           false = false /\ exists rc0, Exited rc = Exited rc0 /\ rc0 <> 0))
          by (split; [intros _; split; [reflexivity | now exists rc]
                     | reflexivity]).
        destruct (open_app W (h ++ [EvPgrep; EvLog Info; EvOpen Dashdoc])%list
                           Setapp) as [rc' | msg'] eqn:Hopen2.
        -- destruct rc' as [| p | p].
           ++ destruct (pgrep_found
                          (pgrep_dash W (h ++ [EvPgrep; EvLog Info;
                                               EvOpen Dashdoc; EvOpen Setapp;
                                               EvSleep 4])%list)); cbn;
                (split; [exact Hiff |]); (split; [lia |]);
                intros _ [[msg Hm] | (rc0 & _ & _ & Hne)];
                try discriminate; now contradiction Hne.
           ++ cbn. split; [exact Hiff |]. split; [lia |].
              intros _ _. repeat split.
           ++ cbn. split; [exact Hiff |]. split; [lia |].
              intros _ _. repeat split.
        -- cbn. split; [exact Hiff |]. split; [lia |].
           intros _ _. repeat split.
    + cbn. split; [| split; [lia |]].
      * split; [discriminate |].
        intros [_ (rc & Hrc & _)]. discriminate.
      * intros _ _. repeat split.
Qed.

(** ** The API rung, path by path *)

Section ApiRung.
Variable W : World.

Lemma working_api_base_url_not_running (h d1 : trace) :
  ensure_dash_running W h = (Val false, d1) ->
  working_api_base_url W h = (Val None, d1).
Proof.
  intros Hrun. unfold working_api_base_url, bind at 1. rewrite Hrun.
  cbn. now rewrite app_nil_r.
Qed.

Lemma working_api_base_url_found (h d1 d2 : trace) (p : pyobj) :
  ensure_dash_running W h = (Val true, d1) ->
  get_dash_api_port W (h ++ d1)%list = (Val (Some p), d2) ->
  working_api_base_url W h = (Val (Some p), (d1 ++ d2)%list).
Proof.
  intros Hrun Hport. unfold working_api_base_url, bind at 1. rewrite Hrun.
  cbn [negb]. unfold bind at 1. rewrite Hport. cbn. now rewrite app_nil_r.
Qed.

Lemma working_api_base_url_discovery_raises (h d1 d2 : trace) (e : exn) :
  ensure_dash_running W h = (Val true, d1) ->
  get_dash_api_port W (h ++ d1)%list = (Exc e, d2) ->
  working_api_base_url W h = (Exc e, (d1 ++ d2)%list).
Proof.
  intros Hrun Hport. unfold working_api_base_url, bind at 1. rewrite Hrun.
  cbn [negb]. unfold bind at 1. now rewrite Hport.
Qed.

Lemma working_api_base_url_first_write_fails (h d1 d2 : trace) :
  ensure_dash_running W h = (Val true, d1) ->
  get_dash_api_port W (h ++ d1)%list = (Val None, d2) ->
  defaults_write W (h ++ d1 ++ d2 ++ [EvLog Info])%list Dashdoc <> Exited 0 ->
  working_api_base_url W h
  = (Val None,
     (d1 ++ d2 ++ [EvLog Info; EvDefaultsWrite Dashdoc; EvLog Error])%list).
Proof.
  intros Hrun Hport Hw1.
  unfold working_api_base_url, bind at 1. rewrite Hrun. cbn [negb].
  unfold bind at 1. rewrite Hport.
  unfold try_except, run, sleep, log.
  unfold bind, perform, ret, raise.
  rewrite <- !app_assoc. cbn [app].
  destruct (defaults_write W (h ++ d1 ++ d2 ++ [EvLog Info])%list Dashdoc)
    as [rc | msg].
  - destruct (rc =? 0) eqn:Hrc.
    + apply Z.eqb_eq in Hrc. subst rc. now contradiction Hw1.
    + cbn [andb negb app]. reflexivity.
  - cbn [app]. reflexivity.
Qed.

Lemma working_api_base_url_second_write_fails (h d1 d2 : trace) :
  ensure_dash_running W h = (Val true, d1) ->
  get_dash_api_port W (h ++ d1)%list = (Val None, d2) ->
  defaults_write W (h ++ d1 ++ d2 ++ [EvLog Info])%list Dashdoc = Exited 0 ->
  defaults_write W (h ++ d1 ++ d2 ++ [EvLog Info; EvDefaultsWrite Dashdoc])%list
                 Setapp <> Exited 0 ->
  working_api_base_url W h
  = (Val None,
     (d1 ++ d2 ++ [EvLog Info; EvDefaultsWrite Dashdoc;
                   EvDefaultsWrite Setapp; EvLog Error])%list).
Proof.
  intros Hrun Hport Hw1 Hw2.
  unfold working_api_base_url, bind at 1. rewrite Hrun. cbn [negb].
  unfold bind at 1. rewrite Hport.
  unfold try_except, run, sleep, log.
  unfold bind, perform, ret, raise.
  rewrite <- !app_assoc. cbn [app].
  rewrite Hw1. cbn [andb negb Z.eqb].
  rewrite <- !app_assoc. cbn [app].
  destruct (defaults_write W
              (h ++ d1 ++ d2 ++ [EvLog Info; EvDefaultsWrite Dashdoc])%list
              Setapp) as [rc | msg].
  - destruct (rc =? 0) eqn:Hrc.
    + apply Z.eqb_eq in Hrc. subst rc. now contradiction Hw2.
    + cbn [andb negb app]. reflexivity.
  - cbn [app]. reflexivity.
Qed.
End ApiRung.

(** X17.  The ladder does no more than it must.  When Dash cannot be
    brought up, it yields absent without reading the status file; when
    the first discovery finds a live port, it yields that port without
    writing any setting and without waiting. *)
Theorem working_api_base_url_short_paths :
  forall (W : World) (h d1 : trace),
    (ensure_dash_running W h = (Val false, d1) ->
     working_api_base_url W h = (Val None, d1)
     /\ occurrences KRead d1 = O)
    /\ (forall d2 p,
           ensure_dash_running W h = (Val true, d1) ->
           get_dash_api_port W (h ++ d1)%list = (Val (Some p), d2) ->
           working_api_base_url W h = (Val (Some p), (d1 ++ d2)%list)
           /\ occurrences (KWrite Dashdoc) (d1 ++ d2)%list = O
           /\ occurrences (KWrite Setapp) (d1 ++ d2)%list = O).
Proof.
  intros W h d1. split.
  - intros Hrun. split; [now apply working_api_base_url_not_running |].
    assert (Hc := costs_ensure_dash_running
                    (fun k => if ekind_eqb k KRead then 1%nat else O) W h).
    rewrite Hrun in Hc. cbn [snd] in Hc.
    rewrite occurrences_total. cbn in Hc. lia.
  - intros d2 p Hrun Hport.
    split; [now apply working_api_base_url_found |].
    assert (Hw := working_api_base_url_found W h d1 d2 p Hrun Hport).
    assert (H1 := costs_ensure_dash_running
                    (fun k => if ekind_eqb k (KWrite Dashdoc) then 1%nat else O)
                    W h).
    assert (H2 := costs_ensure_dash_running
                    (fun k => if ekind_eqb k (KWrite Setapp) then 1%nat else O)
                    W h).
    assert (H3 := costs_get_dash_api_port
                    (fun k => if ekind_eqb k (KWrite Dashdoc) then 1%nat else O)
                    W (h ++ d1)%list).
    assert (H4 := costs_get_dash_api_port
                    (fun k => if ekind_eqb k (KWrite Setapp) then 1%nat else O)
                    W (h ++ d1)%list).
    rewrite Hrun in H1, H2. rewrite Hport in H3, H4. cbn [snd] in *.
    rewrite !occurrences_total, !total_app. cbn in H1, H2, H3, H4. lia.
Qed.

Lemma working_api_base_url_short_paths_witness :
  working_api_base_url (world_serving plain_ok) []
  = (Val (Some (PInt 5000)),
     [EvPgrep; EvReadStatus; EvGet (Health (PInt 5000)) []; EvLog Debug]).
Proof.
  destruct (working_api_base_url_short_paths (world_serving plain_ok) []
              [EvPgrep]) as [_ Hfound].
  apply (Hfound [EvReadStatus; EvGet (Health (PInt 5000)) []; EvLog Debug]
                (PInt 5000)); reflexivity.
Defined.

(** X18.  A settings write that fails ends the remediation at once.
    When the first write does not exit with 0, the second write is not
    attempted; when the second does not, there is no settle wait and no
    re-check; either way the ladder yields absent after one error log
    line. *)
Theorem working_api_base_url_write_fails :
  forall (W : World) (h d1 d2 : trace),
    ensure_dash_running W h = (Val true, d1) ->
    get_dash_api_port W (h ++ d1)%list = (Val None, d2) ->
    (defaults_write W (h ++ d1 ++ d2 ++ [EvLog Info])%list Dashdoc
     <> Exited 0 ->
     working_api_base_url W h
     = (Val None,
        (d1 ++ d2 ++ [EvLog Info; EvDefaultsWrite Dashdoc; EvLog Error])%list))
    /\ (defaults_write W (h ++ d1 ++ d2 ++ [EvLog Info])%list Dashdoc
        = Exited 0 ->
        defaults_write W
          (h ++ d1 ++ d2 ++ [EvLog Info; EvDefaultsWrite Dashdoc])%list Setapp
        <> Exited 0 ->
        working_api_base_url W h
        = (Val None,
           (d1 ++ d2 ++ [EvLog Info; EvDefaultsWrite Dashdoc;
                         EvDefaultsWrite Setapp; EvLog Error])%list)).
Proof.
  intros W h d1 d2 Hrun Hport. split.
  - now apply working_api_base_url_first_write_fails.
  - now apply working_api_base_url_second_write_fails.
Qed.

Lemma working_api_base_url_write_fails_witness :
  working_api_base_url world_read_only_settings []
  = (Val None,
     [EvPgrep; EvReadStatus; EvLog Info; EvDefaultsWrite Dashdoc;
      EvLog Error]).
Proof.
  destruct (working_api_base_url_write_fails world_read_only_settings []
              [EvPgrep] [EvReadStatus] eq_refl eq_refl) as [Hfirst _].
  apply Hfirst. discriminate.
Defined.

Lemma get_dash_api_port_read_failed (W : World) (h : trace) (msg : string) :
  read_status W h = ReadFailed msg ->
  get_dash_api_port W h = (Exc (OtherError msg), [EvReadStatus]).
Proof.
  intros Hst. unfold get_dash_api_port, try_except, read_port.
  rewrite bind_bind, bind_perform, Hst, bind_raise. reflexivity.
Qed.

(** X19.  An unreadable status file is treated differently on the two
    discoveries.  On the first, the exception leaves
    [working_api_base_url] before any remediation, and
    [list_installed_docsets] reports it as
    "Failed to get installed docsets: ...".  On the re-check, after the
    settings were written, the same exception is swallowed and the ladder
    yields absent. *)
Theorem working_api_base_url_unreadable_status :
  forall (W : World) (h d1 : trace) (msg : string),
    ensure_dash_running W h = (Val true, d1) ->
    (read_status W (h ++ d1)%list = ReadFailed msg ->
     working_api_base_url W h
     = (Exc (OtherError msg), (d1 ++ [EvReadStatus])%list)
     /\ fst (list_installed_docsets W h)
        = Val (mkDocsetResults []
                 (Some ("Failed to get installed docsets: " ++ msg))))
    /\ (forall d2,
           get_dash_api_port W (h ++ d1)%list = (Val None, d2) ->
           defaults_write W (h ++ d1 ++ d2 ++ [EvLog Info])%list Dashdoc
           = Exited 0 ->
           defaults_write W
             (h ++ d1 ++ d2 ++ [EvLog Info; EvDefaultsWrite Dashdoc])%list
             Setapp = Exited 0 ->
           read_status W (h ++ d1 ++ d2 ++ EvLog Info :: enable_actions)%list
           = ReadFailed msg ->
           working_api_base_url W h
           = (Val None,
              (d1 ++ d2 ++ EvLog Info :: enable_actions
                  ++ [EvReadStatus; EvLog Error])%list)).
Proof.
  intros W h d1 msg Hrun. split.
  - intros Hst.
    assert (Hw : working_api_base_url W h
                 = (Exc (OtherError msg), (d1 ++ [EvReadStatus])%list))
      by (apply working_api_base_url_discovery_raises;
          [exact Hrun | now apply get_dash_api_port_read_failed]).
    split; [exact Hw |].
    rewrite list_installed_docsets_fst. unfold list_result, list_body.
    rewrite Hw. reflexivity.
  - intros d2 Hport Hw1 Hw2 Hst.
    apply (working_api_base_url_recheck W h d1 d2 [EvReadStatus]
             (Exc (OtherError msg)) Hrun Hport Hw1 Hw2).
    now apply get_dash_api_port_read_failed.
Qed.

Lemma working_api_base_url_unreadable_status_witness :
  fst (list_installed_docsets world_unreadable_status [])
  = Val (mkDocsetResults []
           (Some "Failed to get installed docsets: Permission denied")).
Proof.
  destruct (working_api_base_url_unreadable_status world_unreadable_status
              [] [EvPgrep] "Permission denied" eq_refl) as [Hfirst _].
  apply Hfirst. reflexivity.
Defined.

Lemma get_dash_api_port_some_trace (W : World) (h d : trace) (p : pyobj) :
  get_dash_api_port W h = (Val (Some p), d) ->
  d = [EvReadStatus; EvGet (Health p) []; EvLog Debug]
  /\ probe_ok (http_get W (h ++ [EvReadStatus])%list (Health p) []) = true.
Proof.
  intros Hrun.
  destruct (get_dash_api_port_some W h p d Hrun)
    as ((kvs & Hst & Hget) & Hne & Hprobe).
  split; [| exact Hprobe].
  rewrite (get_dash_api_port_present W h kvs p Hst Hget Hne) in Hrun.
  now injection Hrun as _ <-.
Qed.

(** X20.  Whenever the ladder yields a base address, its port was read
    from the status file and probed successfully in this same call: the
    read, the probe and the probe's log line are the last actions of the
    ladder but for at most one closing log line. *)
Theorem working_api_base_url_probed :
  forall (W : World) (h : trace) (p : pyobj),
    fst (working_api_base_url W h) = Val (Some p) ->
    exists t1 t2,
      snd (working_api_base_url W h)
      = (t1 ++ [EvReadStatus; EvGet (Health p) []; EvLog Debug] ++ t2)%list
      /\ probe_ok (http_get W (h ++ t1 ++ [EvReadStatus])%list (Health p) [])
         = true
      /\ (t2 = [] \/ t2 = [EvLog Info]).
Proof.
  intros W h p Hsome.
  destruct (ensure_dash_running W h) as [[[|] | e] d1] eqn:Hrun.
  - destruct (get_dash_api_port W (h ++ d1)%list) as [[[q |] | e] d2]
      eqn:Hport.
    + rewrite (working_api_base_url_found W h d1 d2 q Hrun Hport) in *.
      cbn [fst snd] in *. injection Hsome as ->.
      destruct (get_dash_api_port_some_trace W _ _ _ Hport) as [-> Hprobe].
      exists d1, []. rewrite <- app_assoc in Hprobe.
      repeat split; [exact Hprobe | now left].
    + destruct (defaults_write W (h ++ d1 ++ d2 ++ [EvLog Info])%list Dashdoc)
        as [rc1 | m1] eqn:Hw1.
      * destruct (Z.eq_dec rc1 0) as [-> | Hne1].
        -- destruct (defaults_write W
                       (h ++ d1 ++ d2
                          ++ [EvLog Info; EvDefaultsWrite Dashdoc])%list Setapp)
             as [rc2 | m2] eqn:Hw2.
           ++ destruct (Z.eq_dec rc2 0) as [-> | Hne2].
              ** destruct (get_dash_api_port W
                             (h ++ d1 ++ d2 ++ EvLog Info :: enable_actions)%list)
                   as [r4 d4] eqn:Hre.
                 rewrite (working_api_base_url_recheck W h d1 d2 d4 r4
                            Hrun Hport Hw1 Hw2 Hre) in *.
                 cbn [fst snd] in *.
                 destruct r4 as [[q |] | e]; try discriminate.
                 injection Hsome as ->.
                 destruct (get_dash_api_port_some_trace W _ _ _ Hre)
                   as [-> Hprobe].
                 exists (d1 ++ d2 ++ EvLog Info :: enable_actions)%list,
                   [EvLog Info].
                 rewrite <- !app_assoc in *. cbn [app] in *.
                 repeat split; [exact Hprobe | now right].
              ** rewrite (working_api_base_url_second_write_fails W h d1 d2
                            Hrun Hport Hw1) in Hsome;
                   [discriminate | congruence].
           ++ rewrite (working_api_base_url_second_write_fails W h d1 d2
                         Hrun Hport Hw1) in Hsome;
                [discriminate | congruence].
        -- rewrite (working_api_base_url_first_write_fails W h d1 d2
                      Hrun Hport) in Hsome; [discriminate | congruence].
      * rewrite (working_api_base_url_first_write_fails W h d1 d2
                   Hrun Hport) in Hsome; [discriminate | congruence].
    + rewrite (working_api_base_url_discovery_raises W h d1 d2 e Hrun Hport)
        in Hsome. discriminate.
  - rewrite (working_api_base_url_not_running W h d1 Hrun) in Hsome.
    discriminate.
  - unfold working_api_base_url, bind at 1 in Hsome. rewrite Hrun in Hsome.
    discriminate.
Qed.

Lemma working_api_base_url_probed_witness :
  exists t1 t2,
    snd (working_api_base_url (world_serving plain_ok) [])
    = (t1 ++ [EvReadStatus; EvGet (Health (PInt 5000)) []; EvLog Debug]
          ++ t2)%list
    /\ probe_ok (http_get (world_serving plain_ok)
                          ([] ++ t1 ++ [EvReadStatus])%list
                          (Health (PInt 5000)) []) = true
    /\ (t2 = [] \/ t2 = [EvLog Info]).
Proof.
  apply (working_api_base_url_probed (world_serving plain_ok) [] (PInt 5000)).
  reflexivity.
Defined.

(** ** Pruning the page *)

Lemma node_nested_ind (P : node -> Prop) :
  (forall s, P (TextNode s)) ->
  (forall tag children, Forall P children -> P (Element tag children)) ->
  forall n, P n.
Proof.
  intros HText HElem. fix IH 1. intros [s | tag children].
  - apply HText.
  - apply HElem. induction children as [| c children IHc]; constructor;
      [apply IH | exact IHc].
Qed.

Lemma clean_flat_map (soup : list node) :
  Forall (fun n => forallb clean_node (decompose_in n) = true) soup ->
  forallb clean_node (flat_map decompose_in soup) = true.
Proof.
  induction 1 as [| n soup Hn Hsoup IH]; [reflexivity |].
  cbn [flat_map]. rewrite forallb_app, Hn, IH. reflexivity.
Qed.

Lemma decompose_in_clean (n : node) :
  forallb clean_node (decompose_in n) = true.
Proof.
  induction n as [s | tag children IH] using node_nested_ind;
    [reflexivity |].
  cbn [decompose_in]. destruct (unwanted tag) eqn:Htag; [reflexivity |].
  cbn [forallb clean_node]. rewrite Htag. cbn [negb andb].
  rewrite andb_true_r. now apply clean_flat_map.
Qed.

Lemma identity_flat_map (soup : list node) :
  Forall (fun n => clean_node n = true -> decompose_in n = [n]) soup ->
  forallb clean_node soup = true ->
  flat_map decompose_in soup = soup.
Proof.
  induction 1 as [| n soup Hn Hsoup IH]; [reflexivity |].
  cbn [forallb flat_map]. intros Hclean.
  apply andb_true_iff in Hclean. destruct Hclean as [Hc Hrest].
  now rewrite (Hn Hc), (IH Hrest).
Qed.

Lemma decompose_in_identity (n : node) :
  clean_node n = true -> decompose_in n = [n].
Proof.
  induction n as [s | tag children IH] using node_nested_ind;
    [reflexivity |].
  cbn [clean_node decompose_in]. intros Hclean.
  apply andb_true_iff in Hclean. destruct Hclean as [Htag Hch].
  apply negb_true_iff in Htag. rewrite Htag.
  now rewrite (identity_flat_map children IH Hch).
Qed.

Lemma clean_not_mentioned (tag : string) (n : node) :
  unwanted tag = true -> clean_node n = true -> mentions_in tag n = false.
Proof.
  intros Htag.
  induction n as [s | t children IH] using node_nested_ind;
    [reflexivity |].
  cbn [clean_node mentions_in]. intros Hclean.
  apply andb_true_iff in Hclean. destruct Hclean as [Ht Hch].
  apply negb_true_iff in Ht.
  destruct (String.eqb t tag) eqn:Heq.
  - apply String.eqb_eq in Heq. subst t. congruence.
  - cbn [orb]. clear Ht Heq.
    induction IH as [| c children Hc Hrest IHl]; [reflexivity |].
    cbn [forallb existsb] in *.
    apply andb_true_iff in Hch. destruct Hch as [Hcc Hcr].
    now rewrite (Hc Hcc), (IHl Hcr).
Qed.

Lemma find_in_none (tag : string) (n : node) :
  mentions_in tag n = false -> find_in tag n = None.
Proof.
  induction n as [s | t children IH] using node_nested_ind;
    [reflexivity |].
  cbn [mentions_in find_in]. intros Hm.
  apply orb_false_iff in Hm. destruct Hm as [Ht Hch]. rewrite Ht.
  induction IH as [| c children Hc Hrest IHl]; [reflexivity |].
  cbn [existsb] in Hch. apply orb_false_iff in Hch.
  destruct Hch as [Hcc Hcr]. now rewrite (Hc Hcc), (IHl Hcr).
Qed.

(** X21.  After the pruning no [script], [style], [nav] or [header]
    element is left in the page, at any depth, so none reaches the
    converter; pruning a page that holds none of them changes nothing,
    and pruning twice is pruning once. *)
Theorem decompose_unwanted_clean :
  forall soup : list node,
    forallb clean_node (decompose_unwanted soup) = true
    /\ (forall tag, unwanted tag = true ->
                    mentions tag (decompose_unwanted soup) = false
                    /\ soup_find tag (decompose_unwanted soup) = None)
    /\ (forallb clean_node soup = true -> decompose_unwanted soup = soup)
    /\ decompose_unwanted (decompose_unwanted soup) = decompose_unwanted soup.
Proof.
  intros soup.
  assert (Hclean : forallb clean_node (decompose_unwanted soup) = true).
  { unfold decompose_unwanted. apply clean_flat_map.
    apply Forall_forall. intros n _. apply decompose_in_clean. }
  assert (Hid : forall s, forallb clean_node s = true ->
                          decompose_unwanted s = s).
  { intros s Hs. unfold decompose_unwanted. apply identity_flat_map; [| exact Hs].
    apply Forall_forall. intros n _. apply decompose_in_identity. }
  split; [exact Hclean |]. split; [| split; [apply Hid | now apply Hid]].
  intros tag Htag.
  assert (Hm : forall s, forallb clean_node s = true -> mentions tag s = false).
  { induction s as [| n s IHs]; [reflexivity |].
    cbn [forallb mentions existsb]. intros Hs.
    apply andb_true_iff in Hs. destruct Hs as [Hn Hrest].
    rewrite (clean_not_mentioned tag n Htag Hn). now apply IHs. }
  split; [now apply Hm |].
  specialize (Hm _ Hclean). revert Hm.
  generalize (decompose_unwanted soup) as s.
  induction s as [| n s IHs]; [reflexivity |].
  cbn [mentions existsb soup_find]. intros Hs.
  apply orb_false_iff in Hs. destruct Hs as [Hn Hrest].
  rewrite (find_in_none tag n Hn). now apply IHs.
Qed.

(** ** Substrings *)

Lemma prefix_iff (needle haystack : string) :
  prefix needle haystack = true <-> exists rest, haystack = needle ++ rest.
Proof.
  revert haystack.
  induction needle as [| c needle IH]; intros haystack.
  - destruct haystack; cbn; (split; [intros _; eexists; reflexivity | reflexivity]).
  - destruct haystack as [| d haystack]; cbn [prefix append].
    + split; [discriminate | intros [rest Hr]; discriminate].
    + destruct (ascii_dec c d) as [-> | Hne].
      * rewrite IH. split; intros [rest Hr]; exists rest; congruence.
      * split; [discriminate |].
        intros [rest Hr]. injection Hr as Hd _. congruence.
Qed.

Lemma contains_unfold (needle haystack : string) :
  contains needle haystack
  = prefix needle haystack
    || match haystack with
       | EmptyString => false
       | String _ rest => contains needle rest
       end.
Proof. destruct haystack; reflexivity. Qed.

Lemma contains_substring :
  forall needle haystack : string,
    contains needle haystack = true <->
    exists before after, haystack = before ++ needle ++ after.
Proof.
  intros needle haystack. induction haystack as [| c rest IH].
  - rewrite contains_unfold, orb_false_r, prefix_iff. split.
    + intros [after Ha]. exists EmptyString, after. exact Ha.
    + intros (before & after & Hb). destruct before; [now exists after |].
      discriminate.
  - rewrite contains_unfold. split.
    + intros Hc. apply orb_true_iff in Hc. destruct Hc as [Hp | Hr].
      * apply prefix_iff in Hp. destruct Hp as [after Ha].
        exists EmptyString, after. exact Ha.
      * apply IH in Hr. destruct Hr as (before & after & ->).
        exists (String c before), after. reflexivity.
    + intros (before & after & Hb). apply orb_true_iff.
      destruct before as [| d before].
      * left. apply prefix_iff. now exists after.
      * right. apply IH. injection Hb as _ ->. now exists before, after.
Qed.

(** ** The clean-up, step by step *)

Lemma rstrip_ends_clean (s : string) : ends_clean (rstrip s) = true.
Proof.
  induction s as [| c rest IH]; [reflexivity |].
  cbn [rstrip]. destruct (rstrip rest) as [| k kept] eqn:Hkept.
  - destruct (is_space c) eqn:Hs; [reflexivity |]. cbn. now rewrite Hs.
  - cbn [ends_clean] in *. exact IH.
Qed.

(** X22.  The text [clean_whitespace] returns is trimmed: it neither
    begins nor ends with whitespace, and trimming it again changes
    nothing; and no line of it ends in a space or a tab, so the second
    substitution would find nothing more to delete. *)
Theorem clean_whitespace_trimmed :
  forall s : string,
    starts_clean (clean_whitespace s) = true
    /\ ends_clean (clean_whitespace s) = true
    /\ strip (clean_whitespace s) = clean_whitespace s
    /\ line_ends_clean (clean_whitespace s) = true
    /\ strip_line_ends (clean_whitespace s) = clean_whitespace s.
Proof.
  intros s. unfold clean_whitespace.
  assert (Hclean :
    line_ends_clean (strip (strip_line_ends (collapse_newlines s))) = true)
    by (unfold strip;
        apply rstrip_line_ends_clean, lstrip_line_ends_clean,
          strip_line_ends_clean).
  repeat split.
  - unfold strip. apply rstrip_starts_clean, lstrip_starts_clean.
  - unfold strip. apply rstrip_ends_clean.
  - apply strip_idempotent.
  - exact Hclean.
  - now apply strip_line_ends_identity.
Qed.

Lemma line_ends_clean_newlines (k : nat) (s : string) :
  line_ends_clean (newlines k ++ s) = line_ends_clean s.
Proof. induction k as [| k IH]; [reflexivity | exact IH]. Qed.

Lemma emit_run_starts (pending : nat) :
  exists k, emit_run (S pending) = String LF (newlines k).
Proof.
  unfold emit_run. destruct (3 <=? S pending)%nat; eexists; reflexivity.
Qed.

Lemma emit_run_newlines (pending : nat) :
  exists k, emit_run pending = newlines k.
Proof.
  unfold emit_run. destruct (3 <=? pending)%nat; eexists; reflexivity.
Qed.

Lemma collapse_from_starts (s : string) :
  forall pending,
    exists x, collapse_from (S pending) s = String LF x.
Proof.
  induction s as [| c rest IH]; intros pending; cbn [collapse_from].
  - destruct (emit_run_starts pending) as [k ->]. eexists. reflexivity.
  - destruct (Ascii.eqb c LF); [apply IH |].
    destruct (emit_run_starts pending) as [k ->]. eexists. reflexivity.
Qed.

Lemma blank_to_eol_collapse (s : string) :
  blank_to_eol (collapse_from 0 s) = blank_to_eol s.
Proof.
  induction s as [| c rest IH]; [reflexivity |].
  cbn [collapse_from blank_to_eol].
  destruct (Ascii.eqb c LF) eqn:Hlf.
  - destruct (collapse_from_starts rest 0) as [x ->]. reflexivity.
  - cbn [emit_run Nat.leb newlines append blank_to_eol]. rewrite Hlf.
    destruct (is_blank c); [exact IH | reflexivity].
Qed.

Lemma line_ends_clean_collapse (s : string) :
  forall pending,
    line_ends_clean (collapse_from pending s) = line_ends_clean s.
Proof.
  induction s as [| c rest IH]; intros pending; cbn [collapse_from].
  - destruct (emit_run_newlines pending) as [k ->].
    rewrite <- (append_nil_r (newlines k)).
    apply line_ends_clean_newlines.
  - destruct (Ascii.eqb c LF) eqn:Hlf.
    + rewrite IH. apply Ascii.eqb_eq in Hlf. subst c. reflexivity.
    + destruct (emit_run_newlines pending) as [k ->].
      rewrite line_ends_clean_newlines. cbn [line_ends_clean].
      now rewrite blank_to_eol_collapse, IH.
Qed.

Lemma rstrip_is_prefix (s : string) : exists tail, s = rstrip s ++ tail.
Proof.
  induction s as [| c rest [tail IH]]; [now exists EmptyString |].
  cbn [rstrip]. destruct (rstrip rest) as [| k kept] eqn:Hkept.
  - destruct (is_space c); [now exists (String c rest) |].
    exists rest. reflexivity.
  - exists tail. cbn [append] in *. now rewrite <- IH.
Qed.

Lemma contains_lstrip (needle s : string) :
  contains needle (lstrip s) = true -> contains needle s = true.
Proof.
  induction s as [| c rest IH]; [trivial |].
  cbn [lstrip]. destruct (is_space c); [| trivial].
  intros Hc. rewrite contains_unfold, (IH Hc). apply orb_true_r.
Qed.

Lemma contains_rstrip (needle s : string) :
  contains needle (rstrip s) = true -> contains needle s = true.
Proof.
  intros Hc. apply contains_substring in Hc.
  destruct Hc as (before & after & Hb).
  destruct (rstrip_is_prefix s) as [tail Ht].
  apply contains_substring. exists before, (after ++ tail).
  rewrite Ht, Hb. now rewrite !append_assoc.
Qed.

Lemma strip_no_run (s : string) :
  has_blank_run s = false -> has_blank_run (strip s) = false.
Proof.
  unfold has_blank_run, strip. intros Hs.
  destruct (contains (newlines 3) (rstrip (lstrip s))) eqn:Hc;
    [| reflexivity].
  apply contains_rstrip, contains_lstrip in Hc. congruence.
Qed.

(** The second pass removes every run the first one left. *)
Lemma clean_whitespace_second_pass_no_run (s : string) :
  has_blank_run (clean_whitespace (clean_whitespace s)) = false.
Proof.
  unfold clean_whitespace at 1.
  rewrite strip_line_ends_identity.
  - apply strip_no_run, collapse_newlines_no_run.
  - unfold collapse_newlines. rewrite line_ends_clean_collapse.
    unfold clean_whitespace, strip.
    apply rstrip_line_ends_clean, lstrip_line_ends_clean,
      strip_line_ends_clean.
Qed.

(** X23.  The clean-up can fail to be idempotent only through a run of
    three or more newlines left in its result: whenever the result holds
    no such run, cleaning it again returns it unchanged.  A second pass
    always removes such runs, so the clean-up is stable from its second
    application on: the third result equals the second. *)
Theorem clean_whitespace_idempotent_without_run :
  forall s : string,
    (has_blank_run (clean_whitespace s) = false ->
     clean_whitespace (clean_whitespace s) = clean_whitespace s)
    /\ has_blank_run (clean_whitespace (clean_whitespace s)) = false
    /\ clean_whitespace (clean_whitespace (clean_whitespace s))
       = clean_whitespace (clean_whitespace s).
Proof.
  intros s. split; [apply clean_whitespace_fixed_unless_run |].
  split; [apply clean_whitespace_second_pass_no_run |].
  apply clean_whitespace_fixed_unless_run,
    clean_whitespace_second_pass_no_run.
Qed.

Lemma clean_whitespace_idempotent_without_run_witness :
  clean_whitespace
    (clean_whitespace ("  a  " ++ newlines 5 ++ "b" ++ nl ++ "   "))
  = clean_whitespace ("  a  " ++ newlines 5 ++ "b" ++ nl ++ "   ").
Proof.
  apply (proj1 (clean_whitespace_idempotent_without_run
                  ("  a  " ++ newlines 5 ++ "b" ++ nl ++ "   "))).
  reflexivity.
Defined.

Lemma collapse_newlines_idempotent_aux (s : string) :
  collapse_newlines (collapse_newlines s) = collapse_newlines s.
Proof. apply collapse_newlines_identity, collapse_newlines_no_run. Qed.

(** X24.  The first substitution, [re.sub(r'\n{3,}', '\n\n', _)], does
    what its comment says: its result never holds three newlines in a
    row; a text without such a run is returned unchanged; applying it
    twice is applying it once. *)
Theorem collapse_newlines_collapses :
  forall s : string,
    has_blank_run (collapse_newlines s) = false
    /\ (has_blank_run s = false -> collapse_newlines s = s)
    /\ collapse_newlines (collapse_newlines s) = collapse_newlines s.
Proof.
  intros s. split; [apply collapse_newlines_no_run |].
  split; [apply collapse_newlines_identity |].
  apply collapse_newlines_idempotent_aux.
Qed.

(** ** Blank arguments and substrings *)

Lemma lstrip_empty_iff (s : string) :
  lstrip s = EmptyString <-> all_space s = true.
Proof.
  induction s as [| c rest IH]; [split; reflexivity |].
  cbn [lstrip all_space]. destruct (is_space c); cbn [andb].
  - exact IH.
  - split; discriminate.
Qed.

Lemma rstrip_starts_nonempty (c : ascii) (rest : string) :
  is_space c = false -> rstrip (String c rest) <> EmptyString.
Proof.
  intros Hc. cbn [rstrip]. destruct (rstrip rest); rewrite ?Hc; discriminate.
Qed.

(** X25.  The blank-argument test of the tools, [not s.strip()], holds
    exactly when every character of the argument is whitespace (the
    empty string included): an argument with one character that is no
    whitespace passes, wherever that character stands. *)
Theorem is_blank_arg_all_space :
  forall s : string, is_blank_arg s = all_space s.
Proof.
  intros s. unfold is_blank_arg, strip.
  destruct (all_space s) eqn:Hall.
  - apply lstrip_empty_iff in Hall. now rewrite Hall.
  - assert (Hstart := lstrip_starts_clean s).
    destruct (lstrip s) as [| c rest] eqn:Hl.
    + assert (all_space s = true) by (now apply lstrip_empty_iff).
      congruence.
    + cbn [starts_clean] in Hstart. apply negb_true_iff in Hstart.
      assert (Hne := rstrip_starts_nonempty c rest Hstart).
      destruct (rstrip (String c rest)); [now contradiction Hne | reflexivity].
Qed.

(** X26.  The phrase test of the error handlers, [needle in text],
    holds exactly when the text consists of something, then the phrase,
    then something: the phrase counts wherever it stands in the body,
    with its exact spelling and case. *)
Theorem contains_iff_substring :
  forall needle haystack : string,
    contains needle haystack = true <->
    exists before after, haystack = before ++ needle ++ after.
Proof. exact contains_substring. Qed.

(** ** Discovery reads and probes, nothing else *)

Lemma occurrences_only (k : ekind) (t : trace) :
  occurrences k t = total (only k) t.
Proof. apply occurrences_total. Qed.

Lemma get_dash_api_port_starts (W : World) (h : trace) :
  exists tail, snd (get_dash_api_port W h) = EvReadStatus :: tail.
Proof.
  unfold get_dash_api_port, read_port.
  rewrite try_except_snd, bind_snd, bind_snd. cbn [perform snd app].
  eexists. reflexivity.
Qed.

(** X27.  One discovery reads the status file exactly once, probes at
    most one port, and changes nothing: it never checks for or launches
    the application, writes a setting or waits.  It is not total,
    though: a status file whose JSON is not an object makes it raise
    instead of answering absent. *)
Theorem get_dash_api_port_read_only :
  forall (W : World) (h : trace),
    occurrences KRead (snd (get_dash_api_port W h)) = 1%nat
    /\ (occurrences KHealth (snd (get_dash_api_port W h)) <= 1)%nat
    /\ occurrences KPgrep (snd (get_dash_api_port W h)) = O
    /\ occurrences (KOpen Dashdoc) (snd (get_dash_api_port W h)) = O
    /\ occurrences (KOpen Setapp) (snd (get_dash_api_port W h)) = O
    /\ occurrences (KWrite Dashdoc) (snd (get_dash_api_port W h)) = O
    /\ occurrences (KWrite Setapp) (snd (get_dash_api_port W h)) = O
    /\ occurrences KSleep (snd (get_dash_api_port W h)) = O
    /\ (forall v,
           read_status W h = Parsed v -> (forall kvs, v <> PDict kvs) ->
           exists e, get_dash_api_port W h = (Exc e, [EvReadStatus])).
Proof.
  intros W h.
  assert (Hc := fun k => costs_get_dash_api_port (only k) W h).
  assert (Hread := Hc KRead). assert (Hhealth := Hc KHealth).
  assert (Hpgrep := Hc KPgrep). assert (Hod := Hc (KOpen Dashdoc)).
  assert (Hos := Hc (KOpen Setapp)). assert (Hwd := Hc (KWrite Dashdoc)).
  assert (Hws := Hc (KWrite Setapp)). assert (Hsleep := Hc KSleep).
  rewrite <- occurrences_only in *.
  cbn in Hread, Hhealth, Hpgrep, Hod, Hos, Hwd, Hws, Hsleep.
  destruct (get_dash_api_port_starts W h) as [tail Htail].
  assert (Hone : (1 <= occurrences KRead (snd (get_dash_api_port W h)))%nat)
    by (rewrite Htail; unfold occurrences; cbn; lia).
  repeat split; try lia.
  intros v Hv Hnot. apply get_dash_api_port_raises.
  right. exists v. split; assumption.
Qed.

(** ** Fetching goes straight to the page *)

Lemma fetch_documentation_content_starts (W : World)
      (BeautifulSoup : string -> outcome (list node))
      (md : list node -> outcome string) (load_url : string) (h : trace) :
  is_blank_arg load_url = false ->
  exists tail,
    snd (fetch_documentation_content W BeautifulSoup md load_url h)
    = EvLog Debug :: EvGet (External load_url) [] :: tail.
Proof.
  intros Hb. unfold fetch_documentation_content. rewrite Hb.
  rewrite try_except_snd, bind_snd. cbn [log perform fst snd app].
  rewrite bind_snd, client_get_snd. cbn [app].
  eexists. reflexivity.
Qed.

(** X28.  [fetch_documentation_content] does not use the lifecycle
    ladder: it never checks for or launches the application, writes a
    setting, waits, reads the status file, probes a port or calls the
    API.  With a blank argument it sends nothing; otherwise its one
    request goes to the [load_url] exactly as given. *)
Theorem fetch_documentation_content_direct :
  forall (W : World) (BeautifulSoup : string -> outcome (list node))
         (md : list node -> outcome string) (load_url : string) (h : trace),
    no_lifecycle
      (snd (fetch_documentation_content W BeautifulSoup md load_url h))
    /\ occurrences KApi
         (snd (fetch_documentation_content W BeautifulSoup md load_url h)) = O
    /\ (is_blank_arg load_url = true ->
        snd (fetch_documentation_content W BeautifulSoup md load_url h)
        = [EvLog Error])
    /\ (is_blank_arg load_url = false ->
        occurrences KFetch
          (snd (fetch_documentation_content W BeautifulSoup md load_url h))
        = 1%nat
        /\ exists tail,
             snd (fetch_documentation_content W BeautifulSoup md load_url h)
             = EvLog Debug :: EvGet (External load_url) [] :: tail).
Proof.
  intros W BeautifulSoup md load_url h.
  assert (Hc := fun k =>
            costs_fetch_documentation_content (only k) W BeautifulSoup md
              load_url h).
  assert (H1 := Hc KPgrep). assert (H2 := Hc (KOpen Dashdoc)).
  assert (H3 := Hc (KOpen Setapp)). assert (H4 := Hc (KWrite Dashdoc)).
  assert (H5 := Hc (KWrite Setapp)). assert (H6 := Hc KSleep).
  assert (H7 := Hc KRead). assert (H8 := Hc KHealth).
  assert (H9 := Hc KApi). assert (H10 := Hc KFetch).
  rewrite <- occurrences_only in *.
  cbn in H1, H2, H3, H4, H5, H6, H7, H8, H9, H10.
  unfold no_lifecycle.
  repeat split; try lia.
  - intros Hb. unfold fetch_documentation_content. now rewrite Hb.
  - destruct (fetch_documentation_content_starts W BeautifulSoup md load_url
                h H) as [tail Htail].
    assert (1 <= occurrences KFetch
                   (snd (fetch_documentation_content W BeautifulSoup md
                           load_url h)))%nat
      by (rewrite Htail; unfold occurrences; cbn; lia).
    lia.
  - now apply fetch_documentation_content_starts.
Qed.

Lemma fetch_documentation_content_direct_witness :
  snd (fetch_documentation_content world_api_disabled
         (fun _ => Val []) (fun _ => Val EmptyString) "   " [])
  = [EvLog Error].
Proof.
  destruct (fetch_documentation_content_direct world_api_disabled
              (fun _ => Val []) (fun _ => Val EmptyString) "   " [])
    as (_ & _ & Hblank & _).
  apply Hblank. reflexivity.
Defined.

(** X29.  What [fetch_documentation_content] reports.  An error status
    gives "HTTP error <status>: <reason phrase>"; a request that fails
    gives "Failed to fetch content: " followed by the text of the
    failure. *)
Theorem fetch_documentation_content_errors :
  forall (W : World) (BeautifulSoup : string -> outcome (list node))
         (md : list node -> outcome string) (load_url : string) (h : trace),
    is_blank_arg load_url = false ->
    (forall r,
        http_get W (h ++ [EvLog Debug])%list (External load_url) [] = Reply r ->
        is_success r = false ->
        fst (fetch_documentation_content W BeautifulSoup md load_url h)
        = Val (error_content load_url
                 ("HTTP error "
                  ++ NilZero.string_of_int (Z.to_int (status_code r))
                  ++ ": " ++ reason_phrase r)))
    /\ (forall msg,
           http_get W (h ++ [EvLog Debug])%list (External load_url) []
           = Failed msg ->
           fst (fetch_documentation_content W BeautifulSoup md load_url h)
           = Val (error_content load_url
                    ("Failed to fetch content: " ++ msg))).
Proof.
  intros W BeautifulSoup md load_url h Hb. split.
  - intros r Hget Hfail.
    rewrite fetch_documentation_content_fst. unfold fetch_result.
    now rewrite Hb, Hget, Hfail.
  - intros msg Hget.
    rewrite fetch_documentation_content_fst. unfold fetch_result.
    now rewrite Hb, Hget.
Qed.

Lemma fetch_documentation_content_errors_witness :
  fst (fetch_documentation_content
         (world_serving (Reply (mkResponse 404 "Not Found" "gone" None)))
         (fun _ => Val []) (fun _ => Val EmptyString)
         "http://127.0.0.1:5000/page.html" [])
  = Val (error_content "http://127.0.0.1:5000/page.html"
           "HTTP error 404: Not Found").
Proof.
  destruct (fetch_documentation_content_errors
              (world_serving (Reply (mkResponse 404 "Not Found" "gone" None)))
              (fun _ => Val []) (fun _ => Val EmptyString)
              "http://127.0.0.1:5000/page.html" [] eq_refl) as [Hstatus _].
  apply (Hstatus (mkResponse 404 "Not Found" "gone" None)); reflexivity.
Defined.

(** ** Arguments are forwarded as given *)

(** X30.  Once the ladder has yielded a base address, [search_documentation]
    sends one request to the search endpoint carrying the four arguments
    exactly as given (the query is checked after stripping but sent
    unstripped), and [enable_docset_fts] sends the identifier exactly as
    given; in both the request directly follows the ladder and one debug
    log line. *)
Theorem tools_forward_arguments :
  forall (W : World) (h : trace) (port : pyobj),
    fst (working_api_base_url W h) = Val (Some port) ->
    (forall query ids snippets max_results,
        search_args_ok query ids max_results = true ->
        exists tail,
          snd (search_documentation W query ids snippets max_results h)
          = (snd (working_api_base_url W h)
             ++ EvLog Debug
             :: EvGet (Search port)
                      [ ("query", PStr query);
                        ("docset_identifiers", PStr ids);
                        ("search_snippets", PBool snippets);
                        ("max_results", PInt max_results) ]
             :: tail)%list)
    /\ (forall identifier,
           is_blank_arg identifier = false ->
           exists tail,
             snd (enable_docset_fts W identifier h)
             = (snd (working_api_base_url W h)
                ++ EvLog Debug
                :: EvGet (EnableFts port) [("identifier", PStr identifier)]
                :: tail)%list).
Proof.
  intros W h port Hw. split.
  - intros query ids snippets max_results Hok.
    unfold search_args_ok in Hok.
    apply andb_true_iff in Hok. destruct Hok as [Hok Hmax].
    apply andb_true_iff in Hok. destruct Hok as [Hq Hi].
    apply negb_true_iff in Hq, Hi, Hmax.
    unfold search_documentation. rewrite Hq, Hi, Hmax.
    rewrite try_except_snd, bind_snd, Hw.
    rewrite bind_snd. cbn [log perform fst snd].
    rewrite bind_snd, client_get_snd.
    rewrite <- !app_assoc. cbn [app]. eexists. reflexivity.
  - intros identifier Hb.
    unfold enable_docset_fts. rewrite Hb.
    rewrite try_except_snd, bind_snd, Hw.
    rewrite bind_snd. cbn [log perform fst snd].
    rewrite bind_snd, client_get_snd.
    rewrite <- !app_assoc. cbn [app]. eexists. reflexivity.
Qed.

Lemma tools_forward_arguments_witness :
  exists tail,
    snd (search_documentation (world_serving plain_ok) " map " "python3"
                              true 5 [])
    = (snd (working_api_base_url (world_serving plain_ok) [])
       ++ EvLog Debug
       :: EvGet (Search (PInt 5000))
                [ ("query", PStr " map ");
                  ("docset_identifiers", PStr "python3");
                  ("search_snippets", PBool true);
                  ("max_results", PInt 5) ]
       :: tail)%list.
Proof.
  destruct (tools_forward_arguments (world_serving plain_ok) [] (PInt 5000)
              eq_refl) as [Hsearch _].
  apply Hsearch. reflexivity.
Defined.
